(** * WAF admin portal: scoring engine, ingress pipeline, rate limiter and
    retention job, embedded from [server/waf/engine.ts], [server/routes.ts],
    [server/middleware.ts] and [server/storage.ts].

    Conventions of the embedding.
    - JavaScript strings are [string] (one [ascii] per code unit; the
      developments below only ever inspect ASCII code units).
    - JavaScript numbers that the code only ever builds from integer
      literals by addition (scores, counters, millisecond clocks, status
      codes) are [Z].  Policy thresholds are read from FLOAT columns and
      are [Q]: every finite double is a rational and [>=] on finite
      doubles is the order of [Q].  NaN and the infinities are left out.
    - A function that can throw returns a [Completion].
    - Module-level mutable objects (the engine's [customRules], the
      [rateLimitStore] map, the tables behind [storage]) are explicit
      state that is passed in and returned. *)

From Stdlib Require Import ZArith QArith String Ascii List Lia Bool DecimalString.
From stdpp Require Import base option gmap strings list.

#[local] Set Warnings "-register-all".

Open Scope Z_scope.

(** ** JavaScript values and built-ins used by the sources *)

Module Js.

(** Outcome of evaluating code that may throw. *)
Inductive Exception : Type :=
| SyntaxError
| TypeError.

Inductive Completion (A : Type) : Type :=
| Normal (a : A)
| Throw (e : Exception).
Arguments Normal {A} a.
Arguments Throw {A} e.

Definition bind {A B : Type} (c : Completion A) (f : A -> Completion B)
  : Completion B :=
  match c with
  | Normal a => f a
  | Throw e => Throw e
  end.

(** *** Strings *)

(** [s.includes(c)] for a one-character needle. *)
Fixpoint includes (c : ascii) (s : string) : bool :=
  match s with
  | EmptyString => false
  | String x s' => if Ascii.eqb x c then true else includes c s'
  end.

(** [s.lastIndexOf(c)] for a one-character needle; [-1] when absent. *)
Fixpoint lastIndexOf (c : ascii) (s : string) : Z :=
  match s with
  | EmptyString => -1
  | String x s' =>
      let r := lastIndexOf c s' in
      if 0 <=? r then r + 1
      else if Ascii.eqb x c then 0 else -1
  end.

(** [s.substring(a, b)]: both indices are clamped to [[0, length]] and
    swapped when out of order. *)
Definition substring (a b : Z) (s : string) : string :=
  let len := Z.of_nat (String.length s) in
  let a' := Z.max 0 (Z.min a len) in
  let b' := Z.max 0 (Z.min b len) in
  let lo := Z.min a' b' in
  let hi := Z.max a' b' in
  String.substring (Z.to_nat lo) (Z.to_nat (hi - lo)) s.

(** *** JSON values, as produced by the body parser *)

Inductive JSON : Type :=
| JNull
| JBool (b : bool)
| JNum (n : Z)
| JStr (s : string)
| JArr (items : list JSON)
| JObj (props : list (string * JSON)).

(** ToBoolean on a JSON value: [null], [false], [0] and [""] are falsy. *)
Definition truthy (v : JSON) : bool :=
  match v with
  | JNull => false
  | JBool b => b
  | JNum n => negb (n =? 0)
  | JStr s => negb (String.eqb s "")
  | JArr _ | JObj _ => true
  end.

(** [v || {}] where [v] may be [undefined]. *)
Definition orEmptyObject (v : option JSON) : JSON :=
  match v with
  | Some j => if truthy j then j else JObj []
  | None => JObj []
  end.

(** The double-quote code unit. *)
Definition dquote : ascii := ascii_of_N 34.

Definition hexDigit (n : N) : ascii :=
  if (n <? 10)%N then ascii_of_N (48 + n) else ascii_of_N (87 + n).

(** QuoteJSONString on one code unit. *)
Definition quoteChar (c : ascii) : string :=
  let n := N_of_ascii c in
  if (n =? 34)%N then String "\" (String dquote "")
  else if (n =? 92)%N then "\\"
  else if (n =? 8)%N then "\b"
  else if (n =? 9)%N then "\t"
  else if (n =? 10)%N then "\n"
  else if (n =? 12)%N then "\f"
  else if (n =? 13)%N then "\r"
  else if (n <? 32)%N then
    "\u00" +:+ String (hexDigit (n / 16)) (String (hexDigit (n mod 16)) "")
  else String c "".

Fixpoint quoteBody (s : string) : string :=
  match s with
  | EmptyString => ""
  | String c s' => quoteChar c +:+ quoteBody s'
  end.

Definition quote (s : string) : string :=
  String dquote (quoteBody s) +:+ String dquote "".

(** The text of an integer; JavaScript prints these digits for an
    integer below 10^21 in absolute value, and an exponent form beyond. *)
Definition numberToString (n : Z) : string :=
  NilZero.string_of_int (Z.to_int n).

Definition joinComma (parts : list string) : string :=
  match parts with
  | [] => ""
  | p :: ps => fold_left (fun acc q => acc +:+ "," +:+ q) ps p
  end.

(** [JSON.stringify(v)] with no replacer and no indentation.  Object
    properties are listed in the order the object enumerates them. *)
Fixpoint stringify (v : JSON) : string :=
  match v with
  | JNull => "null"
  | JBool true => "true"
  | JBool false => "false"
  | JNum n => numberToString n
  | JStr s => quote s
  | JArr items =>
      "[" +:+ joinComma (List.map stringify items) +:+ "]"
  | JObj props =>
      "{" +:+ joinComma
                (List.map (fun kv => quote (fst kv) +:+ ":" +:+ stringify (snd kv))
                          props)
          +:+ "}"
  end.

Definition joinWith (sep : string) (parts : list string) : string :=
  match parts with
  | [] => ""
  | p :: ps => fold_left (fun acc q => acc +:+ sep +:+ q) ps p
  end.

(** ToString, as applied by a template literal.  [Array.prototype.join]
    shows a [null] element as the empty string. *)
Fixpoint toString (v : JSON) : string :=
  match v with
  | JNull => "null"
  | JBool true => "true"
  | JBool false => "false"
  | JNum n => numberToString n
  | JStr s => s
  | JArr items =>
      joinWith "," (List.map (fun x => match x with
                                       | JNull => ""
                                       | _ => toString x
                                       end) items)
  | JObj _ => "[object Object]"
  end.

Fixpoint indexed {A : Type} (i : Z) (l : list A) : list (string * A) :=
  match l with
  | [] => []
  | x :: l' => (numberToString i, x) :: indexed (i + 1) l'
  end.

(** [Object.entries(v)] for a value that is not [null]. *)
Definition entries (v : JSON) : list (string * JSON) :=
  match v with
  | JObj props => props
  | JArr items => indexed 0 items
  | JStr s =>
      indexed 0 (List.map (fun c => JStr (String c "")) (list_ascii_of_string s))
  | JNull | JBool _ | JNum _ => []
  end.

(** [v?.[key]] for a value that may be [undefined]. *)
Definition getProperty (key : string) (v : option JSON) : option JSON :=
  match v with
  | Some (JObj props) =>
      option_map snd (List.find (fun kv => String.eqb (fst kv) key) props)
  | _ => None
  end.

End Js.

(** ** Regular expressions *)

Module RegExp.

(** What [analyzeRequest] needs from the host's regular expressions:
    [new RegExp(pattern, 'i')] either throws a SyntaxError ([None]) or
    yields an object, and [regex.test(text)] decides a string.  The
    theorems about the engine hold for every implementation of this
    interface. *)
Class Engine : Type := {
  regexp : Type;
  construct : string -> option regexp;
  test : regexp -> string -> bool
}.

(** *** An executable fragment of the ECMAScript pattern language

    Used to run the engine on concrete requests.  It covers literal
    characters, [.], character classes with ranges, the class escapes
    [\d \w \s] and their complements, [\b \B ^ $], groups, lookahead,
    alternation and the quantifiers [* + ?] (greedy or lazy), all with
    the [i] flag.  Braced quantifiers, back references, named groups,
    lookbehind, inline modifiers and [\c \x \u] escapes are outside the
    fragment. *)

Inductive ClassItem : Type :=
| CChar (c : ascii)
| CRange (lo hi : ascii)
| CDigit (negated : bool)
| CWord (negated : bool)
| CSpace (negated : bool).

Inductive Node : Type :=
| Empty
| Char (c : ascii)
| Dot
| Class (negated : bool) (items : list ClassItem)
| WordBoundary (negated : bool)
| LineStart
| LineEnd
| Lookahead (negated : bool) (a : Node)
| Seq (a b : Node)
| Alt (a b : Node)
| Star (a : Node).

Definition code (c : ascii) : N := N_of_ascii c.

Definition between (lo hi n : N) : bool := ((lo <=? n) && (n <=? hi))%N.

(** Canonicalize under the [i] flag: ASCII letters are upper-cased, other
    code units are compared as they are. *)
Definition toUpper (c : ascii) : ascii :=
  if between 97 122 (code c) then ascii_of_N (code c - 32) else c.

Definition toLower (c : ascii) : ascii :=
  if between 65 90 (code c) then ascii_of_N (code c + 32) else c.

Definition sameChar (a b : ascii) : bool :=
  Ascii.eqb (toUpper a) (toUpper b).

Definition isDigit (c : ascii) : bool := between 48 57 (code c).

Definition isWordChar (c : ascii) : bool :=
  between 97 122 (code c) || between 65 90 (code c)
  || isDigit c || (code c =? 95)%N.

Definition isSpace (c : ascii) : bool :=
  between 9 13 (code c) || (code c =? 32)%N || (code c =? 160)%N.

Definition isLineTerminator (c : ascii) : bool :=
  (code c =? 10)%N || (code c =? 13)%N.

Definition inRange (lo hi c : ascii) : bool :=
  between (code lo) (code hi) (code c).

Definition itemMatches (c : ascii) (it : ClassItem) : bool :=
  match it with
  | CChar m => sameChar m c
  | CRange lo hi =>
      inRange lo hi c || inRange lo hi (toUpper c) || inRange lo hi (toLower c)
  | CDigit neg => xorb neg (isDigit c)
  | CWord neg => xorb neg (isWordChar c)
  | CSpace neg => xorb neg (isSpace c)
  end.

Definition isWordAt (o : option ascii) : bool :=
  match o with
  | Some c => isWordChar c
  | None => false
  end.

(** Backtracking matcher in continuation-passing style.  [prev] is the
    code unit before the current position ([None] at index 0), [s] the
    rest of the input, [k] what has to match afterwards.  An iteration of
    [Star] that consumes nothing is abandoned, as in RepeatMatcher. *)
Fixpoint matchNode (n : Node) (prev : option ascii) (s : list ascii)
         (k : option ascii -> list ascii -> bool) {struct n} : bool :=
  match n with
  | Empty => k prev s
  | Char c =>
      match s with
      | x :: s' => sameChar c x && k (Some x) s'
      | [] => false
      end
  | Dot =>
      match s with
      | x :: s' => negb (isLineTerminator x) && k (Some x) s'
      | [] => false
      end
  | Class neg items =>
      match s with
      | x :: s' => xorb neg (existsb (itemMatches x) items) && k (Some x) s'
      | [] => false
      end
  | WordBoundary neg =>
      xorb neg (xorb (isWordAt prev) (isWordAt (head s))) && k prev s
  | LineStart =>
      match prev with
      | None => k prev s
      | Some _ => false
      end
  | LineEnd =>
      match s with
      | [] => k prev s
      | _ :: _ => false
      end
  | Lookahead neg a =>
      xorb neg (matchNode a prev s (fun _ _ => true)) && k prev s
  | Seq a b => matchNode a prev s (fun p s' => matchNode b p s' k)
  | Alt a b => matchNode a prev s k || matchNode b prev s k
  | Star a =>
      (fix iterate (fuel : nat) (p : option ascii) (s0 : list ascii) : bool :=
         match fuel with
         | O => k p s0
         | S fuel' =>
             matchNode a p s0
               (fun p' s1 =>
                  if (length s1 <? length s0)%nat then iterate fuel' p' s1
                  else false)
             || k p s0
         end) (length s) prev s
  end.

(** [regex.test(text)] without the [g] flag: a match may start at any
    index. *)
Fixpoint searchFrom (n : Node) (prev : option ascii) (s : list ascii) : bool :=
  matchNode n prev s (fun _ _ => true)
  || match s with
     | [] => false
     | c :: s' => searchFrom n (Some c) s'
     end.

Definition testNode (n : Node) (text : string) : bool :=
  searchFrom n None (list_ascii_of_string text).

(** *** Parsing a pattern of the fragment *)

Inductive Parsed : Type :=
| POk (n : Node)
| PSyntaxError
| PUnsupported.

Inductive Escape : Type :=
| EChar (c : ascii)
| EItem (it : ClassItem)
| EAssert (negated : bool)
| EUnsupported.

(** The atom denoted by a backslash followed by [c]. *)
Definition escapeOf (inClass : bool) (c : ascii) : Escape :=
  match c with
  | "d" => EItem (CDigit false)
  | "D" => EItem (CDigit true)
  | "w" => EItem (CWord false)
  | "W" => EItem (CWord true)
  | "s" => EItem (CSpace false)
  | "S" => EItem (CSpace true)
  | "b" => if inClass then EChar (ascii_of_N 8) else EAssert false
  | "B" => if inClass then EChar c else EAssert true
  | "t" => EChar (ascii_of_N 9)
  | "n" => EChar (ascii_of_N 10)
  | "v" => EChar (ascii_of_N 11)
  | "f" => EChar (ascii_of_N 12)
  | "r" => EChar (ascii_of_N 13)
  | "c" | "x" | "u" | "k" => EUnsupported
  | _ => if isDigit c then EUnsupported else EChar c
  end%char.

Inductive ClassResult : Type :=
| COk (items : list ClassItem) (rest : list ascii)
| CSyntaxError
| CUnsupported.

Inductive ClassAtom : Type :=
| AOk (e : Escape) (rest : list ascii)
| AEnd.

Definition classAtom (s : list ascii) : ClassAtom :=
  match s with
  | "\"%char :: c :: rest => AOk (escapeOf true c) rest
  | "\"%char :: [] => AEnd
  | c :: rest => AOk (EChar c) rest
  | [] => AEnd
  end.

Definition itemOf (e : Escape) : option ClassItem :=
  match e with
  | EChar c => Some (CChar c)
  | EItem it => Some it
  | EAssert _ | EUnsupported => None
  end.

(** The inside of [[...]], after the optional [^]. *)
Fixpoint parseClass (fuel : nat) (acc : list ClassItem) (s : list ascii)
  : ClassResult :=
  match fuel with
  | O => CSyntaxError
  | S fuel' =>
      match s with
      | [] => CSyntaxError
      | "]"%char :: rest => COk (rev acc) rest
      | _ =>
          match classAtom s with
          | AEnd => CSyntaxError
          | AOk a rest1 =>
              match itemOf a with
              | None => CUnsupported
              | Some ia =>
                  match rest1 with
                  | "-"%char :: ("]"%char :: _) =>
                      parseClass fuel' (ia :: acc) rest1
                  | "-"%char :: rest2 =>
                      match classAtom rest2 with
                      | AEnd => CSyntaxError
                      | AOk b rest3 =>
                          match a, b, itemOf b with
                          | EChar lo, EChar hi, _ =>
                              if (code lo <=? code hi)%N
                              then parseClass fuel' (CRange lo hi :: acc) rest3
                              else CSyntaxError
                          | _, _, Some ib =>
                              parseClass fuel' (ib :: CChar "-" :: ia :: acc) rest3
                          | _, _, None => CUnsupported
                          end
                      end
                  | _ => parseClass fuel' (ia :: acc) rest1
                  end
              end
          end
      end
  end.

Inductive GroupKind : Type :=
| Plain
| Look (negated : bool).

(** A group being read: the alternatives already closed and the terms of
    the current one, both most recent first; the flag tells whether a
    quantifier may follow the term. *)
Record Frame : Type := {
  kind : GroupKind;
  alts : list Node;
  terms : list (Node * bool)
}.

Definition openFrame (k : GroupKind) : Frame :=
  {| kind := k; alts := []; terms := [] |}.

Definition pushTerm (n : Node) (q : bool) (f : Frame) : Frame :=
  {| kind := kind f; alts := alts f; terms := (n, q) :: terms f |}.

Definition seqOf (ts : list (Node * bool)) : Node :=
  fold_left (fun acc t => Seq (fst t) acc) ts Empty.

Definition nextAlternative (f : Frame) : Frame :=
  {| kind := kind f; alts := seqOf (terms f) :: alts f; terms := [] |}.

Definition closeFrame (f : Frame) : Node :=
  let body := fold_left (fun acc a => Alt a acc) (alts f) (seqOf (terms f)) in
  match kind f with
  | Plain => body
  | Look neg => Lookahead neg body
  end.

Definition quantify (q : ascii) (n : Node) : Node :=
  match q with
  | "*"%char => Star n
  | "+"%char => Seq n (Star n)
  | _ => Alt n Empty
  end.

(** A lazy quantifier is followed by one more [?]. *)
Definition skipLazy (s : list ascii) : list ascii :=
  match s with
  | "?"%char :: rest => rest
  | _ => s
  end.

Fixpoint parse (fuel : nat) (stack : list Frame) (top : Frame)
         (s : list ascii) : Parsed :=
  match fuel with
  | O => PSyntaxError
  | S fuel' =>
      match s with
      | [] =>
          match stack with
          | [] => POk (closeFrame top)
          | _ :: _ => PSyntaxError
          end
      | "("%char :: "?"%char :: ":"%char :: rest =>
          parse fuel' (top :: stack) (openFrame Plain) rest
      | "("%char :: "?"%char :: "="%char :: rest =>
          parse fuel' (top :: stack) (openFrame (Look false)) rest
      | "("%char :: "?"%char :: "!"%char :: rest =>
          parse fuel' (top :: stack) (openFrame (Look true)) rest
      | "("%char :: "?"%char :: "<"%char :: _ => PUnsupported
      | "("%char :: "?"%char :: _ => PSyntaxError
      | "("%char :: rest =>
          parse fuel' (top :: stack) (openFrame Plain) rest
      | ")"%char :: rest =>
          match stack with
          | [] => PSyntaxError
          | parent :: stack' =>
              parse fuel' stack' (pushTerm (closeFrame top) true parent) rest
          end
      | "|"%char :: rest => parse fuel' stack (nextAlternative top) rest
      | ("*" | "+" | "?")%char as q :: rest =>
          match terms top with
          | (n, true) :: ts =>
              parse fuel' stack
                {| kind := kind top; alts := alts top;
                   terms := (quantify q n, false) :: ts |}
                (skipLazy rest)
          | _ => PSyntaxError
          end
      | "{"%char :: _ => PUnsupported
      | "["%char :: "^"%char :: rest =>
          match parseClass (S (length rest)) [] rest with
          | COk items rest' =>
              parse fuel' stack (pushTerm (Class true items) true top) rest'
          | CSyntaxError => PSyntaxError
          | CUnsupported => PUnsupported
          end
      | "["%char :: rest =>
          match parseClass (S (length rest)) [] rest with
          | COk items rest' =>
              parse fuel' stack (pushTerm (Class false items) true top) rest'
          | CSyntaxError => PSyntaxError
          | CUnsupported => PUnsupported
          end
      | "\"%char :: [] => PSyntaxError
      | "\"%char :: c :: rest =>
          match escapeOf false c with
          | EChar x => parse fuel' stack (pushTerm (Char x) true top) rest
          | EItem it => parse fuel' stack (pushTerm (Class false [it]) true top) rest
          | EAssert neg => parse fuel' stack (pushTerm (WordBoundary neg) false top) rest
          | EUnsupported => PUnsupported
          end
      | "."%char :: rest => parse fuel' stack (pushTerm Dot true top) rest
      | "^"%char :: rest => parse fuel' stack (pushTerm LineStart false top) rest
      | "$"%char :: rest => parse fuel' stack (pushTerm LineEnd false top) rest
      | c :: rest => parse fuel' stack (pushTerm (Char c) true top) rest
      end
  end.

Definition parsePattern (p : string) : Parsed :=
  let s := list_ascii_of_string p in
  parse (S (length s)) [] (openFrame Plain) s.

(** The fragment as an implementation of the interface.  A pattern that
    leaves the fragment is refused like a malformed one; the concrete
    runs below only use patterns inside the fragment. *)
Definition fragmentEngine : Engine := {|
  regexp := Node;
  construct := fun p =>
    match parsePattern p with
    | POk n => Some n
    | PSyntaxError | PUnsupported => None
    end;
  test := testNode
|}.

End RegExp.

(** ** The scoring engine: [server/waf/engine.ts] *)

Module Engine.
Import Js.

(** A rule as [analyzeRequest] sees it.  The rows handed to
    [setCustomRules] are rows of the rules table and so also carry its
    [score] column, which the interface in [engine.ts] does not declare;
    the rules built from [defaultPatterns] have no such property. *)
Record WafRule : Type := {
  id : string;
  pattern : string;
  targetField : string;
  severity : string;
  category : string;
  enabled : bool;
  score : option Z
}.

(** [clientIp] is not part of the interface but is read off the same
    object by the ingress route.  The object's own properties are taken
    to be enumerated in the order of the fields below; an absent optional
    property is [None]. *)
Record RequestData : Type := {
  method : string;
  path : string;
  headers : option JSON;
  body : option JSON;
  query : option JSON;
  clientIp : option string
}.

Inductive Action : Type :=
| allow
| block
| challenge.

Record Match : Type := {
  ruleId : string;
  field : string;
  value : string;
  matchSeverity : string
}.

(** The [reason] template strings, by template and interpolated values. *)
Inductive Reason : Type :=
| PassedAllChecks
| ExceededBlock (score : Z) (threshold : Q)
| ExceededChallenge (score : Z) (threshold : Q)
| RequiresMonitoring (score : Z).

Record AnalysisResult : Type := {
  action : Action;
  resultScore : Z;
  matches : list Match;
  reason : Reason
}.

Record Thresholds : Type := {
  blockThreshold : Q;
  challengeThreshold : Q;
  monitorThreshold : Q
}.

Record WafEngine : Type := {
  customRules : list WafRule
}.

(** [export const wafEngine = new WafEngine()] *)
Definition wafEngine : WafEngine := {| customRules := [] |}.

Definition setCustomRules (rules : list WafRule) (this : WafEngine) : WafEngine :=
  {| customRules := List.filter enabled rules |}.

Record DefaultPattern : Type := {
  dpId : string;
  dpSource : string;
  dpField : string;
  dpSeverity : string;
  dpScore : Z
}.

Definition defaultPatterns : list DefaultPattern := [
  {| dpId := "sql-injection";
     dpSource := "(\b(SELECT|INSERT|UPDATE|DELETE|DROP|UNION|ALTER)\b.*\b(FROM|INTO|WHERE|TABLE)\b)";
     dpField := "query"; dpSeverity := "high"; dpScore := 80 |};
  {| dpId := "xss-basic";
     dpSource := "<script[^>]*>.*?<\/script>";
     dpField := "body"; dpSeverity := "high"; dpScore := 70 |};
  {| dpId := "path-traversal";
     dpSource := "\.\.(\/|\\)";
     dpField := "path"; dpSeverity := "medium"; dpScore := 50 |};
  {| dpId := "cmd-injection";
     dpSource := ";|\||&|`|\$\(";
     dpField := "query"; dpSeverity := "high"; dpScore := 75 |}
].

Definition defaultRule (p : DefaultPattern) : WafRule :=
  {| id := dpId p;
     pattern := dpSource p;
     targetField := dpField p;
     severity := dpSeverity p;
     category := "owasp";
     enabled := true;
     score := None |}.

Definition allRules (this : WafEngine) : list WafRule :=
  List.map defaultRule defaultPatterns ++ customRules this.

Definition optProp (k : string) (v : option JSON) : list (string * JSON) :=
  match v with
  | Some j => [(k, j)]
  | None => []
  end.

(** The request object as a JSON value. *)
Definition requestObject (r : RequestData) : JSON :=
  JObj ([("method", JStr (method r)); ("path", JStr (path r))]
        ++ optProp "headers" (headers r)
        ++ optProp "body" (body r)
        ++ optProp "query" (query r)
        ++ optProp "clientIp" (option_map JStr (clientIp r))).

(** A truthy value found under a key of [searchableContent]: one of
    the five strings of the literal, or a member inherited from
    [Object.prototype], kept by its string conversion. *)
Inductive Value : Type :=
| Str (s : string)
| Member (shown : string).

Definition nativeFunction (name : string) : string :=
  "function " +:+ name +:+ "() { [native code] }".

Definition objectPrototype : list (string * string) := [
  ("constructor", nativeFunction "Object");
  ("__defineGetter__", nativeFunction "__defineGetter__");
  ("__defineSetter__", nativeFunction "__defineSetter__");
  ("hasOwnProperty", nativeFunction "hasOwnProperty");
  ("__lookupGetter__", nativeFunction "__lookupGetter__");
  ("__lookupSetter__", nativeFunction "__lookupSetter__");
  ("isPrototypeOf", nativeFunction "isPrototypeOf");
  ("propertyIsEnumerable", nativeFunction "propertyIsEnumerable");
  ("toString", nativeFunction "toString");
  ("valueOf", nativeFunction "valueOf");
  ("__proto__", "[object Object]");
  ("toLocaleString", nativeFunction "toLocaleString")
].

Fixpoint assoc (k : string) (l : list (string * string)) : option string :=
  match l with
  | [] => None
  | (k', v) :: l' => if String.eqb k k' then Some v else assoc k l'
  end.

(** [searchableContent[key]]; [None] is [undefined]. *)
Definition searchableContent (request : RequestData) (key : string)
  : option Value :=
  if String.eqb key "path" then Some (Str (path request))
  else if String.eqb key "query" then
    Some (Str (stringify (orEmptyObject (query request))))
  else if String.eqb key "body" then
    Some (Str (stringify (orEmptyObject (body request))))
  else if String.eqb key "headers" then
    Some (Str (stringify (orEmptyObject (headers request))))
  else if String.eqb key "request" then
    Some (Str (stringify (requestObject request)))
  else option_map Member (assoc key objectPrototype).

(** [searchableContent[rule.targetField] || ''] *)
Definition targetContent (request : RequestData) (rule : WafRule) : Value :=
  match searchableContent request (targetField rule) with
  | Some (Str s) => Str s
  | Some (Member m) => Member m
  | None => Str ""
  end.

(** The string [regex.test] converts its argument to. *)
Definition shown (c : Value) : string :=
  match c with
  | Str s => s
  | Member m => m
  end.

Definition severityScore (sev : string) : Z :=
  if String.eqb sev "critical" then 100
  else if String.eqb sev "high" then 75
  else if String.eqb sev "medium" then 50
  else 25.

Definition mkMatch (rule : WafRule) (content : string) : Match :=
  {| ruleId := id rule;
     field := targetField rule;
     value := substring 0 100 content;
     matchSeverity := severity rule |}.

Section WithRegExp.
Context {E : RegExp.Engine}.

(** The [for] loop over [allRules], from the state ([matches],
    [totalScore]) reached so far.  [targetContent.substring] is not a
    function when the content is an inherited member. *)
Fixpoint scanRules (request : RequestData) (rules : list WafRule)
         (matches : list Match) (totalScore : Z)
  : Completion (list Match * Z) :=
  match rules with
  | [] => Normal (matches, totalScore)
  | rule :: rest =>
      if negb (enabled rule) then scanRules request rest matches totalScore
      else
        let content := targetContent request rule in
        match RegExp.construct (pattern rule) with
        | None => Throw SyntaxError
        | Some regex =>
            if RegExp.test regex (shown content) then
              match content with
              | Str s =>
                  scanRules request rest
                            (matches ++ [mkMatch rule s])
                            (totalScore + severityScore (severity rule))
              | Member _ => Throw TypeError
              end
            else scanRules request rest matches totalScore
        end
  end.

(** Lines 96 to 107: the action and the reason for a clamped score. *)
Definition decide (totalScore : Z) (thresholds : Thresholds) : Action * Reason :=
  if Qle_bool (blockThreshold thresholds) (inject_Z totalScore) then
    (block, ExceededBlock totalScore (blockThreshold thresholds))
  else if Qle_bool (challengeThreshold thresholds) (inject_Z totalScore) then
    (challenge, ExceededChallenge totalScore (challengeThreshold thresholds))
  else if Qle_bool (monitorThreshold thresholds) (inject_Z totalScore) then
    (allow, RequiresMonitoring totalScore)
  else (allow, PassedAllChecks).

Definition analyzeRequest (this : WafEngine) (request : RequestData)
           (thresholds : Thresholds) : Completion AnalysisResult :=
  bind (scanRules request (allRules this) [] 0)
       (fun '(matches, totalScore) =>
          let totalScore := Z.min 100 totalScore in
          let '(action, reason) := decide totalScore thresholds in
          Normal {| action := action;
                    resultScore := totalScore;
                    matches := matches;
                    reason := reason |}).
End WithRegExp.

End Engine.

(** ** The rate limiter: [server/middleware.ts] *)

Module Middleware.

Record Entry : Type := {
  count : Z;
  resetTime : Z
}.

(** The fields of [req] that [rateLimit] reads. *)
Record Req : Type := {
  ip : string;
  path : string
}.

Inductive Outcome : Type :=
| Responded (status : Z) (message : string)
| CalledNext.

Definition keyOf (req : Req) : string :=
  ip req +:+ "-" +:+ path req.

(** The periodic cleanup: every entry whose [resetTime] is before [now]
    is deleted. *)
Definition cleanup (now : Z) (store : gmap string Entry) : gmap string Entry :=
  filter (fun kv => ¬ (resetTime (snd kv) < now)) store.

(** Lines 21 to 31: the cleanup, run when [Math.random()] is below 0.01,
    then [next()]. *)
Definition sweepAndContinue (now : Z) (random : Q) (store : gmap string Entry)
  : Outcome * gmap string Entry :=
  (CalledNext,
   if negb (Qle_bool (1 # 100) random) then cleanup now store else store).

(** One call of the middleware returned by [rateLimit(windowMs,
    maxRequests)].  [now] is the value of [Date.now()], [random] the
    value of [Math.random()], [store] the contents of [rateLimitStore]. *)
Definition rateLimit (windowMs maxRequests : Z) (req : Req) (now : Z)
           (random : Q) (store : gmap string Entry)
  : Outcome * gmap string Entry :=
  let key := keyOf req in
  match store !! key with
  | Some record =>
      if now <? resetTime record then
        if maxRequests <=? count record then
          (Responded 429 "Too many requests, please try again later", store)
        else
          sweepAndContinue now random
            (<[key := {| count := count record + 1;
                         resetTime := resetTime record |}]> store)
      else
        sweepAndContinue now random
          (<[key := {| count := 1; resetTime := now + windowMs |}]> store)
  | None =>
      sweepAndContinue now random
        (<[key := {| count := 1; resetTime := now + windowMs |}]> store)
  end.

(** A series of calls against the same store, oldest first. *)
Record Call : Type := {
  callReq : Req;
  callNow : Z;
  callRandom : Q
}.

Fixpoint run (windowMs maxRequests : Z) (calls : list Call)
         (store : gmap string Entry) : list Outcome * gmap string Entry :=
  match calls with
  | [] => ([], store)
  | c :: rest =>
      let '(o, store') :=
        rateLimit windowMs maxRequests (callReq c) (callNow c) (callRandom c) store in
      let '(os, store'') := run windowMs maxRequests rest store' in
      (o :: os, store'')
  end.

(** The entity [escapeMap] holds for one of the five characters the
    replaced pattern matches (ampersand, angle brackets, double and single
    quote); [None] for any other character. *)
Definition escapeMap (char : ascii) : option string :=
  if Ascii.eqb char "&" then Some "&amp;"
  else if Ascii.eqb char "<" then Some "&lt;"
  else if Ascii.eqb char ">" then Some "&gt;"
  else if Ascii.eqb char Js.dquote then Some "&quot;"
  else if Ascii.eqb char "'" then Some "&#x27;"
  else None.

(** [input.replace] with the global pattern and [escapeMap]: every
    matched character is replaced by its entity. *)
Fixpoint sanitizeInput (input : string) : string :=
  match input with
  | EmptyString => EmptyString
  | String c rest =>
      match escapeMap c with
      | Some entity => entity +:+ sanitizeInput rest
      | None => String c (sanitizeInput rest)
      end
  end.

End Middleware.

(** ** The tables and queries of [server/storage.ts] *)

Module Storage.
Import Js.

Inductive ActionTaken : Type :=
| AtAllow
| AtMonitor
| AtChallenge
| AtDeny.

Record Tenant : Type := {
  tenantKey : string;
  isActive : bool;
  scrubCookies : option bool;
  scrubAuthHeaders : option bool
}.

Record Policy : Type := {
  policyTenantId : string;
  policyBlock : option Q;
  policyChallenge : option Q;
  policyMonitor : option Q
}.

Record RuleRow : Type := {
  ruleTenantId : option string;
  rule : Engine.WafRule
}.

Record RequestRow : Type := {
  requestId : string;
  tenantId : string;
  timestamp : Z;
  clientIp : option string;
  method : string;
  path : string;
  userAgent : option JSON;
  responseCode : Z;
  actionTaken : ActionTaken;
  headersJson : JSON;
  bodyPreview : option string;
  queryString : option string;
  wafHitsJson : list Engine.Match
}.

Record AnalysisRow : Type := {
  analysisId : string;
  analysisRequestId : string;
  matchedRulesJson : list Engine.Match;
  totalScore : Z;
  suggestedAction : ActionTaken;
  finalAction : ActionTaken;
  breakdownMatchCount : Z
}.

Record AlertRow : Type := {
  alertId : string;
  alertTenantId : string;
  alertSeverity : option string;
  alertType : string;
  title : string;
  message : string
}.

Record Db : Type := {
  tenants : list Tenant;
  policies : list Policy;
  rules : list RuleRow;
  requests : list RequestRow;
  analyses : list AnalysisRow;
  alerts : list AlertRow
}.

Definition getTenant (id : string) (db : Db) : option Tenant :=
  List.find (fun t => String.eqb (tenantKey t) id) (tenants db).

Definition getPolicyByTenant (id : string) (db : Db) : option Policy :=
  List.find (fun p => String.eqb (policyTenantId p) id) (policies db).

Definition sameScope (a b : option string) : bool :=
  match a, b with
  | None, None => true
  | Some x, Some y => String.eqb x y
  | _, _ => false
  end.

Definition getRulesByTenant (id : option string) (db : Db) : list Engine.WafRule :=
  List.map rule (List.filter (fun r => sameScope (ruleTenantId r) id) (rules db)).

Definition withRequests (rs : list RequestRow) (db : Db) : Db :=
  {| tenants := tenants db; policies := policies db; rules := rules db;
     requests := rs; analyses := analyses db; alerts := alerts db |}.

Definition createRequest (row : RequestRow) (db : Db) : Db :=
  withRequests (requests db ++ [row]) db.

Definition createAnalysis (row : AnalysisRow) (db : Db) : Db :=
  {| tenants := tenants db; policies := policies db; rules := rules db;
     requests := requests db; analyses := analyses db ++ [row];
     alerts := alerts db |}.

Definition createAlert (row : AlertRow) (db : Db) : Db :=
  {| tenants := tenants db; policies := policies db; rules := rules db;
     requests := requests db; analyses := analyses db;
     alerts := alerts db ++ [row] |}.

Definition dayMs : Z := 24 * 60 * 60 * 1000.

(** The new value of [clientIp] computed in the loop of
    [anonymizeOldIPs] for a non-empty address. *)
Definition anonymizeIp (clientIp : string) : string :=
  if includes ":" clientIp then
    substring 0 (lastIndexOf ":" clientIp) clientIp +:+ ":0"
  else if includes "." clientIp then
    substring 0 (lastIndexOf "." clientIp) clientIp +:+ ".0"
  else clientIp.

Definition withClientIp (ip : string) (r : RequestRow) : RequestRow :=
  {| requestId := requestId r; tenantId := tenantId r;
     timestamp := timestamp r; clientIp := Some ip; method := method r;
     path := path r; userAgent := userAgent r;
     responseCode := responseCode r; actionTaken := actionTaken r;
     headersJson := headersJson r; bodyPreview := bodyPreview r;
     queryString := queryString r; wafHitsJson := wafHitsJson r |}.

(** Rows selected by the [findAll] of [anonymizeOldIPs] whose address is
    truthy. *)
Definition selectedForAnonymization (tenant : string) (cutoff : Z)
           (r : RequestRow) : bool :=
  String.eqb (tenantId r) tenant && (timestamp r <=? cutoff)
  && match clientIp r with
     | Some a => negb (String.eqb a "")
     | None => false
     end.

Definition anonymizeRow (tenant : string) (cutoff : Z) (r : RequestRow)
  : RequestRow :=
  if selectedForAnonymization tenant cutoff r then
    match clientIp r with
    | Some a => withClientIp (anonymizeIp a) r
    | None => r
    end
  else r.

(** [anonymizeOldIPs(tenantId, anonymizeDays)] run at time [now]: the
    number of rows updated and the table afterwards. *)
Definition anonymizeOldIPs (tenant : string) (anonymizeDays : Z) (now : Z)
           (db : Db) : Z * Db :=
  let cutoff := now - anonymizeDays * dayMs in
  (Z.of_nat (List.length
               (List.filter (selectedForAnonymization tenant cutoff) (requests db))),
   withRequests (List.map (anonymizeRow tenant cutoff) (requests db)) db).

Definition actionTaken_eqb (a b : ActionTaken) : bool :=
  match a, b with
  | AtAllow, AtAllow | AtMonitor, AtMonitor
  | AtChallenge, AtChallenge | AtDeny, AtDeny => true
  | _, _ => false
  end.

Record DashboardCounts : Type := {
  totalRequests : Z;
  blockedRequests : Z;
  flaggedRequests : Z;
  allowedRequests : Z
}.

Definition countWhere (f : RequestRow -> bool) (db : Db) : Z :=
  Z.of_nat (List.length (List.filter f (requests db))).

(** The four request counts of [getDashboardStats] computed at [now]. *)
Definition getDashboardStats (now : Z) (db : Db) : DashboardCounts :=
  let recent r := now - dayMs <=? timestamp r in
  {| totalRequests := countWhere recent db;
     blockedRequests :=
       countWhere (fun r => recent r && actionTaken_eqb (actionTaken r) AtDeny) db;
     flaggedRequests :=
       countWhere (fun r => recent r && actionTaken_eqb (actionTaken r) AtMonitor) db;
     allowedRequests :=
       countWhere (fun r => recent r && actionTaken_eqb (actionTaken r) AtAllow) db |}.

Definition getRequest (id : string) (db : Db) : option RequestRow :=
  List.find (fun r => String.eqb (requestId r) id) (requests db).

Definition createRule (row : RuleRow) (db : Db) : Db :=
  {| tenants := tenants db; policies := policies db;
     rules := rules db ++ [row]; requests := requests db;
     analyses := analyses db; alerts := alerts db |}.

End Storage.

(** ** The ingress route: [server/routes.ts] *)

Module Routes.
Import Js.

(** [delete obj[key]] *)
Definition deleteKey (key : string) (props : list (string * JSON))
  : list (string * JSON) :=
  List.filter (fun kv => negb (String.eqb (fst kv) key)) props.

Definition scrubHeaders (headers : JSON) (scrubCookies scrubAuthHeaders : bool)
  : JSON :=
  let scrubbed := entries headers in
  let scrubbed :=
    if scrubCookies then deleteKey "set-cookie" (deleteKey "cookie" scrubbed)
    else scrubbed in
  let scrubbed :=
    if scrubAuthHeaders then
      deleteKey "x-access-token"
        (deleteKey "x-auth-token"
           (deleteKey "x-api-key" (deleteKey "authorization" scrubbed)))
    else scrubbed in
  JObj scrubbed.

(** The parsed body of a POST to [/api/waf/ingress]. *)
Record IngressBody : Type := {
  tenantId : option string;
  request : option Engine.RequestData
}.

(** What one call takes from its environment: the clock and the
    identifiers generated for the rows it inserts. *)
Record Env : Type := {
  now : Z;
  newRequestId : string;
  newAnalysisId : string;
  newAlertId : string
}.

(** Calls made to [sseServer]; [server/waf/sse.ts] is not among the
    sources, so a call is recorded with its argument. *)
Inductive SseCall : Type :=
| BroadcastRequest (row : Storage.RequestRow)
| BroadcastAlert (alertId : string) (severity : option string)
                 (message : string) (tenantId : string).

Record World : Type := {
  db : Storage.Db;
  engine : Engine.WafEngine;
  sse : list SseCall
}.

Inductive ResponseBody : Type :=
| Message (m : string)
| IngressResult (requestId : string) (action : Engine.Action) (score : Z)
                (matchCount : Z).

Record Response : Type := {
  status : Z;
  json : ResponseBody
}.

Definition responseCodeOf (a : Engine.Action) : Z :=
  match a with
  | Engine.block => 403
  | Engine.challenge => 429
  | Engine.allow => 200
  end.

(** [analysis.action === "block" ? "deny" : analysis.action] *)
Definition storedAction (a : Engine.Action) : Storage.ActionTaken :=
  match a with
  | Engine.block => Storage.AtDeny
  | Engine.challenge => Storage.AtChallenge
  | Engine.allow => Storage.AtAllow
  end.

(** [incomingRequest.body?.substring(0, 500) || null]: only a string has
    a [substring] method. *)
Definition bodyPreviewOf (body : option JSON) : Completion (option string) :=
  match body with
  | None | Some JNull => Normal None
  | Some (JStr s) =>
      let p := substring 0 500 s in
      Normal (if String.eqb p "" then None else Some p)
  | Some _ => Throw TypeError
  end.

Definition queryStringOf (query : option JSON) : option string :=
  let qs := joinWith "&"
              (List.map (fun kv => fst kv +:+ "=" +:+ toString (snd kv))
                        (entries (orEmptyObject query))) in
  if String.eqb qs "" then None else Some qs.

Definition headersToStore (t : Storage.Tenant) (headers : option JSON) : JSON :=
  let h := orEmptyObject headers in
  let cookies := default false (Storage.scrubCookies t) in
  let auth := default false (Storage.scrubAuthHeaders t) in
  if cookies || auth then scrubHeaders h cookies auth else h.

Definition thresholdsOf (policy : option Storage.Policy) : Engine.Thresholds :=
  {| Engine.blockThreshold :=
       default 70%Q (policy ≫= Storage.policyBlock);
     Engine.challengeThreshold :=
       default 50%Q (policy ≫= Storage.policyChallenge);
     Engine.monitorThreshold :=
       default 30%Q (policy ≫= Storage.policyMonitor) |}.

Definition alertMessage (matches : list Engine.Match) : string :=
  "Detected " +:+ numberToString (Z.of_nat (List.length matches))
  +:+ " rule matches: "
  +:+ joinWith ", " (List.map (fun _ => "") (firstn 3 matches))
  +:+ (if (3 <? List.length matches)%nat then "..." else "").

Definition failure (code : Z) (m : string) : Response :=
  {| status := code; json := Message m |}.

Section WithRegExp.
Context {E : RegExp.Engine}.

(** The part of the handler that runs once the tenant is known to be
    active.  Here every storage call and every broadcast succeeds;
    [processWithFaults] below is the same handler when they may fail. *)
Definition process (env : Env) (tid : string) (t : Storage.Tenant)
           (incoming : Engine.RequestData) (w : World) : Response * World :=
  let thresholds := thresholdsOf (Storage.getPolicyByTenant tid (db w)) in
  let customRules := Storage.getRulesByTenant (Some tid) (db w) in
  let globalRules := Storage.getRulesByTenant None (db w) in
  let engine1 := Engine.setCustomRules (globalRules ++ customRules) (engine w) in
  let w1 := {| db := db w; engine := engine1; sse := sse w |} in
  match Engine.analyzeRequest engine1 incoming thresholds with
  | Throw _ => (failure 500 "WAF processing error", w1)
  | Normal analysis =>
      match bodyPreviewOf (Engine.body incoming) with
      | Throw _ => (failure 500 "WAF processing error", w1)
      | Normal preview =>
          let storedRequest :=
            {| Storage.requestId := newRequestId env;
               Storage.tenantId := tid;
               Storage.timestamp := now env;
               Storage.clientIp := Engine.clientIp incoming;
               Storage.method := Engine.method incoming;
               Storage.path := Engine.path incoming;
               Storage.userAgent :=
                 getProperty "user-agent" (Engine.headers incoming);
               Storage.responseCode := responseCodeOf (Engine.action analysis);
               Storage.actionTaken := storedAction (Engine.action analysis);
               Storage.headersJson := headersToStore t (Engine.headers incoming);
               Storage.bodyPreview := preview;
               Storage.queryString := queryStringOf (Engine.query incoming);
               Storage.wafHitsJson := Engine.matches analysis |} in
          let db2 := Storage.createRequest storedRequest (db w) in
          let db3 :=
            Storage.createAnalysis
              {| Storage.analysisId := newAnalysisId env;
                 Storage.analysisRequestId := Storage.requestId storedRequest;
                 Storage.matchedRulesJson := Engine.matches analysis;
                 Storage.totalScore := Engine.resultScore analysis;
                 Storage.suggestedAction := storedAction (Engine.action analysis);
                 Storage.finalAction := storedAction (Engine.action analysis);
                 Storage.breakdownMatchCount :=
                   Z.of_nat (List.length (Engine.matches analysis)) |}
              db2 in
          let sse3 := sse w ++ [BroadcastRequest storedRequest] in
          let result :=
            {| status := 200;
               json := IngressResult (Storage.requestId storedRequest)
                         (Engine.action analysis)
                         (Engine.resultScore analysis)
                         (Z.of_nat (List.length (Engine.matches analysis))) |} in
          if 70 <=? Engine.resultScore analysis then
            let alert :=
              {| Storage.alertId := newAlertId env;
                 Storage.alertTenantId := tid;
                 Storage.alertSeverity := None;
                 Storage.alertType := "unknown";
                 Storage.title :=
                   "High-risk request detected (Score: "
                   +:+ numberToString (Engine.resultScore analysis) +:+ ")";
                 Storage.message := alertMessage (Engine.matches analysis) |} in
            (result,
             {| db := Storage.createAlert alert db3;
                engine := engine1;
                sse := sse3 ++ [BroadcastAlert (Storage.alertId alert)
                                  (Storage.alertSeverity alert)
                                  (Storage.title alert) tid] |})
          else
            (result, {| db := db3; engine := engine1; sse := sse3 |})
      end
  end.

(** The handler of [POST /api/waf/ingress]: the response sent and the
    state afterwards. *)
Definition ingress (env : Env) (body : IngressBody) (w : World)
  : Response * World :=
  match tenantId body, request body with
  | Some tid, Some incoming =>
      if String.eqb tid "" then
        (failure 400 "tenantId and request are required", w)
      else
        match Storage.getTenant tid (db w) with
        | Some t =>
            if Storage.isActive t then process env tid t incoming w
            else (failure 404 "Tenant not found or inactive", w)
        | None => (failure 404 "Tenant not found or inactive", w)
        end
  | _, _ => (failure 400 "tenantId and request are required", w)
  end.
End WithRegExp.

(** *** The ingress handler when a storage call or a broadcast fails *)

(** The awaited storage calls and the broadcasts the handler makes after
    the analysis, in the order of the source.  Each stands inside the one
    [try] of the handler: when it rejects or throws, the [catch] answers
    500 and nothing done before is undone. *)
Inductive Step : Type :=
| CreateRequestCall
| CreateAnalysisCall
| BroadcastRequestCall
| CreateAlertCall
| BroadcastAlertCall.

Section WithFaults.
Context {E : RegExp.Engine}.

(** [process] with an oracle telling which calls fail.  A storage call
    that rejects writes no row, and a broadcast that throws is not
    recorded in the stream. *)
Definition processWithFaults (fails : Step -> bool) (env : Env) (tid : string)
           (t : Storage.Tenant) (incoming : Engine.RequestData) (w : World)
  : Response * World :=
  let thresholds := thresholdsOf (Storage.getPolicyByTenant tid (db w)) in
  let customRules := Storage.getRulesByTenant (Some tid) (db w) in
  let globalRules := Storage.getRulesByTenant None (db w) in
  let engine1 := Engine.setCustomRules (globalRules ++ customRules) (engine w) in
  let caught (db' : Storage.Db) (sse' : list SseCall) :=
    (failure 500 "WAF processing error",
     {| db := db'; engine := engine1; sse := sse' |}) in
  match Engine.analyzeRequest engine1 incoming thresholds with
  | Throw _ => caught (db w) (sse w)
  | Normal analysis =>
      match bodyPreviewOf (Engine.body incoming) with
      | Throw _ => caught (db w) (sse w)
      | Normal preview =>
          let storedRequest :=
            {| Storage.requestId := newRequestId env;
               Storage.tenantId := tid;
               Storage.timestamp := now env;
               Storage.clientIp := Engine.clientIp incoming;
               Storage.method := Engine.method incoming;
               Storage.path := Engine.path incoming;
               Storage.userAgent :=
                 getProperty "user-agent" (Engine.headers incoming);
               Storage.responseCode := responseCodeOf (Engine.action analysis);
               Storage.actionTaken := storedAction (Engine.action analysis);
               Storage.headersJson := headersToStore t (Engine.headers incoming);
               Storage.bodyPreview := preview;
               Storage.queryString := queryStringOf (Engine.query incoming);
               Storage.wafHitsJson := Engine.matches analysis |} in
          if fails CreateRequestCall then caught (db w) (sse w) else
          let db2 := Storage.createRequest storedRequest (db w) in
          if fails CreateAnalysisCall then caught db2 (sse w) else
          let db3 :=
            Storage.createAnalysis
              {| Storage.analysisId := newAnalysisId env;
                 Storage.analysisRequestId := Storage.requestId storedRequest;
                 Storage.matchedRulesJson := Engine.matches analysis;
                 Storage.totalScore := Engine.resultScore analysis;
                 Storage.suggestedAction := storedAction (Engine.action analysis);
                 Storage.finalAction := storedAction (Engine.action analysis);
                 Storage.breakdownMatchCount :=
                   Z.of_nat (List.length (Engine.matches analysis)) |}
              db2 in
          if fails BroadcastRequestCall then caught db3 (sse w) else
          let sse3 := sse w ++ [BroadcastRequest storedRequest] in
          let result :=
            {| status := 200;
               json := IngressResult (Storage.requestId storedRequest)
                         (Engine.action analysis)
                         (Engine.resultScore analysis)
                         (Z.of_nat (List.length (Engine.matches analysis))) |} in
          if 70 <=? Engine.resultScore analysis then
            if fails CreateAlertCall then caught db3 sse3 else
            let alert :=
              {| Storage.alertId := newAlertId env;
                 Storage.alertTenantId := tid;
                 Storage.alertSeverity := None;
                 Storage.alertType := "unknown";
                 Storage.title :=
                   "High-risk request detected (Score: "
                   +:+ numberToString (Engine.resultScore analysis) +:+ ")";
                 Storage.message := alertMessage (Engine.matches analysis) |} in
            let db4 := Storage.createAlert alert db3 in
            if fails BroadcastAlertCall then caught db4 sse3 else
            (result,
             {| db := db4;
                engine := engine1;
                sse := sse3 ++ [BroadcastAlert (Storage.alertId alert)
                                  (Storage.alertSeverity alert)
                                  (Storage.title alert) tid] |})
          else
            (result, {| db := db3; engine := engine1; sse := sse3 |})
      end
  end.

Definition ingressWithFaults (fails : Step -> bool) (env : Env)
           (body : IngressBody) (w : World) : Response * World :=
  match tenantId body, request body with
  | Some tid, Some incoming =>
      if String.eqb tid "" then
        (failure 400 "tenantId and request are required", w)
      else
        match Storage.getTenant tid (db w) with
        | Some t =>
            if Storage.isActive t then processWithFaults fails env tid t incoming w
            else (failure 404 "Tenant not found or inactive", w)
        | None => (failure 404 "Tenant not found or inactive", w)
        end
  | _, _ => (failure 400 "tenantId and request are required", w)
  end.
End WithFaults.

(** No call fails. *)
Definition noFault (_ : Step) : bool := false.

(** *** [requireAuth] *)

(** [isAuthenticated] is [None] when the request carries no such method,
    and otherwise what the method returns.  The [Cache-Control] header
    set for a GET request is not part of the model. *)
Definition requireAuth {A : Type} (isAuthenticated : option bool)
           (unauthorized next : A) : A :=
  match isAuthenticated with
  | Some true => next
  | _ => unauthorized
  end.

(** *** [POST /api/waf/analyze] *)

Inductive AnalyzeResponse : Type :=
| AnalyzeFailure (status : Z) (message : string)
| AnalyzeOk (result : Engine.AnalysisResult).

(** The handler behind [requireAuth].  An absent [tenantId] finds no
    tenant; an absent [request] makes [analyzeRequest] read a property of
    [undefined], which the [catch] turns into a 500. *)
Definition analyze {E : RegExp.Engine} (body : IngressBody) (w : World)
  : AnalyzeResponse * World :=
  match tenantId body ≫= (fun tid => Storage.getTenant tid (db w)) with
  | None => (AnalyzeFailure 404 "Tenant not found", w)
  | Some _ =>
      let tid := default EmptyString (tenantId body) in
      let thresholds := thresholdsOf (Storage.getPolicyByTenant tid (db w)) in
      let customRules := Storage.getRulesByTenant (Some tid) (db w) in
      let globalRules := Storage.getRulesByTenant None (db w) in
      let engine1 := Engine.setCustomRules (globalRules ++ customRules) (engine w) in
      let w1 := {| db := db w; engine := engine1; sse := sse w |} in
      match request body with
      | None => (AnalyzeFailure 500 "Failed to analyze request", w1)
      | Some wafRequest =>
          match Engine.analyzeRequest engine1 wafRequest thresholds with
          | Throw _ => (AnalyzeFailure 500 "Failed to analyze request", w1)
          | Normal result => (AnalyzeOk result, w1)
          end
      end
  end.

(** The route: [requireAuth], then the handler. *)
Definition analyzeRoute {E : RegExp.Engine} (isAuthenticated : option bool)
           (body : IngressBody) (w : World) : AnalyzeResponse * World :=
  requireAuth isAuthenticated
              (AnalyzeFailure 401 "Unauthorized", w)
              (analyze body w).

(** *** [POST /api/requests/:id/create-rule] *)

(** The fields of the body the handler reads; [None] when absent. *)
Record CreateRuleBody : Type := {
  ruleCategory : option string;
  rulePattern : option string;
  ruleTargetField : option string;
  ruleSeverity : option string
}.

(** [v || d] for a string that may be absent. *)
Definition orDefault (v : option string) (d : string) : string :=
  match v with
  | Some s => if String.eqb s EmptyString then d else s
  | None => d
  end.

Inductive CreateRuleResponse : Type :=
| CreateRuleFailure (status : Z) (message : string)
| CreateRuleCreated (row : Storage.RuleRow).

(** The handler behind [requireRole]; [newId] is the identifier
    generated for the row, whose [score] is the column default. *)
Definition createRuleFromRequest (newId : string) (id : string)
           (body : CreateRuleBody) (d : Storage.Db)
  : CreateRuleResponse * Storage.Db :=
  match Storage.getRequest id d with
  | None => (CreateRuleFailure 404 "Request not found", d)
  | Some request =>
      let row :=
        {| Storage.ruleTenantId := Some (Storage.tenantId request);
           Storage.rule :=
             {| Engine.id := newId;
                Engine.pattern :=
                  orDefault (rulePattern body) (Storage.path request);
                Engine.targetField := orDefault (ruleTargetField body) "request";
                Engine.severity := orDefault (ruleSeverity body) "medium";
                Engine.category := orDefault (ruleCategory body) "custom";
                Engine.enabled := true;
                Engine.score := Some 10 |} |} in
      (CreateRuleCreated row, Storage.createRule row d)
  end.

End Routes.

(** ** Notions used to state the properties *)

Module Spec.
Import Js Engine.

(** The rule is evaluated and its pattern is found in its target content. *)
Definition fires {E : RegExp.Engine} (request : RequestData) (rule : WafRule)
  : bool :=
  enabled rule
  && match RegExp.construct (pattern rule) with
     | Some regex => RegExp.test regex (shown (targetContent request rule))
     | None => false
     end.

Definition firedRules {E : RegExp.Engine} (request : RequestData)
           (this : WafEngine) : list WafRule :=
  List.filter (fires request) (allRules this).

(** The match record pushed for a rule that fired on a string. *)
Definition matchOf (request : RequestData) (rule : WafRule) : Match :=
  mkMatch rule (shown (targetContent request rule)).

(** Sum of the severity-derived point values of a list of rules. *)
Fixpoint points (rules : list WafRule) : Z :=
  match rules with
  | [] => 0
  | r :: rest => severityScore (severity r) + points rest
  end.

Definition clamp (lo hi x : Z) : Z := Z.max lo (Z.min hi x).

(** The rule with its declared score erased. *)
Definition withoutScore (r : WafRule) : WafRule :=
  {| id := id r; pattern := pattern r; targetField := targetField r;
     severity := severity r; category := category r; enabled := enabled r;
     score := None |}.

(** allow < challenge < block *)
Definition restrictiveness (a : Action) : Z :=
  match a with
  | allow => 0
  | challenge => 1
  | block => 2
  end.

(** The rule's target is a member inherited from [Object.prototype]. *)
Definition targetsMember (rule : WafRule) : bool :=
  match assoc (targetField rule) objectPrototype with
  | Some _ => true
  | None => false
  end.

(** Every pattern of [defaultPatterns] compiles; true of any host engine,
    since the patterns are the sources of regular expression literals. *)
Definition defaultsCompile {E : RegExp.Engine} : Prop :=
  Forall (fun p => RegExp.construct (dpSource p) <> None) defaultPatterns.

(** The calls of a series made under [key], and their outcomes. *)
Definition sameKey (key : string) (c : Middleware.Call) : bool :=
  String.eqb (Middleware.keyOf (Middleware.callReq c)) key.

Definition callsFor (key : string) (calls : list Middleware.Call)
  : list Middleware.Call :=
  List.filter (sameKey key) calls.

Fixpoint outcomesFor (key : string) (calls : list Middleware.Call)
         (outs : list Middleware.Outcome) : list Middleware.Outcome :=
  match calls, outs with
  | c :: cs, o :: os =>
      if sameKey key c then o :: outcomesFor key cs os
      else outcomesFor key cs os
  | _, _ => []
  end.

Definition tooManyRequests : Middleware.Outcome :=
  Middleware.Responded 429 "Too many requests, please try again later".

(** The tenant id of the call resolves to no tenant, or to an inactive
    one. *)
Definition tenantUnavailable (body : Routes.IngressBody) (db : Storage.Db)
  : Prop :=
  forall tid t,
    Routes.tenantId body = Some tid ->
    Storage.getTenant tid db = Some t ->
    Storage.isActive t = false.

Definition oneIf (b : bool) : Z := if b then 1 else 0.

(** How many rules of the list have the severity [sev]. *)
Fixpoint withSeverity (sev : string) (rules : list WafRule) : Z :=
  match rules with
  | [] => 0
  | r :: rest => oneIf (String.eqb (severity r) sev) + withSeverity sev rest
  end.

(** The four severities that have a point value of their own name. *)
Definition listedSeverity (sev : string) : bool :=
  String.eqb sev "critical" || String.eqb sev "high"
  || String.eqb sev "medium" || String.eqb sev "low".

(** How many rules of the list have a severity that is none of the four. *)
Fixpoint unlistedSeverity (rules : list WafRule) : Z :=
  match rules with
  | [] => 0
  | r :: rest => oneIf (negb (listedSeverity (severity r))) + unlistedSeverity rest
  end.

Definition isBlock (a : Action) : bool :=
  match a with
  | block => true
  | allow | challenge => false
  end.

(** The string holds one of the five characters [sanitizeInput]
    replaces. *)
Fixpoint hasSpecial (s : string) : bool :=
  match s with
  | EmptyString => false
  | String c rest =>
      match Middleware.escapeMap c with
      | Some _ => true
      | None => hasSpecial rest
      end
  end.

(** Two calls that differ at most in the value of [Math.random()]. *)
Definition sameButRandom (c1 c2 : Middleware.Call) : Prop :=
  Middleware.callReq c1 = Middleware.callReq c2
  /\ Middleware.callNow c1 = Middleware.callNow c2.

(** The clock never goes back along the series, starting from [t]. *)
Fixpoint clockMonotone (t : Z) (calls : list Middleware.Call) : Prop :=
  match calls with
  | [] => True
  | c :: rest =>
      t <= Middleware.callNow c /\ clockMonotone (Middleware.callNow c) rest
  end.

(** Every stored count is at least 1 and at most the limit (at most 1
    when the limit is below 1). *)
Definition countsBounded (maxRequests : Z)
           (store : gmap string Middleware.Entry) : Prop :=
  map_Forall (fun _ e => 1 <= Middleware.count e <= Z.max 1 maxRequests) store.

(** Outcomes of [n] calls under a key that has [quota] calls left. *)
Fixpoint quotaOutcomes (quota n : nat) : list Middleware.Outcome :=
  match n with
  | O => []
  | S n' =>
      match quota with
      | O => tooManyRequests :: quotaOutcomes O n'
      | S q => Middleware.CalledNext :: quotaOutcomes q n'
      end
  end.

(** Stores that agree on every record still live at [t]. *)
Definition expiredAt (t : Z) (o : option Middleware.Entry) : Prop :=
  match o with
  | Some e => Middleware.resetTime e <= t
  | None => True
  end.

Definition agreeLive (t : Z) (s1 s2 : gmap string Middleware.Entry) : Prop :=
  forall k, s1 !! k = s2 !! k \/ (expiredAt t (s1 !! k) /\ expiredAt t (s2 !! k)).

(** The loop gets past the rule without throwing: the rule is disabled,
    or its pattern compiles and, when found, was not searched in an
    inherited member. *)
Definition evaluable {E : RegExp.Engine} (request : RequestData)
           (rule : WafRule) : bool :=
  negb (enabled rule)
  || match RegExp.construct (pattern rule) with
     | Some regex =>
         negb (RegExp.test regex (shown (targetContent request rule)))
         || negb (targetsMember rule)
     | None => false
     end.

(** The field names that are keys of the [searchableContent] literal. *)
Definition ownKey (name : string) : bool :=
  String.eqb name "path" || String.eqb name "query" || String.eqb name "body"
  || String.eqb name "headers" || String.eqb name "request".

(** The header names [scrubHeaders] deletes for the given flags. *)
Definition scrubbedName (scrubCookies scrubAuthHeaders : bool) (name : string)
  : bool :=
  scrubCookies && (String.eqb name "cookie" || String.eqb name "set-cookie")
  || scrubAuthHeaders
     && (String.eqb name "authorization" || String.eqb name "x-api-key"
         || String.eqb name "x-auth-token" || String.eqb name "x-access-token").

(** The rows of the last 24 hours stored as [challenge]. *)
Definition challengedRequests (now : Z) (db : Storage.Db) : Z :=
  Storage.countWhere
    (fun r => (now - Storage.dayMs <=? Storage.timestamp r)
              && Storage.actionTaken_eqb (Storage.actionTaken r) Storage.AtChallenge)
    db.

(** The database with another rules table. *)
Definition withRules (rs : list Storage.RuleRow) (db : Storage.Db) : Storage.Db :=
  {| Storage.tenants := Storage.tenants db;
     Storage.policies := Storage.policies db;
     Storage.rules := rs;
     Storage.requests := Storage.requests db;
     Storage.analyses := Storage.analyses db;
     Storage.alerts := Storage.alerts db |}.

(** The rules an ingestion call for [tid] hands to the engine. *)
Definition visibleRules (tid : string) (db : Storage.Db) : list WafRule :=
  Storage.getRulesByTenant None db ++ Storage.getRulesByTenant (Some tid) db.

(** The columns of a row other than the client address. *)
Definition otherColumns (r : Storage.RequestRow) :=
  (Storage.requestId r, Storage.tenantId r, Storage.timestamp r,
   Storage.method r, Storage.path r, Storage.userAgent r,
   Storage.responseCode r, Storage.actionTaken r, Storage.headersJson r,
   Storage.bodyPreview r, Storage.queryString r, Storage.wafHitsJson r).

End Spec.

(** ** Concrete requests, rules and tenants used to run the model *)

Module Examples.
Import Js Engine.

Definition defaultThresholds : Thresholds :=
  {| blockThreshold := 70; challengeThreshold := 50; monitorThreshold := 30 |}.

Definition getRequest (p : string) (q : option JSON) : RequestData :=
  {| method := "GET"; path := p; headers := None; body := None; query := q;
     clientIp := Some "203.0.113.7" |}.

Definition adminRequest : RequestData := getRequest "/admin" None.

Definition unionRequest : RequestData :=
  getRequest "/search"
             (Some (JObj [("id", JStr "1 UNION SELECT password FROM users")])).

Definition customRule (name field pat sev : string) (on : bool) : WafRule :=
  {| id := name; pattern := pat; targetField := field; severity := sev;
     category := "custom"; enabled := on; score := Some 10 |}.

Definition fiveCritical : list WafRule :=
  List.map (fun name => customRule name "path" "admin" "critical" true)
           ["r1"; "r2"; "r3"; "r4"; "r5"].

Definition severityRule (sev : string) : WafRule :=
  customRule sev "path" "admin" sev true.

Definition mixedSeverities : list WafRule :=
  fiveCritical ++ List.map severityRule ["high"; "medium"; "low"; "info"].

Definition mixedSeveritiesResult : AnalysisResult :=
  {| action := block;
     resultScore := 100;
     matches := List.map (fun r => mkMatch r "/admin") mixedSeverities;
     reason := ExceededBlock 100 70 |}.

Definition disabledAdminRule : WafRule :=
  customRule "off" "path" "admin" "critical" false.

Definition adminRule : WafRule :=
  customRule "admin-area" "path" "admin" "critical" true.

(** An unterminated group: [new RegExp("(", "i")] throws. *)
Definition malformedRule : WafRule :=
  customRule "broken" "path" "(" "high" true.

(** [searchableContent["constructor"]] is the inherited [Object], whose
    text holds the word [function]. *)
Definition constructorRule : WafRule :=
  customRule "ctor" "constructor" "function" "low" true.

Definition wholeRequestRule : WafRule :=
  customRule "verb" "request" "GET" "medium" true.

Definition fullRequestRule : WafRule :=
  customRule "verb" "full-request" "GET" "medium" true.

Definition noThreat : AnalysisResult :=
  {| action := allow; resultScore := 0; matches := [];
     reason := PassedAllChecks |}.

Definition tenantRow (name : string) (active : bool) : Storage.Tenant :=
  {| Storage.tenantKey := name; Storage.isActive := active;
     Storage.scrubCookies := Some true; Storage.scrubAuthHeaders := Some true |}.

Definition someDb : Storage.Db :=
  {| Storage.tenants := [tenantRow "acme" true; tenantRow "dormant" false];
     Storage.policies := [];
     Storage.rules := [];
     Storage.requests := [];
     Storage.analyses := [];
     Storage.alerts := [] |}.

Definition someWorld : Routes.World :=
  {| Routes.db := someDb; Routes.engine := wafEngine; Routes.sse := [] |}.

Definition someEnv : Routes.Env :=
  {| Routes.now := 1700000000000;
     Routes.newRequestId := "req-1";
     Routes.newAnalysisId := "ana-1";
     Routes.newAlertId := "alert-1" |}.

Definition callTo (tenant : string) (r : RequestData) : Routes.IngressBody :=
  {| Routes.tenantId := Some tenant; Routes.request := Some r |}.

Definition loginCall (address : string) (at_time : Z) : Middleware.Call :=
  {| Middleware.callReq :=
       {| Middleware.ip := address; Middleware.path := "/api/login" |};
     Middleware.callNow := at_time;
     Middleware.callRandom := 0 |}.

Definition adminAndVerbResult : AnalysisResult :=
  {| action := block;
     resultScore := 100;
     matches := [mkMatch adminRule "/admin";
                 mkMatch wholeRequestRule (stringify (requestObject adminRequest))];
     reason := ExceededBlock 100 70 |}.

Definition zeroThresholds : Thresholds :=
  {| blockThreshold := 0; challengeThreshold := 0; monitorThreshold := 0 |}.

Definition userAgentRule : WafRule :=
  customRule "bots" "user-agent" "curl" "high" true.

Definition curlRequest : RequestData :=
  {| method := "GET"; path := "/account";
     headers := Some (JObj [("cookie", JStr "sid=SECRET");
                            ("user-agent", JStr "curl/8.0")]);
     body := None; query := None; clientIp := Some "203.0.113.7" |}.

Definition sessionRule : WafRule :=
  customRule "session" "headers" "sid=" "low" true.

Definition worldWithRules (rows : list Storage.RuleRow) : Routes.World :=
  {| Routes.db := Spec.withRules rows someDb;
     Routes.engine := wafEngine;
     Routes.sse := [] |}.

Definition ruleFor (tenant : string) (r : WafRule) : Storage.RuleRow :=
  {| Storage.ruleTenantId := Some tenant; Storage.rule := r |}.

Definition jsonBodyRequest : RequestData :=
  {| method := "POST"; path := "/api/items";
     headers := None;
     body := Some (JObj [("name", JStr "kettle")]);
     query := None; clientIp := None |}.

(** Only [createAnalysis] rejects. *)
Definition analysisFails (step : Routes.Step) : bool :=
  match step with
  | Routes.CreateAnalysisCall => true
  | _ => false
  end.

Definition storedWikiRequest : Storage.RequestRow :=
  {| Storage.requestId := "req-0";
     Storage.tenantId := "acme";
     Storage.timestamp := 1699999000000;
     Storage.clientIp := Some "203.0.113.7";
     Storage.method := "GET";
     Storage.path := "/wiki/Foo_(bar";
     Storage.userAgent := None;
     Storage.responseCode := 200;
     Storage.actionTaken := Storage.AtAllow;
     Storage.headersJson := JObj [];
     Storage.bodyPreview := None;
     Storage.queryString := None;
     Storage.wafHitsJson := [] |}.

Definition dbWithWiki : Storage.Db :=
  Storage.createRequest storedWikiRequest someDb.

Definition noBody : Routes.CreateRuleBody :=
  {| Routes.ruleCategory := None; Routes.rulePattern := None;
     Routes.ruleTargetField := None; Routes.ruleSeverity := None |}.

Definition loginCallWith (address : string) (at_time : Z) (random : Q)
  : Middleware.Call :=
  {| Middleware.callReq :=
       {| Middleware.ip := address; Middleware.path := "/api/login" |};
     Middleware.callNow := at_time;
     Middleware.callRandom := random |}.

Definition firstLogin : Middleware.Call :=
  loginCallWith "198.51.100.4" 1000 (1 # 2).

Definition laterLogins : list Middleware.Call :=
  [loginCallWith "198.51.100.4" 2000 0;
   loginCallWith "192.0.2.9" 2500 1;
   loginCallWith "198.51.100.4" 3000 (1 # 200);
   loginCallWith "198.51.100.4" 60999 0].

Definition loginSeries (random : Q) : list Middleware.Call :=
  [loginCallWith "198.51.100.4" 1000 random;
   loginCallWith "192.0.2.9" 2500 random;
   loginCallWith "198.51.100.4" 3000 random;
   loginCallWith "198.51.100.4" 64000 random;
   loginCallWith "192.0.2.9" 65000 random].

End Examples.

(** * Properties *)

(** ** Strings *)

Section StringFacts.
Import Js.

Lemma includes_app (c : ascii) (a b : string) :
  includes c (a +:+ b) = includes c a || includes c b.
Proof.
  induction a as [|x a IH]; simpl; [reflexivity|].
  destruct (Ascii.eqb x c); [reflexivity|exact IH].
Qed.

Lemma lastIndexOf_absent (c : ascii) (s : string) :
  includes c s = false -> lastIndexOf c s = -1.
Proof.
  induction s as [|x s IH]; simpl; [reflexivity|].
  destruct (Ascii.eqb x c); [discriminate|].
  intros H. rewrite (IH H). reflexivity.
Qed.

Lemma lastIndexOf_lower (c : ascii) (s : string) : -1 <= lastIndexOf c s.
Proof.
  induction s as [|x s IH]; simpl; [lia|].
  destruct (Z.leb_spec 0 (lastIndexOf c s)); [lia|].
  destruct (Ascii.eqb x c); lia.
Qed.

(** Splitting at the last occurrence. *)
Lemma includes_split (c : ascii) (s : string) :
  includes c s = true ->
  exists p q, s = p +:+ String c q /\ includes c q = false.
Proof.
  induction s as [|x s IH]; simpl; [discriminate|].
  destruct (includes c s) eqn:Hs.
  - intros _. destruct (IH eq_refl) as (p & q & -> & Hq).
    exists (String x p), q. split; [reflexivity|exact Hq].
  - destruct (Ascii.eqb_spec x c) as [->|]; [|discriminate].
    intros _. exists EmptyString, s. split; [reflexivity|exact Hs].
Qed.

Lemma lastIndexOf_split (c : ascii) (p q : string) :
  includes c q = false ->
  lastIndexOf c (p +:+ String c q) = Z.of_nat (String.length p).
Proof.
  intros Hq. induction p as [|x p IH].
  - simpl. rewrite (lastIndexOf_absent _ _ Hq). simpl.
    rewrite Ascii.eqb_refl. reflexivity.
  - change (String x p +:+ String c q) with (String x (p +:+ String c q)).
    cbn [lastIndexOf String.length]. rewrite IH.
    destruct (Z.leb_spec 0 (Z.of_nat (String.length p))); lia.
Qed.

Lemma length_append (a b : string) :
  String.length (a +:+ b) = (String.length a + String.length b)%nat.
Proof. induction a as [|x a IH]; simpl; [reflexivity|]. now rewrite IH. Qed.

Lemma stdlib_substring_prefix (p r : string) :
  String.substring 0 (String.length p) (p +:+ r) = p.
Proof.
  induction p as [|x p IH]; simpl.
  - destruct r; reflexivity.
  - now rewrite IH.
Qed.

Lemma substring_prefix (p r : string) :
  substring 0 (Z.of_nat (String.length p)) (p +:+ r) = p.
Proof.
  unfold substring. rewrite length_append.
  replace (Z.to_nat _) with 0%nat by lia.
  replace (Z.to_nat _) with (String.length p) by lia.
  apply stdlib_substring_prefix.
Qed.

(** Cutting a string after its last [c] and appending [c] and [t]. *)
Lemma truncate_last (c : ascii) (p q t : string) :
  includes c q = false ->
  substring 0 (lastIndexOf c (p +:+ String c q)) (p +:+ String c q)
    +:+ String c t
  = p +:+ String c t.
Proof.
  intros Hq. rewrite (lastIndexOf_split _ _ _ Hq), substring_prefix.
  reflexivity.
Qed.

End StringFacts.

(** ** Retention job: anonymization *)

Section Anonymization.
Import Js Storage.

Lemma anonymizeIp_colon (p q : string) :
  includes ":" q = false ->
  anonymizeIp (p +:+ String ":" q) = p +:+ ":0".
Proof.
  intros Hq. unfold anonymizeIp.
  rewrite includes_app. cbn [includes]. rewrite Ascii.eqb_refl, orb_true_r.
  apply (truncate_last ":" p q "0" Hq).
Qed.

Lemma anonymizeIp_dot (p q : string) :
  includes ":" (p +:+ String "." q) = false ->
  includes "." q = false ->
  anonymizeIp (p +:+ String "." q) = p +:+ ".0".
Proof.
  intros Hc Hq. unfold anonymizeIp. rewrite Hc.
  rewrite includes_app. cbn [includes]. rewrite Ascii.eqb_refl, orb_true_r.
  apply (truncate_last "." p q "0" Hq).
Qed.

Lemma anonymizeIp_nonempty (a : string) :
  String.eqb a "" = false -> String.eqb (anonymizeIp a) "" = false.
Proof.
  intros Ha. unfold anonymizeIp.
  assert (Hcut : forall p t, String.eqb (p +:+ String t "0") "" = false).
  { intros p t. apply String.eqb_neq. intros Hp.
    apply (f_equal String.length) in Hp. rewrite length_append in Hp.
    simpl in Hp. lia. }
  destruct (includes ":" a); [apply Hcut|].
  destruct (includes "." a); [apply Hcut|exact Ha].
Qed.

Section Rerun.
Hypothesis twice : forall a, anonymizeIp (anonymizeIp a) = anonymizeIp a.

(** A row updated by one run is selected again by a later run, which
    writes the same address back. *)
Lemma anonymizeRow_rerun (tenant : string) (cutoff cutoff' : Z)
      (r : RequestRow) :
  cutoff <= cutoff' ->
  anonymizeRow tenant cutoff' (anonymizeRow tenant cutoff r)
  = anonymizeRow tenant cutoff' r.
Proof.
  intros Hle. unfold anonymizeRow at 2.
  destruct (selectedForAnonymization tenant cutoff r) eqn:Hsel; [|reflexivity].
  unfold selectedForAnonymization in Hsel.
  destruct (clientIp r) as [a|] eqn:Hip; [|reflexivity].
  apply andb_true_iff in Hsel as [[Ht Hts]%andb_true_iff Ha].
  apply Z.leb_le in Hts. apply negb_true_iff in Ha.
  unfold anonymizeRow, selectedForAnonymization.
  cbn [withClientIp tenantId timestamp clientIp]. rewrite Hip, Ht, Ha.
  rewrite (anonymizeIp_nonempty a Ha), twice.
  destruct (Z.leb_spec (timestamp r) cutoff'); [reflexivity|lia].
Qed.

(** Running the job again, then or later, leaves the table as a single
    run at the later time would. *)
Lemma anonymizeOldIPs_rerun (tenant : string) (days now now' : Z) (d : Db) :
  now <= now' ->
  snd (anonymizeOldIPs tenant days now' (snd (anonymizeOldIPs tenant days now d)))
  = snd (anonymizeOldIPs tenant days now' d).
Proof.
  intros Hle. unfold anonymizeOldIPs, withRequests. cbn [snd requests tenants
    policies rules analyses alerts]. f_equal.
  rewrite List.map_map. apply List.map_ext. intros r.
  apply anonymizeRow_rerun. lia.
Qed.

End Rerun.

(** C9. Anonymizing a client address twice gives the same address as
    anonymizing it once: the last IPv4 octet (or the last IPv6 segment)
    is already 0 after the first pass.  Hence running the retention job
    again, then or later, leaves the stored addresses as one run at the
    later time would. *)
Theorem anonymizeIp_idempotent :
  (forall ip : string, anonymizeIp (anonymizeIp ip) = anonymizeIp ip)
  /\ (forall (tenant : string) (days now now' : Z) (d : Db),
         now <= now' ->
         snd (anonymizeOldIPs tenant days now'
                              (snd (anonymizeOldIPs tenant days now d)))
         = snd (anonymizeOldIPs tenant days now' d)).
Proof.
  assert (Htwice : forall ip, anonymizeIp (anonymizeIp ip) = anonymizeIp ip);
    [|split; [exact Htwice|intros; now apply anonymizeOldIPs_rerun]].
  intros ip.
  destruct (includes ":" ip) eqn:Hcolon.
  - destruct (includes_split _ _ Hcolon) as (p & q & -> & Hq).
    rewrite (anonymizeIp_colon p q Hq).
    apply (anonymizeIp_colon p "0" eq_refl).
  - destruct (includes "." ip) eqn:Hdot.
    + destruct (includes_split _ _ Hdot) as (p & q & -> & Hq).
      rewrite (anonymizeIp_dot p q Hcolon Hq).
      apply (anonymizeIp_dot p "0"); [|reflexivity].
      rewrite includes_app in Hcolon |- *.
      apply orb_false_iff in Hcolon as [-> _]. reflexivity.
    + unfold anonymizeIp at 2. rewrite Hcolon, Hdot.
      unfold anonymizeIp. now rewrite Hcolon, Hdot.
Qed.

End Anonymization.


(** ** Scoring engine *)

Section EngineFacts.
Import Js Engine Spec.
Context {E : RegExp.Engine}.

Lemma severityScore_values :
  severityScore "critical" = 100 /\ severityScore "high" = 75
  /\ severityScore "medium" = 50 /\ severityScore "low" = 25.
Proof. repeat split. Qed.

Lemma severityScore_bounds (sev : string) : 25 <= severityScore sev <= 100.
Proof.
  unfold severityScore.
  repeat match goal with |- context [String.eqb ?a ?b] => destruct (String.eqb a b) end;
    lia.
Qed.

Lemma points_nonneg (rules : list WafRule) : 0 <= points rules.
Proof.
  induction rules as [|r rules IH]; simpl; [lia|].
  pose proof (severityScore_bounds (severity r)). lia.
Qed.

Lemma points_app (a b : list WafRule) : points (a ++ b) = points a + points b.
Proof. induction a as [|r a IH]; simpl; [reflexivity|]. rewrite IH. lia. Qed.

(** The content is an inherited member exactly for the rules that target
    one. *)
Lemma targetContent_member (request : RequestData) (rule : WafRule) :
  targetsMember rule = false ->
  exists s, targetContent request rule = Str s.
Proof.
  unfold targetsMember, targetContent, searchableContent. intros H.
  repeat match goal with
         | |- context [if String.eqb ?a ?b then _ else _] => destruct (String.eqb a b)
         end; eauto.
  destruct (assoc (targetField rule) objectPrototype); [discriminate|].
  simpl. eauto.
Qed.

(** What the loop has accumulated when it runs to its end. *)
Lemma scanRules_normal (request : RequestData) (rules : list WafRule) :
  forall ms ts ms' ts',
    scanRules request rules ms ts = Normal (ms', ts') ->
    ms' = ms ++ List.map (matchOf request) (List.filter (fires request) rules)
    /\ ts' = ts + points (List.filter (fires request) rules).
Proof.
  induction rules as [|r rules IH]; intros ms ts ms' ts'.
  - simpl. intros [= <- <-]. rewrite app_nil_r. split; [reflexivity|lia].
  - cbn [scanRules List.filter].
    assert (Hf : fires request r
                 = enabled r
                   && match RegExp.construct (pattern r) with
                      | Some regex =>
                          RegExp.test regex (shown (targetContent request r))
                      | None => false
                      end) by reflexivity.
    destruct (enabled r); cbn [negb andb] in *; [|rewrite Hf; apply IH].
    destruct (RegExp.construct (pattern r)) as [regex|]; [|discriminate].
    destruct (RegExp.test regex (shown (targetContent request r))) eqn:Ht;
      rewrite Hf; [|apply IH].
    destruct (targetContent request r) as [s|m] eqn:Hc; [|discriminate].
    intros H. apply IH in H as [-> ->].
    cbn [List.map points]. unfold matchOf at 2. rewrite Hc.
    rewrite <- app_assoc. split; [reflexivity|lia].
Qed.

Lemma analyzeRequest_normal (this : WafEngine) (request : RequestData)
      (thresholds : Thresholds) (result : AnalysisResult) :
  analyzeRequest this request thresholds = Normal result ->
  matches result = List.map (matchOf request) (firedRules request this)
  /\ resultScore result = Z.min 100 (points (firedRules request this))
  /\ (action result, reason result) = decide (resultScore result) thresholds.
Proof.
  unfold analyzeRequest, bind.
  destruct (scanRules request (allRules this) [] 0) as [[ms ts]|e] eqn:Hscan;
    [|discriminate].
  apply scanRules_normal in Hscan as [-> ->]. fold (firedRules request this).
  destruct (decide (Z.min 100 (0 + points (firedRules request this))) thresholds)
    as [a r] eqn:Hd.
  intros [= <-]. cbn [matches resultScore action reason].
  rewrite Hd. repeat split.
Qed.

Lemma analyzeRequest_clamped (this : WafEngine) (request : RequestData)
      (thresholds : Thresholds) (result : AnalysisResult) :
  analyzeRequest this request thresholds = Normal result ->
  resultScore result = clamp 0 100 (points (firedRules request this))
  /\ 0 <= resultScore result <= 100.
Proof.
  intros H. pose proof (analyzeRequest_normal _ _ _ _ H) as (_ & Hs & _).
  pose proof (points_nonneg (firedRules request this)) as Hp.
  unfold clamp. lia.
Qed.

(** The loop never reads the declared score of a rule. *)
Lemma scanRules_withoutScore (request : RequestData) (rules : list WafRule) :
  forall rules' ms ts,
    List.map withoutScore rules = List.map withoutScore rules' ->
    scanRules request rules ms ts = scanRules request rules' ms ts.
Proof.
  induction rules as [|r rules IH]; intros [|r' rules'] ms ts; simpl;
    try discriminate; [reflexivity|].
  intros [= Hid Hpat Hfield Hsev Hcat Hen Hrest].
  unfold targetContent, mkMatch. rewrite Hid, Hpat, Hfield, Hsev, Hen.
  destruct (enabled r'); simpl; [|now apply IH].
  destruct (RegExp.construct (pattern r')); [|reflexivity].
  match goal with |- context [RegExp.test ?x ?y] => destruct (RegExp.test x y) end;
    [|now apply IH].
  match goal with |- context [match ?c with Str _ => _ | Member _ => _ end] =>
    destruct c end; [now apply IH|reflexivity].
Qed.

(** The sum of the point values, severity by severity. *)
Lemma points_by_severity (rules : list WafRule) :
  points rules
  = 100 * withSeverity "critical" rules + 75 * withSeverity "high" rules
    + 50 * withSeverity "medium" rules + 25 * withSeverity "low" rules
    + 25 * unlistedSeverity rules.
Proof.
  induction rules as [|r rules IH]; [reflexivity|].
  cbn [points withSeverity unlistedSeverity]. rewrite IH.
  unfold severityScore, listedSeverity.
  destruct (String.eqb_spec (severity r) "critical") as [e|_];
    [rewrite ?e; cbn; lia|].
  destruct (String.eqb_spec (severity r) "high") as [e|_];
    [rewrite ?e; cbn; lia|].
  destruct (String.eqb_spec (severity r) "medium") as [e|_];
    [rewrite ?e; cbn; lia|].
  destruct (String.eqb_spec (severity r) "low") as [e|_];
    [rewrite ?e; cbn; lia|].
  cbn. lia.
Qed.

(** C1. When [analyzeRequest] returns, its score is the sum, over the rules
    that fired, of the point value of each rule's severity, clamped to
    [0, 100]: each fired rule of severity critical counts 100, high 75,
    medium 50, low 25 (a severity that is none of the four also counts
    25).  The score lies in [0, 100] however many rules fire; and the
    declared [score] of a rule plays no part: engines whose rules differ
    only in declared scores return the same result. *)
Theorem analyzeRequest_score (this : WafEngine) (request : RequestData)
        (thresholds : Thresholds) (result : AnalysisResult) :
  analyzeRequest this request thresholds = Normal result ->
  resultScore result = clamp 0 100 (points (firedRules request this))
  /\ resultScore result
     = clamp 0 100
         (100 * withSeverity "critical" (firedRules request this)
          + 75 * withSeverity "high" (firedRules request this)
          + 50 * withSeverity "medium" (firedRules request this)
          + 25 * withSeverity "low" (firedRules request this)
          + 25 * unlistedSeverity (firedRules request this))
  /\ 0 <= resultScore result <= 100
  /\ forall this' : WafEngine,
       List.map withoutScore (customRules this')
       = List.map withoutScore (customRules this) ->
       analyzeRequest this' request thresholds = Normal result.
Proof.
  intros H. destruct (analyzeRequest_clamped _ _ _ _ H) as [Hs Hb].
  split; [exact Hs|].
  split; [now rewrite <- points_by_severity|].
  split; [exact Hb|].
  intros this' Heq. rewrite <- H. unfold analyzeRequest. f_equal.
  apply scanRules_withoutScore. unfold allRules.
  rewrite !List.map_app. now f_equal.
Qed.

Lemma decide_cases (s : Z) (thresholds : Thresholds) :
  let reaches (t : Q) := (t <= inject_Z s)%Q in
  (reaches (blockThreshold thresholds) ->
   decide s thresholds = (block, ExceededBlock s (blockThreshold thresholds)))
  /\ (~ reaches (blockThreshold thresholds) ->
      reaches (challengeThreshold thresholds) ->
      decide s thresholds
      = (challenge, ExceededChallenge s (challengeThreshold thresholds)))
  /\ (~ reaches (blockThreshold thresholds) ->
      ~ reaches (challengeThreshold thresholds) ->
      reaches (monitorThreshold thresholds) ->
      decide s thresholds = (allow, RequiresMonitoring s))
  /\ (~ reaches (blockThreshold thresholds) ->
      ~ reaches (challengeThreshold thresholds) ->
      ~ reaches (monitorThreshold thresholds) ->
      decide s thresholds = (allow, PassedAllChecks)).
Proof.
  cbv zeta. unfold decide.
  destruct (Qle_bool (blockThreshold thresholds) (inject_Z s)) eqn:Hb;
  destruct (Qle_bool (challengeThreshold thresholds) (inject_Z s)) eqn:Hc;
  destruct (Qle_bool (monitorThreshold thresholds) (inject_Z s)) eqn:Hm;
  repeat match goal with
         | H : Qle_bool _ _ = true |- _ => apply Qle_bool_iff in H
         | H : Qle_bool _ _ = false |- _ =>
             apply not_true_iff_false in H; rewrite Qle_bool_iff in H
         end;
  repeat split; intros; solve [reflexivity | contradiction].
Qed.

(** C2. The action and reason returned by [analyzeRequest] are those of
    [decide] at the clamped score, and [decide] follows the fixed priority
    order: block when the score reaches the block threshold; else challenge
    when it reaches the challenge threshold; else allow, annotated as
    requiring monitoring, when it reaches the monitor threshold; else allow
    with no annotation. *)
Theorem analyzeRequest_decision (thresholds : Thresholds) :
  (forall this request result,
      analyzeRequest this request thresholds = Normal result ->
      (action result, reason result) = decide (resultScore result) thresholds)
  /\ forall s : Z,
      let reaches (t : Q) := (t <= inject_Z s)%Q in
      (reaches (blockThreshold thresholds) ->
       decide s thresholds = (block, ExceededBlock s (blockThreshold thresholds)))
      /\ (~ reaches (blockThreshold thresholds) ->
          reaches (challengeThreshold thresholds) ->
          decide s thresholds
          = (challenge, ExceededChallenge s (challengeThreshold thresholds)))
      /\ (~ reaches (blockThreshold thresholds) ->
          ~ reaches (challengeThreshold thresholds) ->
          reaches (monitorThreshold thresholds) ->
          decide s thresholds = (allow, RequiresMonitoring s))
      /\ (~ reaches (blockThreshold thresholds) ->
          ~ reaches (challengeThreshold thresholds) ->
          ~ reaches (monitorThreshold thresholds) ->
          decide s thresholds = (allow, PassedAllChecks)).
Proof.
  split.
  - intros this request result H. apply (analyzeRequest_normal _ _ _ _ H).
  - intros s. apply decide_cases.
Qed.

Lemma reaches_mono (t : Q) (s1 s2 : Z) :
  s1 <= s2 -> Qle_bool t (inject_Z s1) = true -> Qle_bool t (inject_Z s2) = true.
Proof.
  rewrite !Qle_bool_iff. intros Hs Ht.
  apply Qle_trans with (inject_Z s1); [exact Ht|]. now rewrite <- Zle_Qle.
Qed.

Lemma decide_monotone (thresholds : Thresholds) (s1 s2 : Z) :
  s1 <= s2 ->
  restrictiveness (fst (decide s1 thresholds))
  <= restrictiveness (fst (decide s2 thresholds)).
Proof.
  intros Hs. unfold decide.
  destruct (Qle_bool (blockThreshold thresholds) (inject_Z s1)) eqn:Hb1.
  { rewrite (reaches_mono _ _ _ Hs Hb1). simpl. lia. }
  destruct (Qle_bool (challengeThreshold thresholds) (inject_Z s1)) eqn:Hc1.
  { rewrite (reaches_mono _ _ _ Hs Hc1).
    destruct (Qle_bool (blockThreshold thresholds) (inject_Z s2)); simpl; lia. }
  destruct (Qle_bool (blockThreshold thresholds) (inject_Z s2));
    destruct (Qle_bool (challengeThreshold thresholds) (inject_Z s2));
    destruct (Qle_bool (monitorThreshold thresholds) (inject_Z s1));
    destruct (Qle_bool (monitorThreshold thresholds) (inject_Z s2));
    simpl; lia.
Qed.

(** C3. For thresholds with block >= challenge >= monitor, the action
    returned by [analyzeRequest] is a function of the score and the
    thresholds alone, and that function is monotone: a larger score never
    gets a less restrictive action (allow < challenge < block). *)
Theorem analyzeRequest_monotone (thresholds : Thresholds) :
  (challengeThreshold thresholds <= blockThreshold thresholds)%Q ->
  (monitorThreshold thresholds <= challengeThreshold thresholds)%Q ->
  (forall this request result,
      analyzeRequest this request thresholds = Normal result ->
      action result = fst (decide (resultScore result) thresholds))
  /\ (forall s1 s2 : Z,
         s1 <= s2 ->
         restrictiveness (fst (decide s1 thresholds))
         <= restrictiveness (fst (decide s2 thresholds)))
  /\ (forall this1 request1 result1 this2 request2 result2,
         analyzeRequest this1 request1 thresholds = Normal result1 ->
         analyzeRequest this2 request2 thresholds = Normal result2 ->
         resultScore result1 <= resultScore result2 ->
         restrictiveness (action result1) <= restrictiveness (action result2)).
Proof.
  intros _ _.
  assert (Hfun : forall this request result,
             analyzeRequest this request thresholds = Normal result ->
             action result = fst (decide (resultScore result) thresholds)).
  { intros this request result H.
    pose proof (analyzeRequest_normal _ _ _ _ H) as (_ & _ & Hd).
    now rewrite <- Hd. }
  repeat split.
  - exact Hfun.
  - intros s1 s2. apply decide_monotone.
  - intros this1 request1 result1 this2 request2 result2 H1 H2 Hs.
    rewrite (Hfun _ _ _ H1), (Hfun _ _ _ H2). now apply decide_monotone.
Qed.

Lemma fires_enabled (request : RequestData) (r : WafRule) :
  fires request r = true -> enabled r = true.
Proof. unfold fires. now intros [H _]%andb_true_iff. Qed.

Lemma scanRules_app (request : RequestData) (a b : list WafRule) :
  forall ms ts,
    scanRules request (a ++ b) ms ts
    = bind (scanRules request a ms ts)
           (fun '(ms', ts') => scanRules request b ms' ts').
Proof.
  induction a as [|x a IH]; intros ms ts; simpl; [reflexivity|].
  destruct (enabled x); simpl; [|apply IH].
  destruct (RegExp.construct (pattern x)); [|reflexivity].
  match goal with |- context [RegExp.test ?u ?v] => destruct (RegExp.test u v) end;
    [|apply IH].
  destruct (targetContent request x); [apply IH|reflexivity].
Qed.

(** A disabled rule is stepped over wherever it stands. *)
Lemma scanRules_skip_disabled (request : RequestData) (r : WafRule)
      (l1 l2 : list WafRule) (ms : list Match) (ts : Z) :
  enabled r = false ->
  scanRules request (l1 ++ r :: l2) ms ts = scanRules request (l1 ++ l2) ms ts.
Proof.
  intros Hr. rewrite !scanRules_app. simpl. rewrite Hr. reflexivity.
Qed.

Lemma filter_enabled_skip (r : WafRule) (l1 l2 : list WafRule) :
  enabled r = false ->
  List.filter enabled (l1 ++ r :: l2) = List.filter enabled (l1 ++ l2).
Proof.
  intros Hr. rewrite !List.filter_app. simpl. now rewrite Hr.
Qed.

(** C4. A rule whose [enabled] flag is false is not among the rules that
    fire, whatever the request holds: the match list and the score are
    those of the rules that fired, and the whole outcome is the one
    obtained with the rule removed from the rule set. *)
Theorem disabled_rule_never_matches (r : WafRule) (rules : list WafRule)
        (this : WafEngine) (request : RequestData) (thresholds : Thresholds) :
  enabled r = false ->
  ~ In r (firedRules request (setCustomRules rules this))
  /\ (forall result,
         analyzeRequest (setCustomRules rules this) request thresholds
         = Normal result ->
         matches result
         = List.map (matchOf request)
                    (firedRules request (setCustomRules rules this))
         /\ resultScore result
            = clamp 0 100
                    (points (firedRules request (setCustomRules rules this))))
  /\ (forall l1 l2,
         rules = l1 ++ r :: l2 ->
         analyzeRequest (setCustomRules rules this) request thresholds
         = analyzeRequest (setCustomRules (l1 ++ l2) this) request thresholds)
  /\ (forall l1 l2,
         analyzeRequest {| customRules := l1 ++ r :: l2 |} request thresholds
         = analyzeRequest {| customRules := l1 ++ l2 |} request thresholds).
Proof.
  intros Hr. split; [|split; [|split]].
  - unfold firedRules. intros [_ Hf]%List.filter_In.
    apply fires_enabled in Hf. congruence.
  - intros result H. split.
    + apply (analyzeRequest_normal _ _ _ _ H).
    + apply (analyzeRequest_clamped _ _ _ _ H).
  - intros l1 l2 ->. unfold setCustomRules.
    now rewrite (filter_enabled_skip r l1 l2 Hr).
  - intros l1 l2. unfold analyzeRequest, allRules. cbn [customRules].
    rewrite !List.app_assoc.
    now rewrite (scanRules_skip_disabled request r _ l2 [] 0 Hr).
Qed.

Lemma defaultRule_not_member (p : DefaultPattern) :
  In p defaultPatterns -> targetsMember (defaultRule p) = false.
Proof.
  simpl. intros [<-|[<-|[<-|[<-|[]]]]]; reflexivity.
Qed.

(** The loop throws a TypeError only on a rule that targets an inherited
    member. *)
Lemma scanRules_no_TypeError (request : RequestData) (rules : list WafRule) :
  Forall (fun x => enabled x = true -> targetsMember x = false) rules ->
  forall ms ts, scanRules request rules ms ts <> Throw TypeError.
Proof.
  induction 1 as [|x rules Hx _ IH]; intros ms ts; simpl; [discriminate|].
  destruct (enabled x); simpl; [|apply IH].
  destruct (RegExp.construct (pattern x)); [|discriminate].
  match goal with |- context [RegExp.test ?u ?v] => destruct (RegExp.test u v) end;
    [|apply IH].
  destruct (targetContent_member request x (Hx eq_refl)) as [s ->]. apply IH.
Qed.

Lemma scanRules_throws (request : RequestData) (rules : list WafRule) :
  (exists x, In x rules /\ enabled x = true
             /\ RegExp.construct (pattern x) = None) ->
  forall ms ts, exists e, scanRules request rules ms ts = Throw e.
Proof.
  induction rules as [|y rules IH]; intros (x & Hin & Hen & Hbad) ms ts;
    [destruct Hin|].
  simpl. destruct Hin as [->|Hin].
  - rewrite Hen, Hbad. simpl. eauto.
  - assert (Hrest : exists x, In x rules /\ enabled x = true
                              /\ RegExp.construct (pattern x) = None) by eauto.
    destruct (enabled y); simpl; [|now apply IH].
    destruct (RegExp.construct (pattern y)); [|eauto].
    match goal with |- context [RegExp.test ?u ?v] => destruct (RegExp.test u v) end;
      [|now apply IH].
    destruct (targetContent request y); [now apply IH|eauto].
Qed.

Lemma allRules_checked (P : WafRule -> Prop) (rules : list WafRule)
      (this : WafEngine) :
  (forall p, In p defaultPatterns -> P (defaultRule p)) ->
  Forall (fun x => enabled x = true -> P x) rules ->
  Forall (fun x => enabled x = true -> P x)
         (allRules (setCustomRules rules this)).
Proof.
  intros Hd Hr. unfold allRules, setCustomRules. cbn [customRules].
  apply List.Forall_app. split.
  - apply List.Forall_forall. intros x (p & <- & Hp)%List.in_map_iff _. now apply Hd.
  - apply List.Forall_forall. intros x [Hx _]%List.filter_In.
    rewrite List.Forall_forall in Hr. now apply Hr.
Qed.

Lemma targetContent_request (request : RequestData) (rule : WafRule) :
  targetField rule = "request" ->
  targetContent request rule = Str (stringify (requestObject request)).
Proof. unfold targetContent, searchableContent. now intros ->. Qed.

Lemma targetContent_full_request (request : RequestData) (rule : WafRule) :
  targetField rule = "full-request" ->
  targetContent request rule = Str "".
Proof. unfold targetContent, searchableContent. now intros ->. Qed.

(** C7, as the code has it. The whole request is searched by the rules
    whose target field is [request]: such a rule fires exactly when its
    pattern is found in [JSON.stringify(request)].  A rule whose target
    field is [full-request] names no key of [searchableContent] and is
    tested against the empty string. *)
Theorem whole_request_content (this : WafEngine) (request : RequestData)
        (thresholds : Thresholds) (result : AnalysisResult) (rule : WafRule)
        (regex : RegExp.regexp) :
  analyzeRequest this request thresholds = Normal result ->
  In rule (customRules this) ->
  enabled rule = true ->
  RegExp.construct (pattern rule) = Some regex ->
  matches result = List.map (matchOf request) (firedRules request this)
  /\ (targetField rule = "request" ->
      (In rule (firedRules request this)
       <-> RegExp.test regex (stringify (requestObject request)) = true))
  /\ (targetField rule = "full-request" ->
      (In rule (firedRules request this) <-> RegExp.test regex "" = true)).
Proof.
  intros H Hin Hen Hre.
  assert (Hall : In rule (allRules this))
    by (unfold allRules; apply List.in_or_app; now right).
  assert (Hf : forall s, targetContent request rule = Str s ->
                         (In rule (firedRules request this)
                          <-> RegExp.test regex s = true)).
  { intros s Hs. unfold firedRules. rewrite List.filter_In.
    unfold fires. rewrite Hen, Hre, Hs. simpl. tauto. }
  repeat split.
  - apply (analyzeRequest_normal _ _ _ _ H).
  - now apply Hf, targetContent_request.
  - now apply Hf, targetContent_request.
  - now apply Hf, targetContent_full_request.
  - now apply Hf, targetContent_full_request.
Qed.

End EngineFacts.


(** ** Rate limiter *)

Section RateLimitFacts.
Import Middleware Spec.
Variables windowMs maxRequests : Z.

Lemma cleanup_keeps (now : Z) (store : gmap string Entry) (key : string)
      (e : Entry) :
  store !! key = Some e -> resetTime e >= now ->
  cleanup now store !! key = Some e.
Proof.
  intros Hk Hlive. unfold cleanup. apply map_lookup_filter_Some_2; [exact Hk|].
  simpl. lia.
Qed.

Lemma sweepAndContinue_keeps (now : Z) (random : Q) (store : gmap string Entry)
      (key : string) (e : Entry) :
  store !! key = Some e -> resetTime e >= now ->
  fst (sweepAndContinue now random store) = CalledNext
  /\ snd (sweepAndContinue now random store) !! key = Some e.
Proof.
  intros Hk Hlive. unfold sweepAndContinue. split; [reflexivity|]. simpl.
  destruct (negb _); [now apply cleanup_keeps|exact Hk].
Qed.

(** A denied call answers 429 and leaves the store as it was. *)
Lemma rateLimit_denied (req : Req) (now : Z) (random : Q)
      (store : gmap string Entry) (e : Entry) :
  store !! keyOf req = Some e -> now < resetTime e -> maxRequests <= count e ->
  rateLimit windowMs maxRequests req now random store = (tooManyRequests, store).
Proof.
  intros Hk Hlive Hfull. unfold rateLimit. rewrite Hk.
  destruct (Z.ltb_spec now (resetTime e)); [|lia].
  destruct (Z.leb_spec maxRequests (count e)); [reflexivity|lia].
Qed.

Lemma rateLimit_counted (req : Req) (now : Z) (random : Q)
      (store : gmap string Entry) (e : Entry) :
  store !! keyOf req = Some e -> now < resetTime e -> count e < maxRequests ->
  fst (rateLimit windowMs maxRequests req now random store) = CalledNext
  /\ snd (rateLimit windowMs maxRequests req now random store) !! keyOf req
     = Some {| count := count e + 1; resetTime := resetTime e |}.
Proof.
  intros Hk Hlive Hroom. unfold rateLimit. rewrite Hk.
  destruct (Z.ltb_spec now (resetTime e)); [|lia].
  destruct (Z.leb_spec maxRequests (count e)); [lia|].
  apply sweepAndContinue_keeps; [apply lookup_insert_eq|simpl; lia].
Qed.

(** A call with no live record opens a window with count 1. *)
Lemma rateLimit_opens (req : Req) (now : Z) (random : Q)
      (store : gmap string Entry) :
  0 <= windowMs ->
  (forall e, store !! keyOf req = Some e -> resetTime e <= now) ->
  fst (rateLimit windowMs maxRequests req now random store) = CalledNext
  /\ snd (rateLimit windowMs maxRequests req now random store) !! keyOf req
     = Some {| count := 1; resetTime := now + windowMs |}.
Proof.
  intros Hw Hexpired. unfold rateLimit.
  destruct (store !! keyOf req) as [e|] eqn:Hk.
  - specialize (Hexpired e eq_refl).
    destruct (Z.ltb_spec now (resetTime e)); [lia|].
    apply sweepAndContinue_keeps; [apply lookup_insert_eq|simpl; lia].
  - apply sweepAndContinue_keeps; [apply lookup_insert_eq|simpl; lia].
Qed.

(** A call under another key does not touch a live record. *)
Lemma rateLimit_other (req : Req) (now : Z) (random : Q)
      (store : gmap string Entry) (key : string) (e : Entry) :
  keyOf req <> key -> store !! key = Some e -> now < resetTime e ->
  snd (rateLimit windowMs maxRequests req now random store) !! key = Some e.
Proof.
  intros Hne Hk Hlive. unfold rateLimit.
  assert (Hins : forall x, <[keyOf req := x]> store !! key = Some e)
    by (intros x; now rewrite lookup_insert_ne).
  destruct (store !! keyOf req) as [r|];
    [destruct (now <? resetTime r); [destruct (maxRequests <=? count r)|]|];
    try exact Hk;
    apply sweepAndContinue_keeps; try apply Hins; lia.
Qed.

Lemma run_cons (c : Call) (rest : list Call) (store : gmap string Entry) :
  run windowMs maxRequests (c :: rest) store
  = let step := rateLimit windowMs maxRequests (callReq c) (callNow c)
                          (callRandom c) store in
    (fst step :: fst (run windowMs maxRequests rest (snd step)),
     snd (run windowMs maxRequests rest (snd step))).
Proof.
  cbn [run]. cbv zeta.
  destruct (rateLimit windowMs maxRequests (callReq c) (callNow c)
                      (callRandom c) store) as [o store'].
  cbn [fst snd]. now destruct (run windowMs maxRequests rest store').
Qed.

(** Calls made while the record of [key] is live and has room: each call
    under [key] goes through and adds one to its count. *)
Lemma run_within_window (key : string) (calls : list Call) :
  forall (store : gmap string Entry) (cnt rt : Z),
    store !! key = Some {| count := cnt; resetTime := rt |} ->
    Forall (fun c => callNow c < rt) calls ->
    cnt + Z.of_nat (length (callsFor key calls)) <= maxRequests ->
    outcomesFor key calls (fst (run windowMs maxRequests calls store))
    = List.repeat CalledNext (length (callsFor key calls))
    /\ snd (run windowMs maxRequests calls store) !! key
       = Some {| count := cnt + Z.of_nat (length (callsFor key calls));
                 resetTime := rt |}.
Proof.
  induction calls as [|c calls IH]; intros store cnt rt Hk Hlive Hroom.
  - simpl. rewrite Z.add_0_r. now split.
  - apply List.Forall_cons_iff in Hlive as [Hc Hlive].
    rewrite run_cons. cbv zeta.
    unfold callsFor in *. cbn [fst snd outcomesFor List.filter] in *.
    destruct (sameKey key c) eqn:Hsame; unfold sameKey in Hsame.
    + apply String.eqb_eq in Hsame. cbn [length] in *.
      rewrite <- Hsame in Hk.
      destruct (rateLimit_counted (callReq c) (callNow c) (callRandom c)
                                  store _ Hk) as [Ho Hs]; simpl; try lia.
      rewrite Hsame in Hs. simpl in Hs.
      destruct (IH _ _ _ Hs Hlive) as [IHo IHs]; [lia|].
      rewrite Ho, IHo, IHs. split; [reflexivity|]. do 2 f_equal. lia.
    + apply String.eqb_neq in Hsame. apply IH; try assumption.
      now apply rateLimit_other.
Qed.

End RateLimitFacts.

Section LoginRateLimit.
Import Middleware Spec.

(** C8. With [rateLimit(60000, 5)]: once a call under a key has opened a
    window, the next four calls under that key inside the window go
    through, whatever other keys do meanwhile, and the sixth is answered
    429 and leaves the store untouched (count and reset time unchanged);
    a call arriving when the key's reset time has passed goes through and
    sets the key's count to 1 with a new window. *)
Theorem login_rate_limit :
  (forall (store : gmap string Entry) (first : Call) (between : list Call)
          (sixth : Call),
      let key := keyOf (callReq first) in
      let closes := callNow first + 60000 in
      (forall e, store !! key = Some e -> resetTime e <= callNow first) ->
      Forall (fun c => callNow c < closes) between ->
      length (callsFor key between) = 4%nat ->
      keyOf (callReq sixth) = key ->
      callNow sixth < closes ->
      let earlier := run 60000 5 (first :: between) store in
      outcomesFor key (first :: between) (fst earlier)
      = List.repeat CalledNext 5
      /\ snd earlier !! key = Some {| count := 5; resetTime := closes |}
      /\ rateLimit 60000 5 (callReq sixth) (callNow sixth) (callRandom sixth)
                   (snd earlier)
         = (tooManyRequests, snd earlier))
  /\ (forall (store : gmap string Entry) (req : Req) (now : Z) (random : Q),
         (forall e, store !! keyOf req = Some e -> resetTime e <= now) ->
         fst (rateLimit 60000 5 req now random store) = CalledNext
         /\ snd (rateLimit 60000 5 req now random store) !! keyOf req
            = Some {| count := 1; resetTime := now + 60000 |}).
Proof.
  split.
  - intros store first between sixth key closes Hold Hin Hfour Hkey Hsixth earlier.
    subst earlier. rewrite run_cons. cbv zeta.
    destruct (rateLimit_opens 60000 5 (callReq first) (callNow first)
                              (callRandom first) store ltac:(lia) Hold)
      as [Ho Hs].
    fold key in Hs. fold closes in Hs.
    destruct (run_within_window 60000 5 key between _ 1 closes Hs Hin)
      as [Hos Hcount]; [rewrite Hfour; lia|].
    rewrite Hfour in Hos, Hcount.
    cbn [fst snd outcomesFor]. unfold sameKey at 1. fold key.
    rewrite String.eqb_refl, Ho, Hos.
    repeat split; [exact Hcount|].
    apply rateLimit_denied with (e := {| count := 5; resetTime := closes |});
      [rewrite Hkey; exact Hcount|exact Hsixth|simpl; lia].
  - intros store req now random Hold.
    now apply rateLimit_opens.
Qed.

End LoginRateLimit.


(** ** Ingress route *)

Section IngressFacts.
Import Js Spec Routes.
Context {E : RegExp.Engine}.

(** C5. When the tenant id of an ingestion call resolves to no tenant, or
    to a tenant that is not active, the handler answers with a client
    error and does nothing else: the state afterwards is the state before,
    so no request row, no analysis row and no alert row is created and
    nothing is broadcast.  The answer is 404, Tenant not found or inactive,
    when the call carries a tenant id and a request, and the 400 of an
    incomplete call otherwise. *)
Theorem ingress_tenant_not_found (env : Env) (body : IngressBody) (w : World) :
  tenantUnavailable body (db w) ->
  snd (ingress env body w) = w
  /\ (forall tid r,
         tenantId body = Some tid -> tid <> "" -> request body = Some r ->
         fst (ingress env body w) = failure 404 "Tenant not found or inactive")
  /\ (status (fst (ingress env body w)) = 404
      \/ status (fst (ingress env body w)) = 400).
Proof.
  intros Hun. unfold ingress.
  destruct (tenantId body) as [tid|] eqn:Htid;
    [|repeat split; [discriminate|now right]].
  destruct (request body) as [r|] eqn:Hreq;
    [|repeat split; [discriminate|now right]].
  destruct (String.eqb_spec tid "") as [->|Hne];
    [repeat split; [intros ? ? [= <-]; congruence|now right]|].
  destruct (Storage.getTenant tid (db w)) as [t|] eqn:Ht;
    [rewrite (Hun tid t Htid Ht)|]; repeat split; auto.
Qed.

Lemma countWhere_createRequest (f : Storage.RequestRow -> bool)
      (row : Storage.RequestRow) (d : Storage.Db) :
  Storage.countWhere f (Storage.createRequest row d)
  = Storage.countWhere f d + oneIf (f row).
Proof.
  unfold Storage.countWhere, Storage.createRequest, Storage.withRequests.
  cbn [Storage.requests]. rewrite List.filter_app, List.length_app. simpl.
  destruct (f row); simpl; lia.
Qed.

Lemma countWhere_same_requests (f : Storage.RequestRow -> bool)
      (d d' : Storage.Db) :
  Storage.requests d' = Storage.requests d ->
  Storage.countWhere f d' = Storage.countWhere f d.
Proof. unfold Storage.countWhere. now intros ->. Qed.

(** What a successful run of the handler has stored. *)
Lemma process_success (env : Env) (tid : string) (t : Storage.Tenant)
      (incoming : Engine.RequestData) (w : World) (rid : string)
      (act : Engine.Action) (score matchCount : Z) :
  fst (process env tid t incoming w)
  = {| status := 200; json := IngressResult rid act score matchCount |} ->
  exists row arow,
    Storage.requests (db (snd (process env tid t incoming w)))
    = Storage.requests (db w) ++ [row]
    /\ Storage.analyses (db (snd (process env tid t incoming w)))
       = Storage.analyses (db w) ++ [arow]
    /\ Storage.requestId row = rid
    /\ Storage.analysisRequestId arow = rid
    /\ Storage.timestamp row = now env
    /\ Storage.actionTaken row = storedAction act
    /\ Storage.responseCode row = responseCodeOf act
    /\ Storage.suggestedAction arow = storedAction act
    /\ Storage.finalAction arow = storedAction act.
Proof.
  unfold process.
  destruct (Engine.analyzeRequest _ incoming _) as [analysis|e];
    [|discriminate].
  destruct (bodyPreviewOf (Engine.body incoming)) as [preview|e];
    [|discriminate].
  destruct (70 <=? Engine.resultScore analysis); cbn [fst snd db];
    intros [= <- <- <- <-]; do 2 eexists; repeat split.
Qed.

(** C10. When the handler answers 200 with an analysis action, it has
    appended one request row and one analysis row for that request whose
    stored actions are [deny] for a block decision (the stored enumeration
    has no [block]), [challenge] for a challenge and [allow] otherwise,
    with response code 403, 429 and 200 respectively; and the dashboard's
    blocked count, which counts the recent rows stored as [deny], has grown
    by one exactly for a block decision. *)
Theorem ingress_stores_deny (env : Env) (body : IngressBody) (w : World)
        (rid : string) (act : Engine.Action) (score matchCount : Z) :
  fst (ingress env body w)
  = {| status := 200; json := IngressResult rid act score matchCount |} ->
  (exists row arow,
      Storage.requests (db (snd (ingress env body w)))
      = Storage.requests (db w) ++ [row]
      /\ Storage.analyses (db (snd (ingress env body w)))
         = Storage.analyses (db w) ++ [arow]
      /\ Storage.requestId row = rid
      /\ Storage.analysisRequestId arow = rid
      /\ (act = Engine.block ->
          Storage.actionTaken row = Storage.AtDeny
          /\ Storage.suggestedAction arow = Storage.AtDeny
          /\ Storage.finalAction arow = Storage.AtDeny
          /\ Storage.responseCode row = 403)
      /\ (act = Engine.challenge ->
          Storage.actionTaken row = Storage.AtChallenge
          /\ Storage.suggestedAction arow = Storage.AtChallenge
          /\ Storage.finalAction arow = Storage.AtChallenge
          /\ Storage.responseCode row = 429)
      /\ (act = Engine.allow ->
          Storage.actionTaken row = Storage.AtAllow
          /\ Storage.suggestedAction arow = Storage.AtAllow
          /\ Storage.finalAction arow = Storage.AtAllow
          /\ Storage.responseCode row = 200))
  /\ (forall at_time,
         at_time - Storage.dayMs <= now env ->
         Storage.blockedRequests
           (Storage.getDashboardStats at_time (db (snd (ingress env body w))))
         = Storage.blockedRequests (Storage.getDashboardStats at_time (db w))
           + oneIf (isBlock act)).
Proof.
  unfold ingress.
  destruct (tenantId body) as [tid|]; [|discriminate].
  destruct (request body) as [incoming|]; [|discriminate].
  destruct (String.eqb tid ""); [discriminate|].
  destruct (Storage.getTenant tid (db w)) as [t|]; [|discriminate].
  destruct (Storage.isActive t); [|discriminate].
  intros H.
  destruct (process_success _ _ _ _ _ _ _ _ _ H)
    as (row & arow & Hreqs & Han & Hid & Haid & Hts & Hact & Hcode & Hsug & Hfin).
  split.
  - exists row, arow. rewrite Hact, Hcode, Hsug, Hfin.
    repeat split; try assumption; subst act; reflexivity.
  - intros at_time Hrecent. cbn [Storage.getDashboardStats Storage.blockedRequests].
    rewrite (countWhere_same_requests _ (Storage.createRequest row (db w)))
      by (rewrite Hreqs; reflexivity).
    rewrite countWhere_createRequest. f_equal.
    rewrite Hts, Hact.
    destruct (Z.leb_spec (at_time - Storage.dayMs) (now env)); [|lia].
    now destruct act.
Qed.

End IngressFacts.


(** ** Concrete runs on the executable pattern fragment *)

Section Runs.
Import Js Engine Spec Examples.
#[local] Existing Instance RegExp.fragmentEngine.

Lemma fragment_defaultsCompile : defaultsCompile.
Proof. unfold defaultsCompile. repeat constructor; discriminate. Qed.

Example path_traversal_challenged :
  analyzeRequest wafEngine (getRequest "/../../etc/passwd" None) defaultThresholds
  = Normal {| action := challenge;
              resultScore := 50;
              matches := [{| ruleId := "path-traversal"; field := "path";
                             value := "/../../etc/passwd";
                             matchSeverity := "medium" |}];
              reason := ExceededChallenge 50 50 |}.
Proof. vm_compute. reflexivity. Qed.

(** The SQL-injection default declares score 80 and contributes the 75 of
    its severity. *)
Example union_select_blocked :
  option_map dpScore (List.head defaultPatterns) = Some 80
  /\ exists ms,
      analyzeRequest wafEngine unionRequest defaultThresholds
      = Normal {| action := block; resultScore := 75; matches := ms;
                  reason := ExceededBlock 75 70 |}
      /\ List.map ruleId ms = ["sql-injection"].
Proof. split; [reflexivity|]. eexists. split; vm_compute; reflexivity. Qed.

Example benign_allowed :
  analyzeRequest wafEngine (getRequest "/home" None) defaultThresholds
  = Normal noThreat.
Proof. vm_compute. reflexivity. Qed.

(** Rules of every severity fire on one request: five critical, one high,
    one medium, one low and one of a severity outside the table sum up to
    500 + 75 + 50 + 25 + 25 = 675, and the score is 100.  With the high
    rule alone the score is 75. *)
Lemma analyzeRequest_score_witness :
  points (firedRules adminRequest (setCustomRules mixedSeverities wafEngine))
  = 675
  /\ analyzeRequest (setCustomRules [severityRule "high"] wafEngine)
                    adminRequest defaultThresholds
     = Normal {| action := block; resultScore := 75;
                 matches := [mkMatch (severityRule "high") "/admin"];
                 reason := ExceededBlock 75 70 |}
  /\ resultScore mixedSeveritiesResult
     = clamp 0 100
             (points (firedRules adminRequest
                                 (setCustomRules mixedSeverities wafEngine)))
  /\ resultScore mixedSeveritiesResult
     = clamp 0 100
         (100 * withSeverity "critical"
                  (firedRules adminRequest
                              (setCustomRules mixedSeverities wafEngine))
          + 75 * withSeverity "high"
                   (firedRules adminRequest
                               (setCustomRules mixedSeverities wafEngine))
          + 50 * withSeverity "medium"
                   (firedRules adminRequest
                               (setCustomRules mixedSeverities wafEngine))
          + 25 * withSeverity "low"
                   (firedRules adminRequest
                               (setCustomRules mixedSeverities wafEngine))
          + 25 * unlistedSeverity
                   (firedRules adminRequest
                               (setCustomRules mixedSeverities wafEngine)))
  /\ 0 <= resultScore mixedSeveritiesResult <= 100
  /\ forall this' : WafEngine,
       List.map withoutScore (customRules this')
       = List.map withoutScore
                  (customRules (setCustomRules mixedSeverities wafEngine)) ->
       analyzeRequest this' adminRequest defaultThresholds
       = Normal mixedSeveritiesResult.
Proof.
  split; [vm_compute; reflexivity|].
  split; [vm_compute; reflexivity|].
  apply (analyzeRequest_score (setCustomRules mixedSeverities wafEngine)
                              adminRequest defaultThresholds
                              mixedSeveritiesResult).
  vm_compute. reflexivity.
Defined.

Lemma analyzeRequest_monotone_witness :
  (forall this request result,
      analyzeRequest this request defaultThresholds = Normal result ->
      action result = fst (decide (resultScore result) defaultThresholds))
  /\ (forall s1 s2 : Z,
         s1 <= s2 ->
         restrictiveness (fst (decide s1 defaultThresholds))
         <= restrictiveness (fst (decide s2 defaultThresholds)))
  /\ (forall this1 request1 result1 this2 request2 result2,
         analyzeRequest this1 request1 defaultThresholds = Normal result1 ->
         analyzeRequest this2 request2 defaultThresholds = Normal result2 ->
         resultScore result1 <= resultScore result2 ->
         restrictiveness (action result1) <= restrictiveness (action result2)).
Proof.
  apply (analyzeRequest_monotone defaultThresholds);
    unfold Qle; simpl; lia.
Defined.

(** The disabled rule's pattern is found in the path, and still nothing
    is reported. *)
Lemma disabled_rule_never_matches_witness :
  option_map (fun regex => RegExp.test regex "/admin")
             (RegExp.construct (pattern disabledAdminRule)) = Some true
  /\ analyzeRequest (setCustomRules [disabledAdminRule] wafEngine)
                    adminRequest defaultThresholds
     = Normal noThreat
  /\ ~ In disabledAdminRule
          (firedRules adminRequest (setCustomRules [disabledAdminRule] wafEngine)).
Proof.
  split; [vm_compute; reflexivity|].
  split; [vm_compute; reflexivity|].
  apply (disabled_rule_never_matches disabledAdminRule [disabledAdminRule]
                                     wafEngine adminRequest defaultThresholds).
  reflexivity.
Defined.

(** C6 fails on the code: an enabled rule with a malformed pattern makes
    the whole analysis throw, although the rule after it would have
    fired. *)
Lemma malformed_pattern_aborts_analysis :
  RegExp.parsePattern (pattern malformedRule) = RegExp.PSyntaxError
  /\ RegExp.construct (pattern malformedRule) = None
  /\ analyzeRequest (setCustomRules [adminRule] wafEngine)
                    adminRequest defaultThresholds
     = Normal {| action := block; resultScore := 100;
                 matches := [mkMatch adminRule "/admin"];
                 reason := ExceededBlock 100 70 |}
  /\ analyzeRequest (setCustomRules [malformedRule; adminRule] wafEngine)
                    adminRequest defaultThresholds
     = Throw SyntaxError
  /\ ~ exists result,
         analyzeRequest (setCustomRules [malformedRule; adminRule] wafEngine)
                        adminRequest defaultThresholds
         = Normal result.
Proof.
  repeat split; try (vm_compute; reflexivity).
  intros [result H]. vm_compute in H. discriminate H.
Qed.

(** The caller of the ingress route sees the failure as a 500. *)
Example malformed_pattern_fails_ingress :
  fst (Routes.ingress
         someEnv (callTo "acme" adminRequest)
         {| Routes.db :=
              {| Storage.tenants := Storage.tenants someDb;
                 Storage.policies := [];
                 Storage.rules := [{| Storage.ruleTenantId := Some "acme";
                                      Storage.rule := malformedRule |}];
                 Storage.requests := [];
                 Storage.analyses := [];
                 Storage.alerts := [] |};
            Routes.engine := wafEngine;
            Routes.sse := [] |})
  = Routes.failure 500 "WAF processing error".
Proof. vm_compute. reflexivity. Qed.

(** C7 fails on the code: the pattern occurs in the serialized request,
    and a rule targeting [full-request] does not fire. *)
Lemma full_request_tested_against_empty :
  (exists regex,
      RegExp.construct (pattern fullRequestRule) = Some regex
      /\ RegExp.test regex (stringify (requestObject adminRequest)) = true
      /\ RegExp.test regex "" = false)
  /\ enabled fullRequestRule = true
  /\ targetField fullRequestRule = "full-request"
  /\ targetContent adminRequest fullRequestRule = Str ""
  /\ analyzeRequest (setCustomRules [fullRequestRule] wafEngine)
                    adminRequest defaultThresholds
     = Normal noThreat.
Proof.
  split; [eexists; repeat split; vm_compute; reflexivity|].
  repeat split; vm_compute; reflexivity.
Qed.

Lemma whole_request_content_witness :
  exists regex result,
    RegExp.construct (pattern wholeRequestRule) = Some regex
    /\ analyzeRequest (setCustomRules [wholeRequestRule] wafEngine)
                      adminRequest defaultThresholds
       = Normal result
    /\ (In wholeRequestRule
           (firedRules adminRequest (setCustomRules [wholeRequestRule] wafEngine))
        <-> RegExp.test regex (stringify (requestObject adminRequest)) = true)
    /\ List.map ruleId (matches result) = ["verb"].
Proof.
  eexists. eexists.
  split; [vm_compute; reflexivity|].
  split; [vm_compute; reflexivity|].
  split; [|vm_compute; reflexivity].
  eapply (whole_request_content (setCustomRules [wholeRequestRule] wafEngine)
                                adminRequest defaultThresholds);
    try (vm_compute; reflexivity).
  now left.
Defined.

(** The tenant exists and is inactive; the request would have been
    blocked. *)
Lemma ingress_tenant_not_found_witness :
  Routes.ingress someEnv (callTo "dormant" unionRequest) someWorld
  = (Routes.failure 404 "Tenant not found or inactive", someWorld)
  /\ Routes.ingress someEnv (callTo "nobody" unionRequest) someWorld
     = (Routes.failure 404 "Tenant not found or inactive", someWorld).
Proof.
  assert (Hun : forall name,
             name = "dormant" \/ name = "nobody" ->
             tenantUnavailable (callTo name unionRequest) (Routes.db someWorld)).
  { intros name Hname tid t [= <-].
    destruct Hname as [-> | ->]; vm_compute; intros [= <-]; reflexivity. }
  split.
  - destruct (ingress_tenant_not_found someEnv (callTo "dormant" unionRequest)
                                       someWorld (Hun _ (or_introl eq_refl)))
      as (Hw & Hr & _).
    rewrite (surjective_pairing (Routes.ingress _ _ _)), Hw.
    now rewrite (Hr "dormant" unionRequest eq_refl ltac:(discriminate) eq_refl).
  - destruct (ingress_tenant_not_found someEnv (callTo "nobody" unionRequest)
                                       someWorld (Hun _ (or_intror eq_refl)))
      as (Hw & Hr & _).
    rewrite (surjective_pairing (Routes.ingress _ _ _)), Hw.
    now rewrite (Hr "nobody" unionRequest eq_refl ltac:(discriminate) eq_refl).
Defined.

Lemma ingress_stores_deny_witness :
  fst (Routes.ingress someEnv (callTo "acme" unionRequest) someWorld)
  = {| Routes.status := 200;
       Routes.json := Routes.IngressResult "req-1" block 75 1 |}
  /\ List.map (fun r => (Storage.actionTaken r, Storage.responseCode r))
              (Storage.requests
                 (Routes.db (snd (Routes.ingress someEnv
                                                 (callTo "acme" unionRequest)
                                                 someWorld))))
     = [(Storage.AtDeny, 403)]
  /\ Storage.blockedRequests
       (Storage.getDashboardStats
          (Routes.now someEnv)
          (Routes.db (snd (Routes.ingress someEnv (callTo "acme" unionRequest)
                                          someWorld))))
     = 1.
Proof.
  assert (Hok : fst (Routes.ingress someEnv (callTo "acme" unionRequest) someWorld)
                = {| Routes.status := 200;
                     Routes.json := Routes.IngressResult "req-1" block 75 1 |})
    by (vm_compute; reflexivity).
  destruct (ingress_stores_deny someEnv (callTo "acme" unionRequest) someWorld
                                "req-1" block 75 1 Hok)
    as [(row & arow & Hreqs & _ & _ & _ & Hblock & _) Hdash].
  destruct (Hblock eq_refl) as (Hact & _ & _ & Hcode).
  split; [exact Hok|]. split.
  - rewrite Hreqs. simpl. now rewrite Hact, Hcode.
  - rewrite (Hdash (Routes.now someEnv)); [reflexivity|].
    vm_compute. discriminate.
Defined.

(** Six attempts from one address in one minute, with another address in
    between, and a seventh after the window. *)
Example login_attempts :
  let calls :=
    [loginCall "198.51.100.4" 1000; loginCall "198.51.100.4" 2000;
     loginCall "192.0.2.9" 2500; loginCall "198.51.100.4" 3000;
     loginCall "198.51.100.4" 4000; loginCall "198.51.100.4" 5000;
     loginCall "198.51.100.4" 6000; loginCall "198.51.100.4" 61000] in
  fst (Middleware.run 60000 5 calls ∅)
  = [Middleware.CalledNext; Middleware.CalledNext; Middleware.CalledNext;
     Middleware.CalledNext; Middleware.CalledNext; Middleware.CalledNext;
     tooManyRequests; Middleware.CalledNext]
  /\ snd (Middleware.run 60000 5 calls ∅) !! "198.51.100.4-/api/login"
     = Some {| Middleware.count := 1; Middleware.resetTime := 121000 |}.
Proof. vm_compute. split; reflexivity. Qed.

Example anonymizeIp_runs :
  Storage.anonymizeIp "203.0.113.77" = "203.0.113.0"
  /\ Storage.anonymizeIp "2001:db8::8a2e:370:7334" = "2001:db8::8a2e:370:0"
  /\ Storage.anonymizeIp "203.0.113.0" = "203.0.113.0".
Proof. repeat split. Qed.

End Runs.


(** ** Output escaping: [sanitizeInput] *)

Section SanitizeFacts.
Import Js Middleware Spec.

Lemma escapeMap_cases (c : ascii) :
  (c = "&"%char /\ escapeMap c = Some "&amp;")
  \/ (c = "<"%char /\ escapeMap c = Some "&lt;")
  \/ (c = ">"%char /\ escapeMap c = Some "&gt;")
  \/ (c = dquote /\ escapeMap c = Some "&quot;")
  \/ (c = "'"%char /\ escapeMap c = Some "&#x27;")
  \/ (escapeMap c = None
      /\ c <> "&"%char /\ c <> "<"%char /\ c <> ">"%char
      /\ c <> dquote /\ c <> "'"%char).
Proof.
  unfold escapeMap.
  destruct (Ascii.eqb_spec c "&"); [subst; now left|].
  destruct (Ascii.eqb_spec c "<"); [subst; now right; left|].
  destruct (Ascii.eqb_spec c ">"); [subst; now right; right; left|].
  destruct (Ascii.eqb_spec c dquote); [subst; now right; right; right; left|].
  destruct (Ascii.eqb_spec c "'"); [subst; now right; right; right; right; left|].
  now repeat right.
Qed.

Lemma sanitizeInput_app (a b : string) :
  sanitizeInput (a +:+ b) = sanitizeInput a +:+ sanitizeInput b.
Proof.
  induction a as [|c a IH]; [reflexivity|].
  change (String c a +:+ b) with (String c (a +:+ b)).
  cbn [sanitizeInput]. rewrite IH.
  destruct (escapeMap c) as [e|]; [|reflexivity].
  clear. induction e as [|x e IHe]; [reflexivity|].
  change (String x e +:+ ?u) with (String x (e +:+ u)). now rewrite IHe.
Qed.

(** X1. The output of [sanitizeInput] holds no angle bracket and no
    quote, whatever the input. *)
Theorem sanitizeInput_output_safe (input : string) :
  includes "<" (sanitizeInput input) = false
  /\ includes ">" (sanitizeInput input) = false
  /\ includes dquote (sanitizeInput input) = false
  /\ includes "'" (sanitizeInput input) = false.
Proof.
  induction input as [|c rest (IH1 & IH2 & IH3 & IH4)]; [now repeat split|].
  cbn [sanitizeInput].
  destruct (escapeMap_cases c)
    as [[-> ->]|[[-> ->]|[[-> ->]|[[-> ->]|[[-> ->]|(-> & _ & H1 & H2 & H3 & H4)]]]]];
    rewrite ?includes_app, ?IH1, ?IH2, ?IH3, ?IH4; try (now repeat split).
  cbn [includes].
  apply Ascii.eqb_neq in H1, H2, H3, H4.
  rewrite H1, H2, H3, H4, IH1, IH2, IH3, IH4. now repeat split.
Qed.

Lemma sanitizeInput_empty (s : string) :
  sanitizeInput s = EmptyString -> s = EmptyString.
Proof.
  destruct s as [|c s]; [reflexivity|]. cbn [sanitizeInput].
  destruct (escapeMap_cases c)
    as [[_ ->]|[[_ ->]|[[_ ->]|[[_ ->]|[[_ ->]|(-> & _)]]]]]; discriminate.
Qed.

(** X2. [sanitizeInput] loses nothing: two inputs with the same output
    are the same input. *)
Theorem sanitizeInput_injective (a b : string) :
  sanitizeInput a = sanitizeInput b <-> a = b.
Proof.
  split; [|now intros ->].
  revert b. induction a as [|c a IH]; intros b H.
  - symmetry. now apply sanitizeInput_empty.
  - destruct b as [|d b]; [now apply sanitizeInput_empty in H|].
    cbn [sanitizeInput] in H.
    destruct (escapeMap_cases c)
      as [[-> Hc]|[[-> Hc]|[[-> Hc]|[[-> Hc]|[[-> Hc]|(Hc & Hc1 & _)]]]]];
    destruct (escapeMap_cases d)
      as [[-> Hd]|[[-> Hd]|[[-> Hd]|[[-> Hd]|[[-> Hd]|(Hd & Hd1 & _)]]]]];
    rewrite ?Hc, ?Hd in H; cbv [String.append] in H;
    try discriminate H;
    try (injection H as H; f_equal; now apply IH);
    try (injection H as Hx H; subst; f_equal; now apply IH);
    try (injection H as Hx H; congruence).
Qed.

Lemma sanitizeInput_clean (s : string) :
  hasSpecial s = false -> sanitizeInput s = s.
Proof.
  induction s as [|c s IH]; [reflexivity|]. cbn [hasSpecial sanitizeInput].
  destruct (escapeMap c); [discriminate|]. intros H. now rewrite IH.
Qed.

Lemma sanitizeInput_longer (s : string) :
  hasSpecial s = true ->
  (String.length s < String.length (sanitizeInput s))%nat.
Proof.
  assert (Hle : forall t, (String.length t <= String.length (sanitizeInput t))%nat).
  { induction t as [|c t IH]; [reflexivity|]. cbn [sanitizeInput].
    destruct (escapeMap_cases c)
      as [[_ ->]|[[_ ->]|[[_ ->]|[[_ ->]|[[_ ->]|(-> & _)]]]]];
      rewrite ?length_append; simpl; lia. }
  induction s as [|c s IH]; [discriminate|]. cbn [hasSpecial sanitizeInput].
  specialize (Hle s).
  destruct (escapeMap_cases c)
    as [[_ ->]|[[_ ->]|[[_ ->]|[[_ ->]|[[_ ->]|(-> & _)]]]]];
    intros H; rewrite ?length_append; simpl; try lia.
  specialize (IH H). lia.
Qed.

(** X3. [sanitizeInput] is the identity exactly on the inputs that hold
    none of the five characters, and escaping twice differs from escaping
    once on every other input (the ampersand of each entity is escaped
    again). *)
Theorem sanitizeInput_twice (input : string) :
  (sanitizeInput input = input <-> hasSpecial input = false)
  /\ (sanitizeInput (sanitizeInput input) = sanitizeInput input
      <-> hasSpecial input = false).
Proof.
  assert (Hfix : sanitizeInput input = input <-> hasSpecial input = false).
  { split; [|apply sanitizeInput_clean].
    intros H. destruct (hasSpecial input) eqn:Hs; [|reflexivity].
    apply sanitizeInput_longer in Hs. rewrite H in Hs. lia. }
  split; [exact Hfix|]. rewrite <- Hfix. split.
  - intros H. assert (Hs : hasSpecial (sanitizeInput input) = false).
    { destruct (hasSpecial (sanitizeInput input)) eqn:Hs; [|reflexivity].
      apply sanitizeInput_longer in Hs. rewrite H in Hs. lia. }
    destruct (hasSpecial input) eqn:Hi; [|now apply sanitizeInput_clean].
    exfalso. clear H Hfix. induction input as [|c s IH]; [discriminate|].
    cbn [hasSpecial sanitizeInput] in *.
    destruct (escapeMap_cases c)
      as [[_ Hc]|[[_ Hc]|[[_ Hc]|[[_ Hc]|[[_ Hc]|(Hc & _)]]]]];
      rewrite Hc in *; try discriminate Hs.
    cbn [hasSpecial] in Hs. rewrite Hc in Hs. now apply IH.
  - intros H. now rewrite !H.
Qed.

End SanitizeFacts.


(** ** Rate limiter: quota, cleanup and counters *)

Section RateLimitMore.
Import Middleware Spec.
Variables windowMs maxRequests : Z.

Lemma quotaOutcomes_repeat (quota n : nat) :
  quotaOutcomes quota n
  = List.repeat CalledNext (Nat.min quota n)
    ++ List.repeat tooManyRequests (n - quota).
Proof.
  revert quota. induction n as [|n IH]; intros [|q]; simpl;
    rewrite ?IH; try reflexivity.
  now rewrite Nat.sub_0_r.
Qed.

Lemma run_window_quota (key : string) (calls : list Call) :
  forall (store : gmap string Entry) (cnt rt : Z),
    store !! key = Some {| count := cnt; resetTime := rt |} ->
    Forall (fun c => callNow c < rt) calls ->
    outcomesFor key calls (fst (run windowMs maxRequests calls store))
    = quotaOutcomes (Z.to_nat (maxRequests - cnt))
                    (length (callsFor key calls)).
Proof.
  induction calls as [|c calls IH]; intros store cnt rt Hk Hlive;
    [reflexivity|].
  apply List.Forall_cons_iff in Hlive as [Hc Hlive].
  rewrite run_cons. cbv zeta.
  unfold callsFor in *. cbn [fst snd outcomesFor List.filter] in *.
  destruct (sameKey key c) eqn:Hsame; unfold sameKey in Hsame.
  - apply String.eqb_eq in Hsame. cbn [length quotaOutcomes].
    rewrite <- Hsame in Hk.
    destruct (Z.lt_ge_cases cnt maxRequests) as [Hroom|Hfull].
    + destruct (rateLimit_counted windowMs maxRequests (callReq c) (callNow c)
                                  (callRandom c) store _ Hk) as [Ho Hs];
        simpl; try lia.
      rewrite Hsame in Hs. simpl in Hs.
      rewrite Ho, (IH _ _ _ Hs Hlive).
      replace (Z.to_nat (maxRequests - cnt))
        with (S (Z.to_nat (maxRequests - (cnt + 1)))) by lia.
      reflexivity.
    + rewrite (rateLimit_denied windowMs maxRequests (callReq c) (callNow c)
                                (callRandom c) store _ Hk) by (simpl; lia).
      cbn [fst snd]. rewrite Hsame in Hk. rewrite (IH _ _ _ Hk Hlive).
      replace (Z.to_nat (maxRequests - cnt)) with O by lia. reflexivity.
  - apply String.eqb_neq in Hsame. apply (IH _ cnt rt); [|exact Hlive].
    now apply rateLimit_other.
Qed.

(** X4. Inside one window the limiter is an exact quota per key, for any
    window length and any limit: the call that opens the window always
    passes (also when the limit is 0 or negative), then the next
    [maxRequests - 1] calls under the key pass and every further one is
    answered 429, whatever other keys and cleanups do in between. *)
Theorem rate_limit_quota (store : gmap string Entry) (first : Call)
        (between : list Call) :
  0 <= windowMs ->
  (forall e, store !! keyOf (callReq first) = Some e ->
             resetTime e <= callNow first) ->
  Forall (fun c => callNow c < callNow first + windowMs) between ->
  outcomesFor (keyOf (callReq first)) (first :: between)
              (fst (run windowMs maxRequests (first :: between) store))
  = CalledNext
      :: List.repeat CalledNext
           (Nat.min (Z.to_nat (maxRequests - 1))
                    (length (callsFor (keyOf (callReq first)) between)))
      ++ List.repeat tooManyRequests
           (length (callsFor (keyOf (callReq first)) between)
            - Z.to_nat (maxRequests - 1)).
Proof.
  intros Hw Hold Hin. rewrite run_cons. cbv zeta.
  destruct (rateLimit_opens windowMs maxRequests (callReq first) (callNow first)
                            (callRandom first) store Hw Hold) as [Ho Hs].
  cbn [fst snd outcomesFor]. unfold sameKey at 1.
  rewrite String.eqb_refl, Ho. f_equal.
  rewrite (run_window_quota _ between _ 1 _ Hs Hin).
  apply quotaOutcomes_repeat.
Qed.

Lemma countsBounded_insert (store : gmap string Entry) (key : string)
      (e : Entry) :
  countsBounded maxRequests store ->
  1 <= count e <= Z.max 1 maxRequests ->
  countsBounded maxRequests (<[key := e]> store).
Proof. intros Hs He. now apply map_Forall_insert_2. Qed.

Lemma countsBounded_sweep (now : Z) (random : Q) (store : gmap string Entry) :
  countsBounded maxRequests store ->
  countsBounded maxRequests (snd (sweepAndContinue now random store)).
Proof.
  intros Hs. unfold sweepAndContinue. cbn [snd].
  destruct (negb _); [|exact Hs].
  intros k e Hk. apply map_lookup_filter_Some_1_1 in Hk. exact (Hs k e Hk).
Qed.

Lemma countsBounded_rateLimit (req : Req) (now : Z) (random : Q)
      (store : gmap string Entry) :
  countsBounded maxRequests store ->
  countsBounded maxRequests
                (snd (rateLimit windowMs maxRequests req now random store)).
Proof.
  intros Hs. unfold rateLimit.
  destruct (store !! keyOf req) as [e|] eqn:Hk.
  - pose proof (Hs _ _ Hk) as He. simpl in He.
    destruct (now <? resetTime e).
    + destruct (Z.leb_spec maxRequests (count e)); [exact Hs|].
      apply countsBounded_sweep, countsBounded_insert; [exact Hs|simpl; lia].
    + apply countsBounded_sweep, countsBounded_insert; [exact Hs|simpl; lia].
  - apply countsBounded_sweep, countsBounded_insert; [exact Hs|simpl; lia].
Qed.

(** X5. No stored counter ever leaves the range from 1 to the limit:
    the range is kept by every call, so it holds after any series of
    calls on a store that starts empty. *)
Theorem rate_limit_counts_bounded (calls : list Call) :
  (forall store,
      countsBounded maxRequests store ->
      countsBounded maxRequests (snd (run windowMs maxRequests calls store)))
  /\ countsBounded maxRequests (snd (run windowMs maxRequests calls ∅)).
Proof.
  assert (H : forall store,
             countsBounded maxRequests store ->
             countsBounded maxRequests
                           (snd (run windowMs maxRequests calls store))).
  { induction calls as [|c rest IH]; intros store Hs; [exact Hs|].
    rewrite run_cons. cbv zeta. cbn [snd].
    now apply IH, countsBounded_rateLimit. }
  split; [exact H|]. apply H. apply map_Forall_empty.
Qed.

Lemma expiredAt_mono (t t' : Z) (o : option Entry) :
  t <= t' -> expiredAt t o -> expiredAt t' o.
Proof. destruct o; simpl; lia. Qed.

Lemma agreeLive_mono (t t' : Z) (s1 s2 : gmap string Entry) :
  t <= t' -> agreeLive t s1 s2 -> agreeLive t' s1 s2.
Proof.
  intros Hle H k. destruct (H k) as [Heq|[H1 H2]]; [now left|].
  right. split; eapply expiredAt_mono; eassumption.
Qed.

Lemma agreeLive_insert (t : Z) (s1 s2 : gmap string Entry) (key : string)
      (e : Entry) :
  agreeLive t s1 s2 -> agreeLive t (<[key := e]> s1) (<[key := e]> s2).
Proof.
  intros H k. destruct (decide (key = k)) as [->|Hne].
  - left. now rewrite !lookup_insert_eq.
  - rewrite !lookup_insert_ne by exact Hne. apply H.
Qed.

Lemma sweep_lookup (now : Z) (random : Q) (s : gmap string Entry) (k : string) :
  snd (sweepAndContinue now random s) !! k = s !! k
  \/ (snd (sweepAndContinue now random s) !! k = None
      /\ expiredAt now (s !! k)).
Proof.
  unfold sweepAndContinue. cbn [snd]. destruct (negb _); [|now left].
  unfold cleanup. destruct (s !! k) as [e|] eqn:Hk.
  - destruct (Z.lt_ge_cases (resetTime e) now) as [Hold|Hlive].
    + right. split; [|simpl; lia].
      apply map_lookup_filter_None_2. right. intros e' He'. simpl.
      rewrite Hk in He'. injection He' as <-. lia.
    + left. apply map_lookup_filter_Some_2; [exact Hk|simpl; lia].
  - left. apply map_lookup_filter_None_2. now left.
Qed.

Lemma agreeLive_sweep (now : Z) (r1 r2 : Q) (s1 s2 : gmap string Entry) :
  agreeLive now s1 s2 ->
  agreeLive now (snd (sweepAndContinue now r1 s1))
            (snd (sweepAndContinue now r2 s2)).
Proof.
  intros H k.
  destruct (sweep_lookup now r1 s1 k) as [E1|[E1 X1]];
    destruct (sweep_lookup now r2 s2 k) as [E2|[E2 X2]];
    rewrite E1, E2.
  - apply H.
  - right. split; [|exact I].
    destruct (H k) as [Heq|[H1 _]]; [now rewrite Heq|exact H1].
  - right. split; [exact I|].
    destruct (H k) as [Heq|[_ H2]]; [now rewrite <- Heq|exact H2].
  - now left.
Qed.

Lemma rateLimit_agreeLive (req : Req) (now : Z) (r1 r2 : Q)
      (s1 s2 : gmap string Entry) :
  agreeLive now s1 s2 ->
  fst (rateLimit windowMs maxRequests req now r1 s1)
  = fst (rateLimit windowMs maxRequests req now r2 s2)
  /\ agreeLive now (snd (rateLimit windowMs maxRequests req now r1 s1))
               (snd (rateLimit windowMs maxRequests req now r2 s2)).
Proof.
  intros H.
  assert (Hreset : forall x,
             fst (sweepAndContinue now r1 (<[keyOf req := x]> s1))
             = fst (sweepAndContinue now r2 (<[keyOf req := x]> s2))
             /\ agreeLive now
                  (snd (sweepAndContinue now r1 (<[keyOf req := x]> s1)))
                  (snd (sweepAndContinue now r2 (<[keyOf req := x]> s2)))).
  { intros x. split; [reflexivity|]. now apply agreeLive_sweep, agreeLive_insert. }
  unfold rateLimit. destruct (H (keyOf req)) as [Heq|[H1 H2]].
  - rewrite <- Heq. destruct (s1 !! keyOf req) as [e|]; [|apply Hreset].
    destruct (now <? resetTime e); [|apply Hreset].
    destruct (maxRequests <=? count e); [now split|apply Hreset].
  - destruct (s1 !! keyOf req) as [e1|], (s2 !! keyOf req) as [e2|];
      simpl in H1, H2;
      repeat match goal with
             | |- context [now <? resetTime ?e] =>
                 destruct (Z.ltb_spec now (resetTime e)); [lia|]
             end;
      apply Hreset.
Qed.

(** X6. The random cleanup is not observable: two runs of the same calls
    at the same times that differ only in the values of [Math.random()]
    answer every call alike, provided the clock does not go back. *)
Theorem rate_limit_cleanup_unobservable (calls1 calls2 : list Call)
        (store : gmap string Entry) (t : Z) :
  Forall2 sameButRandom calls1 calls2 ->
  clockMonotone t calls1 ->
  fst (run windowMs maxRequests calls1 store)
  = fst (run windowMs maxRequests calls2 store).
Proof.
  intros Hsame. assert (Hrel : agreeLive t store store) by (intros k; now left).
  revert t Hrel. generalize store at 1 3 as s1. generalize store as s2.
  induction Hsame as [|c1 c2 rest1 rest2 [Hreq Hnow] _ IH];
    intros s2 s1 t Hrel Hclock; [reflexivity|].
  destruct Hclock as [Hle Hclock].
  rewrite !run_cons. cbv zeta. cbn [fst].
  rewrite <- Hreq, <- Hnow.
  destruct (rateLimit_agreeLive (callReq c1) (callNow c1) (callRandom c1)
                                (callRandom c2) s1 s2) as [Ho Hs];
    [now apply agreeLive_mono with t|].
  rewrite Ho. f_equal. now apply IH with (callNow c1).
Qed.

End RateLimitMore.


(** ** Scoring engine: when it returns, and what the score can be *)

Section EngineMore.
Import Js Engine Spec.
Context {E : RegExp.Engine}.

Lemma targetContent_of_member (request : RequestData) (rule : WafRule) :
  targetsMember rule = true ->
  exists m, targetContent request rule = Member m.
Proof.
  unfold targetsMember, targetContent, searchableContent. intros H.
  repeat match goal with
         | |- context [if String.eqb ?a ?b then _ else _] =>
             destruct (String.eqb_spec a b) as [Heq|_];
               [rewrite Heq in H; vm_compute in H; discriminate H|]
         end.
  destruct (assoc (targetField rule) objectPrototype); [|discriminate].
  simpl. eauto.
Qed.

(** The loop runs to its end exactly on evaluable rules. *)
Lemma scanRules_complete (request : RequestData) (rules : list WafRule) :
  Forall (fun r => evaluable request r = true) rules ->
  forall ms ts,
    scanRules request rules ms ts
    = Normal (ms ++ List.map (matchOf request) (List.filter (fires request) rules),
              ts + points (List.filter (fires request) rules)).
Proof.
  induction 1 as [|r rules Hr _ IH]; intros ms ts.
  - simpl. now rewrite app_nil_r, Z.add_0_r.
  - destruct (scanRules request (r :: rules) ms ts) as [[ms' ts']|e] eqn:Hscan.
    + apply scanRules_normal in Hscan as [-> ->]. reflexivity.
    + exfalso. revert Hscan. cbn [scanRules]. unfold evaluable in Hr.
      destruct (enabled r); cbn [negb orb] in *; [|now rewrite IH].
      destruct (RegExp.construct (pattern r)) as [regex|]; [|discriminate].
      destruct (RegExp.test regex (shown (targetContent request r)));
        cbn [negb orb] in Hr; [|now rewrite IH].
      apply negb_true_iff in Hr.
      destruct (targetContent_member request r Hr) as [s ->]. now rewrite IH.
Qed.

Lemma scanRules_evaluable (request : RequestData) (rules : list WafRule) :
  forall ms ts ms' ts',
    scanRules request rules ms ts = Normal (ms', ts') ->
    Forall (fun r => evaluable request r = true) rules.
Proof.
  induction rules as [|r rules IH]; intros ms ts ms' ts' H; [constructor|].
  cbn [scanRules] in H.
  assert (Hr : evaluable request r = true
               /\ exists ms1 ts1,
                   scanRules request rules ms1 ts1 = Normal (ms', ts')).
  { unfold evaluable.
    destruct (enabled r); cbn [negb orb] in *; [|eauto].
    destruct (RegExp.construct (pattern r)) as [regex|]; [|discriminate].
    destruct (RegExp.test regex (shown (targetContent request r))) eqn:Ht;
      cbn [negb orb]; [|eauto].
    destruct (targetsMember r) eqn:Hm.
    - destruct (targetContent_of_member request r Hm) as [m Hc].
      rewrite Hc in H. discriminate.
    - destruct (targetContent_member request r Hm) as [s Hc]. rewrite Hc in H.
      eauto. }
  destruct Hr as (Hr & ms1 & ts1 & H1).
  constructor; [exact Hr|now apply IH in H1].
Qed.

(** The first rule the loop cannot get past decides the exception. *)
Lemma scanRules_throw_cause (request : RequestData) (rules : list WafRule) :
  forall ms ts e,
    scanRules request rules ms ts = Throw e ->
    exists r, In r rules /\ enabled r = true
              /\ ((e = SyntaxError /\ RegExp.construct (pattern r) = None)
                  \/ (e = TypeError /\ targetsMember r = true)).
Proof.
  induction rules as [|r rules IH]; intros ms ts e H; [discriminate|].
  cbn [scanRules] in H.
  assert (Hrest : forall ms1 ts1,
             scanRules request rules ms1 ts1 = Throw e ->
             exists r0, In r0 (r :: rules) /\ enabled r0 = true
                        /\ ((e = SyntaxError
                             /\ RegExp.construct (pattern r0) = None)
                            \/ (e = TypeError /\ targetsMember r0 = true))).
  { intros ms1 ts1 H1. destruct (IH _ _ _ H1) as (r0 & Hin & Hrest).
    exists r0. split; [now right|exact Hrest]. }
  destruct (enabled r) eqn:He; cbn [negb] in H; [|now apply Hrest in H].
  destruct (RegExp.construct (pattern r)) as [regex|] eqn:Hc.
  - destruct (RegExp.test regex (shown (targetContent request r)));
      [|now apply Hrest in H].
    destruct (targetsMember r) eqn:Hm.
    + destruct (targetContent_of_member request r Hm) as [m Hcm].
      rewrite Hcm in H. injection H as <-.
      exists r. split; [now left|]. split; [exact He|]. right. now split.
    + destruct (targetContent_member request r Hm) as [s Hcs].
      rewrite Hcs in H. now apply Hrest in H.
  - injection H as <-. exists r. split; [now left|]. split; [exact He|].
    left. now split.
Qed.

(** X7. [analyzeRequest] returns an analysis exactly when every enabled
    rule, default or custom, has a pattern that compiles and no enabled
    rule whose pattern is found was aimed at a member inherited from
    Object.prototype (a target field such as [constructor]); otherwise it
    throws, a SyntaxError for a pattern that does not compile and a
    TypeError for a hit on an inherited member. *)
Theorem analyzeRequest_returns_iff (this : WafEngine) (request : RequestData)
        (thresholds : Thresholds) :
  ((exists result, analyzeRequest this request thresholds = Normal result)
   <-> Forall (fun r => evaluable request r = true) (allRules this))
  /\ (forall e,
         analyzeRequest this request thresholds = Throw e ->
         exists r, In r (allRules this) /\ enabled r = true
                   /\ ((e = SyntaxError /\ RegExp.construct (pattern r) = None)
                       \/ (e = TypeError /\ targetsMember r = true))).
Proof.
  unfold analyzeRequest, bind. split; [split|].
  - intros [result H].
    destruct (scanRules request (allRules this) [] 0) as [[ms ts]|e] eqn:Hscan;
      [|discriminate].
    now apply scanRules_evaluable in Hscan.
  - intros Hall. rewrite (scanRules_complete _ _ Hall).
    destruct (decide _ thresholds). eauto.
  - intros e H.
    destruct (scanRules request (allRules this) [] 0) as [[ms ts]|e'] eqn:Hscan.
    + destruct (decide _ thresholds). discriminate.
    + injection H as <-. now apply scanRules_throw_cause in Hscan.
Qed.

Lemma points_lattice (rules : list WafRule) :
  exists k, points rules = 25 * k /\ Z.of_nat (length rules) <= k.
Proof.
  induction rules as [|r rules (k & Hk & Hlen)]; [exists 0; simpl; lia|].
  cbn [points length]. rewrite Hk. unfold severityScore.
  repeat match goal with
         | |- context [String.eqb ?a ?b] => destruct (String.eqb a b)
         end;
    [exists (k + 4)|exists (k + 3)|exists (k + 2)|exists (k + 1)]; lia.
Qed.

(** X8. A returned score is one of 0, 25, 50, 75 and 100, and it is 0
    exactly when the match list is empty: every match counts at least
    25. *)
Theorem analyzeRequest_score_lattice (this : WafEngine)
        (request : RequestData) (thresholds : Thresholds)
        (result : AnalysisResult) :
  analyzeRequest this request thresholds = Normal result ->
  In (resultScore result) [0; 25; 50; 75; 100]
  /\ (resultScore result = 0 <-> matches result = []).
Proof.
  intros H. destruct (analyzeRequest_normal _ _ _ _ H) as (Hm & Hs & _).
  destruct (points_lattice (firedRules request this)) as (k & Hk & Hlen).
  rewrite Hm, Hs, Hk. split.
  - simpl.
    assert (k = 0 \/ k = 1 \/ k = 2 \/ k = 3 \/ 4 <= k) as Hcases by lia.
    destruct Hcases as [->|[->|[->|[->|Hbig]]]]; simpl; auto 6.
    rewrite Z.min_l by lia. auto 6.
  - destruct (firedRules request this) as [|r rest] eqn:Hf.
    + simpl in Hk. split; [reflexivity|]. intros _. lia.
    + cbn [length] in Hlen. split; [lia|discriminate].
Qed.

Lemma filter_Permutation_bool {A : Type} (f : A -> bool) (l l' : list A) :
  Permutation l l' -> Permutation (List.filter f l) (List.filter f l').
Proof.
  induction 1 as [|x l l' _ IH|x y l|l l' l'' _ IH1 _ IH2]; simpl.
  - constructor.
  - destruct (f x); [now constructor|exact IH].
  - destruct (f x), (f y); try reflexivity. apply perm_swap.
  - now transitivity (List.filter f l').
Qed.

Lemma points_Permutation (l l' : list WafRule) :
  Permutation l l' -> points l = points l'.
Proof.
  induction 1 as [|x l l' _ IH|x y l|l l' l'' _ IH1 _ IH2]; simpl; lia.
Qed.

Lemma analyzeRequest_of_evaluable (this : WafEngine) (request : RequestData)
      (thresholds : Thresholds) :
  Forall (fun r => evaluable request r = true) (allRules this) ->
  analyzeRequest this request thresholds
  = Normal
      {| action :=
           fst (decide (Z.min 100 (points (firedRules request this))) thresholds);
         resultScore := Z.min 100 (points (firedRules request this));
         matches := List.map (matchOf request) (firedRules request this);
         reason :=
           snd (decide (Z.min 100 (points (firedRules request this))) thresholds) |}.
Proof.
  intros Hall. unfold analyzeRequest, bind.
  rewrite (scanRules_complete _ _ Hall). fold (firedRules request this).
  cbn [app Z.add]. rewrite Z.add_0_l.
  now destruct (decide _ thresholds).
Qed.

Lemma analyzeRequest_evaluable (this : WafEngine) (request : RequestData)
      (thresholds : Thresholds) (result : AnalysisResult) :
  analyzeRequest this request thresholds = Normal result ->
  Forall (fun r => evaluable request r = true) (allRules this).
Proof.
  unfold analyzeRequest, bind. intros H.
  destruct (scanRules request (allRules this) [] 0) as [[ms ts]|e] eqn:Hscan;
    [|discriminate].
  now apply scanRules_evaluable in Hscan.
Qed.

(** X9. The order of the rules handed to [setCustomRules] does not
    matter to the verdict: if the analysis returns for one order it
    returns for every other, with the same score, action and reason, and
    with the same matches in a possibly different order. *)
Theorem analyzeRequest_order_independent (rules rules' : list WafRule)
        (this : WafEngine) (request : RequestData) (thresholds : Thresholds)
        (result : AnalysisResult) :
  Permutation rules rules' ->
  analyzeRequest (setCustomRules rules this) request thresholds = Normal result ->
  exists result',
    analyzeRequest (setCustomRules rules' this) request thresholds
    = Normal result'
    /\ resultScore result' = resultScore result
    /\ action result' = action result
    /\ reason result' = reason result
    /\ Permutation (matches result) (matches result').
Proof.
  intros Hperm H.
  assert (Hall : Permutation (allRules (setCustomRules rules this))
                             (allRules (setCustomRules rules' this))).
  { unfold allRules, setCustomRules. cbn [customRules].
    apply Permutation_app_head. now apply filter_Permutation_bool. }
  pose proof (analyzeRequest_evaluable _ _ _ _ H) as Hev.
  rewrite (analyzeRequest_of_evaluable _ _ _ Hev) in H. injection H as <-.
  eexists. split.
  - apply analyzeRequest_of_evaluable.
    eapply Permutation_Forall; [exact Hall|exact Hev].
  - assert (Hf : Permutation (firedRules request (setCustomRules rules this))
                             (firedRules request (setCustomRules rules' this)))
      by now apply filter_Permutation_bool.
    cbn [resultScore action reason matches].
    rewrite (points_Permutation _ _ Hf).
    repeat split. now apply Permutation_map.
Qed.

(** X10. Rules added at the end of the rule set can only add to the
    verdict: when the analysis with the longer rule set returns, so does
    the analysis with the shorter one, its matches are the first matches
    of the longer analysis, and its score and action are no higher.  With
    an empty shorter rule set: custom rules never suppress a match of the
    built-in patterns. *)
Theorem analyzeRequest_rules_only_add (rules more : list WafRule)
        (this : WafEngine) (request : RequestData) (thresholds : Thresholds)
        (result' : AnalysisResult) :
  analyzeRequest (setCustomRules (rules ++ more) this) request thresholds
  = Normal result' ->
  exists result extra,
    analyzeRequest (setCustomRules rules this) request thresholds = Normal result
    /\ matches result' = matches result ++ extra
    /\ resultScore result <= resultScore result'
    /\ restrictiveness (action result) <= restrictiveness (action result').
Proof.
  intros H. pose proof (analyzeRequest_evaluable _ _ _ _ H) as Hev.
  rewrite (analyzeRequest_of_evaluable _ _ _ Hev) in H. injection H as <-.
  assert (Hsplit : allRules (setCustomRules (rules ++ more) this)
                   = allRules (setCustomRules rules this)
                     ++ List.filter enabled more).
  { unfold allRules, setCustomRules. cbn [customRules].
    now rewrite List.filter_app, List.app_assoc. }
  assert (Hev0 : Forall (fun r => evaluable request r = true)
                        (allRules (setCustomRules rules this))).
  { rewrite Hsplit in Hev. now apply List.Forall_app in Hev as [Hev _]. }
  assert (Hf : firedRules request (setCustomRules (rules ++ more) this)
               = firedRules request (setCustomRules rules this)
                 ++ List.filter (fires request) (List.filter enabled more)).
  { unfold firedRules. now rewrite Hsplit, List.filter_app. }
  eexists. eexists. split; [now apply analyzeRequest_of_evaluable|].
  cbn [matches resultScore action]. rewrite Hf, List.map_app, points_app.
  pose proof (points_nonneg (List.filter (fires request)
                                         (List.filter enabled more))) as Hp.
  split; [reflexivity|]. split; [lia|]. apply decide_monotone. lia.
Qed.

Lemma stdlib_substring_length (n m : nat) (s : string) :
  (String.length (String.substring n m s) <= m)%nat.
Proof.
  revert n m. induction s as [|c s IH]; intros [|n] [|m]; simpl; try lia.
  - specialize (IH 0%nat m). lia.
  - apply (IH n 0%nat).
  - apply (IH n (S m)).
Qed.

Lemma stdlib_substring_whole (m : nat) (s : string) :
  (String.length s <= m)%nat -> String.substring 0 m s = s.
Proof.
  revert m. induction s as [|c s IH]; intros [|m]; simpl; try reflexivity;
    try lia.
  intros H. rewrite IH by lia. reflexivity.
Qed.

Lemma substring_100 (s : string) :
  (String.length (substring 0 100 s) <= 100)%nat
  /\ ((String.length s <= 100)%nat -> substring 0 100 s = s).
Proof.
  unfold substring. split.
  - etransitivity; [apply stdlib_substring_length|]. lia.
  - intros H. replace (Z.to_nat _) with 0%nat by lia.
    apply stdlib_substring_whole. lia.
Qed.

(** X11. Every match of a returned analysis comes from an enabled rule
    that fired and carries that rule's content cut to its first 100
    characters (the whole content when it is no longer than that); a rule
    contributes at most one match, so there are at most as many matches as
    rules. *)
Theorem analyzeRequest_match_excerpts (this : WafEngine)
        (request : RequestData) (thresholds : Thresholds)
        (result : AnalysisResult) :
  analyzeRequest this request thresholds = Normal result ->
  (length (matches result) <= 4 + length (customRules this))%nat
  /\ forall m,
      In m (matches result) ->
      (String.length (value m) <= 100)%nat
      /\ exists r,
          In r (allRules this) /\ enabled r = true
          /\ ruleId m = id r /\ field m = targetField r
          /\ matchSeverity m = severity r
          /\ value m = substring 0 100 (shown (targetContent request r))
          /\ ((String.length (shown (targetContent request r)) <= 100)%nat ->
              value m = shown (targetContent request r)).
Proof.
  intros H. destruct (analyzeRequest_normal _ _ _ _ H) as (Hm & _ & _).
  rewrite Hm. split.
  - rewrite List.length_map. unfold firedRules.
    etransitivity; [apply List.filter_length_le|].
    unfold allRules. rewrite List.length_app, List.length_map. simpl. lia.
  - intros m (r & <- & Hr)%List.in_map_iff.
    unfold firedRules in Hr. apply List.filter_In in Hr as [Hin Hf].
    destruct (substring_100 (shown (targetContent request r))) as [Hlen Hwhole].
    split; [exact Hlen|]. exists r.
    repeat split; try assumption. now apply fires_enabled in Hf.
Qed.

End EngineMore.

(** ** No isolation of a failing rule *)

Section NoIsolation.
Import Js Engine Spec.
Context {E : RegExp.Engine}.

(** The rule set after [setCustomRules]: the built-in rules, then the
    enabled rules of the list. *)
Lemma allRules_setCustomRules (rules : list WafRule) (this : WafEngine)
      (x : WafRule) :
  In x (allRules (setCustomRules rules this))
  <-> (exists p, In p defaultPatterns /\ x = defaultRule p)
      \/ (In x rules /\ enabled x = true).
Proof.
  unfold allRules, setCustomRules. cbn [customRules].
  rewrite List.in_app_iff, List.in_map_iff, List.filter_In.
  split; (intros [(p & H1 & H2)|H]; [left; exists p; now split|now right]).
Qed.

Lemma defaultRule_evaluable (request : RequestData) (p : DefaultPattern) :
  defaultsCompile -> In p defaultPatterns ->
  evaluable request (defaultRule p) = true.
Proof.
  intros Hdef Hp. unfold evaluable.
  rewrite (defaultRule_not_member p Hp). cbn [negb].
  unfold defaultsCompile in Hdef. rewrite List.Forall_forall in Hdef.
  specialize (Hdef p Hp). change (pattern (defaultRule p)) with (dpSource p).
  destruct (RegExp.construct (dpSource p)); [|congruence].
  now rewrite !orb_true_r.
Qed.

(** C6, as the code has it. No error is isolated per rule.  Whenever an
    enabled rule of the list has a pattern that does not compile, the call
    throws and returns no analysis, whatever the other rules are.  What is
    thrown is the SyntaxError of the constructor, or a TypeError when the
    list also holds an enabled rule aimed at a member inherited from
    Object.prototype (the loop then calls [substring] on something that
    is no string); with no such rule it is always the SyntaxError.  The
    call returns an analysis exactly when every enabled rule of the list
    has a pattern that compiles and is not both found and aimed at an
    inherited member; a disabled rule is never a cause. *)
Theorem analyzeRequest_malformed_pattern (rules : list WafRule)
        (this : WafEngine) (request : RequestData) (thresholds : Thresholds) :
  defaultsCompile ->
  ((exists x, In x rules /\ enabled x = true
              /\ RegExp.construct (pattern x) = None) ->
   (exists e,
       analyzeRequest (setCustomRules rules this) request thresholds = Throw e
       /\ (e = SyntaxError
           \/ (e = TypeError
               /\ exists y, In y rules /\ enabled y = true
                            /\ targetsMember y = true)))
   /\ (Forall (fun x => enabled x = true -> targetsMember x = false) rules ->
       analyzeRequest (setCustomRules rules this) request thresholds
       = Throw SyntaxError))
  /\ ((exists result,
          analyzeRequest (setCustomRules rules this) request thresholds
          = Normal result)
      <-> (forall x, In x rules -> enabled x = true ->
             exists regex,
               RegExp.construct (pattern x) = Some regex
               /\ (RegExp.test regex (shown (targetContent request x)) = true ->
                   targetsMember x = false))).
Proof.
  intros Hdef. split; [|split].
  - intros (x & Hin & Hen & Hbad).
    assert (Hthrows : exists e,
               scanRules request (allRules (setCustomRules rules this)) [] 0
               = Throw e).
    { apply scanRules_throws. exists x. repeat split; try assumption.
      apply allRules_setCustomRules. right. now split. }
    destruct Hthrows as [e He]. unfold analyzeRequest. rewrite He.
    split.
    + exists e. split; [reflexivity|].
      destruct (scanRules_throw_cause _ _ _ _ _ He)
        as (r & Hr & Hren & [[-> _]|[-> Hmem]]); [now left|right].
      split; [reflexivity|].
      apply allRules_setCustomRules in Hr as [(p & Hp & ->)|[Hr _]].
      * rewrite (defaultRule_not_member p Hp) in Hmem. discriminate.
      * exists r. now repeat split.
    + intros Hnone. destruct e; [reflexivity|]. exfalso.
      revert He. apply scanRules_no_TypeError.
      apply (allRules_checked (fun x => targetsMember x = false));
        [apply defaultRule_not_member|exact Hnone].
  - intros [result H]. unfold analyzeRequest, bind in H.
    destruct (scanRules request (allRules (setCustomRules rules this)) [] 0)
      as [[ms ts]|e] eqn:Hscan; [|discriminate].
    apply scanRules_evaluable in Hscan. rewrite List.Forall_forall in Hscan.
    intros x Hin Hen.
    assert (Hx : evaluable request x = true).
    { apply Hscan, allRules_setCustomRules. right. now split. }
    unfold evaluable in Hx. rewrite Hen in Hx. cbn [negb orb] in Hx.
    destruct (RegExp.construct (pattern x)) as [regex|]; [|discriminate].
    exists regex. split; [reflexivity|]. intros Ht. rewrite Ht in Hx.
    cbn [negb orb] in Hx. now apply negb_true_iff in Hx.
  - intros Hall. unfold analyzeRequest, bind.
    rewrite scanRules_complete.
    + destruct (decide _ thresholds). eauto.
    + apply List.Forall_forall. intros x Hx.
      apply allRules_setCustomRules in Hx as [(p & Hp & ->)|[Hin Hen]].
      * now apply defaultRule_evaluable.
      * destruct (Hall x Hin Hen) as (regex & Hc & Hfound).
        unfold evaluable. rewrite Hen, Hc. cbn [negb orb].
        destruct (RegExp.test regex (shown (targetContent request x)));
          [|reflexivity].
        now rewrite Hfound.
Qed.

End NoIsolation.

(** ** Scoring engine: thresholds and target fields *)

Section EngineThresholds.
Import Js Engine Spec.
Context {E : RegExp.Engine}.

Lemma returned_score_cases (this : WafEngine) (request : RequestData)
      (thresholds : Thresholds) (result : AnalysisResult) :
  analyzeRequest this request thresholds = Normal result ->
  (resultScore result = 0 \/ resultScore result = 25 \/ resultScore result = 50
   \/ resultScore result = 75 \/ resultScore result = 100)
  /\ (action result, reason result) = decide (resultScore result) thresholds.
Proof.
  intros H. destruct (analyzeRequest_normal _ _ _ _ H) as (_ & Hs & Hd).
  split; [|exact Hd].
  destruct (points_lattice (firedRules request this)) as (k & Hk & Hlen).
  rewrite Hs, Hk. lia.
Qed.

(** X12. For a tenant without a policy record the thresholds are 70, 50
    and 30, and the monitoring annotation can never occur: a score of 0 or
    25 is allowed with no annotation, 50 is challenged, 75 and 100 are
    blocked. *)
Theorem default_thresholds_never_monitor (this : WafEngine)
        (request : RequestData) (result : AnalysisResult) :
  analyzeRequest this request (Routes.thresholdsOf None) = Normal result ->
  (forall s, reason result <> RequiresMonitoring s)
  /\ (resultScore result <= 25 ->
      action result = allow /\ reason result = PassedAllChecks)
  /\ (resultScore result = 50 -> action result = challenge)
  /\ (75 <= resultScore result -> action result = block).
Proof.
  intros H. destruct (returned_score_cases _ _ _ _ H) as [Hs Hd].
  assert (Ha : action result = fst (decide (resultScore result)
                                           (Routes.thresholdsOf None)))
    by now rewrite <- Hd.
  assert (Hr : reason result = snd (decide (resultScore result)
                                           (Routes.thresholdsOf None)))
    by now rewrite <- Hd.
  rewrite Ha, Hr.
  destruct Hs as [->|[->|[->|[->| ->]]]]; vm_compute;
    repeat split; intros; try discriminate; try reflexivity; try lia;
    exfalso; auto.
Qed.

Lemma score_as_rational (this : WafEngine) (request : RequestData)
      (thresholds : Thresholds) (result : AnalysisResult) :
  analyzeRequest this request thresholds = Normal result ->
  (0 <= inject_Z (resultScore result))%Q
  /\ (inject_Z (resultScore result) <= 100)%Q.
Proof.
  intros H. destruct (analyzeRequest_clamped _ _ _ _ H) as [_ [H0 H100]].
  split.
  - change 0%Q with (inject_Z 0). now rewrite <- Zle_Qle.
  - change 100%Q with (inject_Z 100). now rewrite <- Zle_Qle.
Qed.

(** X13. Thresholds outside the range of the score decide the verdict by
    themselves: with a block threshold of 0 or less every request is
    blocked, also one with no match at all; with a block threshold above
    100 none is; and with all three thresholds above 100 every request is
    allowed with no annotation. *)
Theorem thresholds_out_of_range (this : WafEngine) (request : RequestData)
        (thresholds : Thresholds) (result : AnalysisResult) :
  analyzeRequest this request thresholds = Normal result ->
  ((blockThreshold thresholds <= 0)%Q -> action result = block)
  /\ ((100 < blockThreshold thresholds)%Q -> action result <> block)
  /\ ((100 < blockThreshold thresholds)%Q ->
      (100 < challengeThreshold thresholds)%Q ->
      (100 < monitorThreshold thresholds)%Q ->
      action result = allow /\ reason result = PassedAllChecks).
Proof.
  intros H. destruct (score_as_rational _ _ _ _ H) as [H0 H100].
  destruct (analyzeRequest_normal _ _ _ _ H) as (_ & _ & Hd).
  assert (Hover : forall t : Q,
             (100 < t)%Q -> Qle_bool t (inject_Z (resultScore result)) = false).
  { intros t Ht. apply not_true_iff_false. rewrite Qle_bool_iff.
    apply Qlt_not_le. eapply Qle_lt_trans; eassumption. }
  unfold decide in Hd. repeat split.
  - intros Hb.
    assert (Hle : Qle_bool (blockThreshold thresholds)
                           (inject_Z (resultScore result)) = true)
      by (apply Qle_bool_iff; eapply Qle_trans; eassumption).
    rewrite Hle in Hd. now injection Hd.
  - intros Hb Habs. rewrite (Hover _ Hb) in Hd.
    destruct (Qle_bool (challengeThreshold thresholds) _);
      [|destruct (Qle_bool (monitorThreshold thresholds) _)];
      injection Hd as Ha _; congruence.
  - rewrite (Hover _ H1), (Hover _ H2), (Hover _ H3) in Hd.
    now injection Hd.
  - rewrite (Hover _ H1), (Hover _ H2), (Hover _ H3) in Hd.
    now injection Hd.
Qed.

Lemma targetContent_unknown (request : RequestData) (rule : WafRule) :
  ownKey (targetField rule) = false ->
  targetsMember rule = false ->
  targetContent request rule = Str EmptyString.
Proof.
  unfold ownKey, targetsMember, targetContent, searchableContent.
  intros Hown Hmem.
  repeat (apply orb_false_iff in Hown as [Hown ?]).
  repeat match goal with
         | H : String.eqb _ _ = false |- _ => rewrite H; clear H
         end.
  now destruct (assoc (targetField rule) objectPrototype).
Qed.

(** X14. A rule whose target field is no key of [searchableContent]
    (the rule form offers [user-agent], which is none) is tested against
    the empty string: it fires exactly when its pattern is found in the
    empty string, whatever the request holds, and then reports an empty
    excerpt. *)
Theorem unknown_target_field_sees_nothing (this : WafEngine)
        (request : RequestData) (thresholds : Thresholds)
        (result : AnalysisResult) (rule : WafRule) (regex : RegExp.regexp) :
  analyzeRequest this request thresholds = Normal result ->
  In rule (customRules this) ->
  enabled rule = true ->
  RegExp.construct (pattern rule) = Some regex ->
  ownKey (targetField rule) = false ->
  targetsMember rule = false ->
  (In rule (firedRules request this)
   <-> RegExp.test regex EmptyString = true)
  /\ value (matchOf request rule) = EmptyString
  /\ (RegExp.test regex EmptyString = true ->
      In (matchOf request rule) (matches result)).
Proof.
  intros H Hin Hen Hre Hown Hmem.
  pose proof (targetContent_unknown request rule Hown Hmem) as Hc.
  assert (Hfire : In rule (firedRules request this)
                  <-> RegExp.test regex EmptyString = true).
  { assert (Hall : In rule (allRules this))
      by (unfold allRules; apply List.in_or_app; now right).
    unfold firedRules. rewrite List.filter_In. unfold fires.
    rewrite Hen, Hre, Hc. cbn [andb shown]. tauto. }
  split; [exact Hfire|]. split.
  - unfold matchOf. rewrite Hc. reflexivity.
  - intros Ht. destruct (analyzeRequest_normal _ _ _ _ H) as (-> & _).
    apply List.in_map. now apply Hfire.
Qed.

End EngineThresholds.


(** ** Header scrubbing *)

Section ScrubFacts.
Import Js Spec Routes.

Lemma filter_filter_bool {A : Type} (f g : A -> bool) (l : list A) :
  List.filter f (List.filter g l) = List.filter (fun x => g x && f x) l.
Proof.
  induction l as [|x l IH]; [reflexivity|]. simpl.
  destruct (g x); simpl; [destruct (f x)|]; now rewrite IH.
Qed.

Lemma scrubHeaders_filter (headers : JSON) (cookies auth : bool) :
  scrubHeaders headers cookies auth
  = JObj (List.filter (fun kv => negb (scrubbedName cookies auth (fst kv)))
                      (entries headers)).
Proof.
  unfold scrubHeaders, deleteKey. f_equal.
  destruct cookies, auth; rewrite ?filter_filter_bool;
    try (apply List.filter_ext; intros [k v]; unfold scrubbedName; simpl;
         repeat match goal with
                | |- context [String.eqb ?a ?b] => destruct (String.eqb a b)
                end; reflexivity).
  symmetry. unfold scrubbedName. simpl.
  induction (entries headers) as [|x l IH]; [reflexivity|]. simpl. now f_equal.
Qed.

(** Looking a name up after filtering on names. *)
Lemma getProperty_filter (keep : string -> bool) (props : list (string * JSON))
      (name : string) :
  getProperty name (Some (JObj (List.filter (fun kv => keep (fst kv)) props)))
  = if keep name then getProperty name (Some (JObj props)) else None.
Proof.
  unfold getProperty. induction props as [|[k v] props IH]; simpl.
  - now destruct (keep name).
  - destruct (String.eqb_spec k name) as [->|Hne].
    + destruct (keep name) eqn:Hk; simpl.
      * now rewrite String.eqb_refl.
      * exact IH.
    + destruct (keep k); simpl; [|exact IH].
      destruct (String.eqb_spec k name); [contradiction|exact IH].
Qed.

(** X15. [scrubHeaders] deletes exactly the named headers of the flags
    that are set and nothing else: a deleted name is absent from the
    result, every other name keeps its value (names are compared as
    written, so a differently capitalised name stays), the remaining
    entries keep their order, and scrubbing the result again changes
    nothing. *)
Theorem scrubHeaders_deletes_exactly (headers : JSON) (cookies auth : bool) :
  scrubHeaders headers cookies auth
  = JObj (List.filter (fun kv => negb (scrubbedName cookies auth (fst kv)))
                      (entries headers))
  /\ (forall name,
         getProperty name (Some (scrubHeaders headers cookies auth))
         = if scrubbedName cookies auth name then None
           else getProperty name (Some (JObj (entries headers))))
  /\ scrubHeaders (scrubHeaders headers cookies auth) cookies auth
     = scrubHeaders headers cookies auth.
Proof.
  split; [apply scrubHeaders_filter|]. split.
  - intros name. rewrite scrubHeaders_filter.
    rewrite (getProperty_filter (fun k => negb (scrubbedName cookies auth k))).
    now destruct (scrubbedName cookies auth name).
  - rewrite !scrubHeaders_filter. cbn [entries]. f_equal.
    rewrite filter_filter_bool. apply List.filter_ext. intros kv.
    now destruct (negb _).
Qed.

End ScrubFacts.

(** ** Ingress route: what is stored, broadcast and raised *)

Section IngressMore.
Import Js Spec Routes.
Context {E : RegExp.Engine}.

(** A call answered 200 went through [process] for an active tenant,
    with an analysis that returned and a body the preview accepts. *)
Lemma ingress_success_inv (env : Env) (body : IngressBody) (w : World)
      (rid : string) (act : Engine.Action) (score matchCount : Z) :
  fst (ingress env body w)
  = {| status := 200; json := IngressResult rid act score matchCount |} ->
  exists tid incoming t analysis preview,
    tenantId body = Some tid
    /\ request body = Some incoming
    /\ Storage.getTenant tid (db w) = Some t
    /\ Storage.isActive t = true
    /\ ingress env body w = process env tid t incoming w
    /\ Engine.analyzeRequest
         (Engine.setCustomRules (visibleRules tid (db w)) (engine w)) incoming
         (thresholdsOf (Storage.getPolicyByTenant tid (db w)))
       = Normal analysis
    /\ bodyPreviewOf (Engine.body incoming) = Normal preview
    /\ rid = newRequestId env
    /\ act = Engine.action analysis
    /\ score = Engine.resultScore analysis
    /\ matchCount = Z.of_nat (length (Engine.matches analysis)).
Proof.
  unfold ingress.
  destruct (tenantId body) as [tid|]; [|discriminate].
  destruct (request body) as [incoming|]; [|discriminate].
  destruct (String.eqb tid ""); [discriminate|].
  destruct (Storage.getTenant tid (db w)) as [t|] eqn:Ht; [|discriminate].
  destruct (Storage.isActive t) eqn:Hact; [|discriminate].
  intros H. exists tid, incoming, t. revert H. unfold process.
  fold (visibleRules tid (db w)).
  destruct (Engine.analyzeRequest _ incoming _) as [analysis|e]; [|discriminate].
  destruct (bodyPreviewOf (Engine.body incoming)) as [preview|e];
    [|discriminate].
  intros H. exists analysis, preview.
  destruct (70 <=? Engine.resultScore analysis); cbn [fst] in H;
    injection H as <- <- <- <-; repeat split; assumption.
Qed.

(** X16. On a call answered 200 the stored headers are the scrubbed ones:
    with the tenant's cookie flag set the row holds no [cookie] and no
    [set-cookie] header, with the authorization flag set none of the four
    credential headers.  The stored matches, in the request row and in
    the analysis row, are those of the analysis of the request as it came
    in, so their excerpts are cut from the unscrubbed content. *)
Theorem ingress_stores_scrubbed_headers (env : Env) (body : IngressBody)
        (w : World) (rid : string) (act : Engine.Action)
        (score matchCount : Z) :
  fst (ingress env body w)
  = {| status := 200; json := IngressResult rid act score matchCount |} ->
  exists tid incoming t analysis row arow,
    tenantId body = Some tid
    /\ request body = Some incoming
    /\ Storage.getTenant tid (db w) = Some t
    /\ Engine.analyzeRequest
         (Engine.setCustomRules (visibleRules tid (db w)) (engine w)) incoming
         (thresholdsOf (Storage.getPolicyByTenant tid (db w)))
       = Normal analysis
    /\ Storage.requests (db (snd (ingress env body w)))
       = Storage.requests (db w) ++ [row]
    /\ Storage.analyses (db (snd (ingress env body w)))
       = Storage.analyses (db w) ++ [arow]
    /\ Storage.wafHitsJson row = Engine.matches analysis
    /\ Storage.matchedRulesJson arow = Engine.matches analysis
    /\ Storage.headersJson row = headersToStore t (Engine.headers incoming)
    /\ (Storage.scrubCookies t = Some true ->
        getProperty "cookie" (Some (Storage.headersJson row)) = None
        /\ getProperty "set-cookie" (Some (Storage.headersJson row)) = None)
    /\ (Storage.scrubAuthHeaders t = Some true ->
        getProperty "authorization" (Some (Storage.headersJson row)) = None
        /\ getProperty "x-api-key" (Some (Storage.headersJson row)) = None
        /\ getProperty "x-auth-token" (Some (Storage.headersJson row)) = None
        /\ getProperty "x-access-token" (Some (Storage.headersJson row)) = None).
Proof.
  intros H.
  destruct (ingress_success_inv _ _ _ _ _ _ _ H)
    as (tid & incoming & t & analysis & preview & Htid & Hreq & Ht & _ & Hp
        & Han & Hprev & _).
  exists tid, incoming, t, analysis. rewrite Hp. unfold process.
  fold (visibleRules tid (db w)). rewrite Han, Hprev.
  assert (Hscrub : forall name,
             scrubbedName (default false (Storage.scrubCookies t))
                          (default false (Storage.scrubAuthHeaders t)) name
             = true ->
             getProperty name
               (Some (headersToStore t (Engine.headers incoming))) = None).
  { intros name Hname. unfold headersToStore.
    destruct (default false (Storage.scrubCookies t)
              || default false (Storage.scrubAuthHeaders t)) eqn:Hflags.
    - rewrite scrubHeaders_filter.
      rewrite (getProperty_filter
                 (fun k => negb (scrubbedName
                                   (default false (Storage.scrubCookies t))
                                   (default false (Storage.scrubAuthHeaders t))
                                   k))).
      now rewrite Hname.
    - apply orb_false_iff in Hflags as [Hc Ha]. rewrite Hc, Ha in Hname.
      discriminate. }
  destruct (70 <=? Engine.resultScore analysis); cbn [snd db];
    do 2 eexists;
    repeat (split; [first [reflexivity | assumption]|]);
    cbn [Storage.headersJson];
    (split; intros Hflag; rewrite Hflag in Hscrub; cbn [default] in Hscrub;
     repeat split; apply Hscrub; unfold scrubbedName;
     destruct (default false (Storage.scrubAuthHeaders t)),
              (default false (Storage.scrubCookies t)); reflexivity).
Qed.

(** X17. On a call answered 200 one request broadcast is made, and an
    alert is raised exactly when the score is 70 or more, whatever the
    tenant's thresholds and the action are: below 70 the alert table is
    unchanged; from 70 on one alert row is added, with no severity and
    with type [unknown], and broadcast after the request. *)
Theorem ingress_alert_at_seventy (env : Env) (body : IngressBody) (w : World)
        (rid : string) (act : Engine.Action) (score matchCount : Z) :
  fst (ingress env body w)
  = {| status := 200; json := IngressResult rid act score matchCount |} ->
  exists tid row,
    tenantId body = Some tid
    /\ Storage.requests (db (snd (ingress env body w)))
       = Storage.requests (db w) ++ [row]
    /\ (score < 70 ->
        Storage.alerts (db (snd (ingress env body w))) = Storage.alerts (db w)
        /\ sse (snd (ingress env body w)) = sse w ++ [BroadcastRequest row])
    /\ (70 <= score ->
        exists alert,
          Storage.alerts (db (snd (ingress env body w)))
          = Storage.alerts (db w) ++ [alert]
          /\ Storage.alertId alert = newAlertId env
          /\ Storage.alertTenantId alert = tid
          /\ Storage.alertSeverity alert = None
          /\ Storage.alertType alert = "unknown"
          /\ sse (snd (ingress env body w))
             = sse w ++ [BroadcastRequest row;
                         BroadcastAlert (newAlertId env) None
                                        (Storage.title alert) tid]).
Proof.
  intros H.
  destruct (ingress_success_inv _ _ _ _ _ _ _ H)
    as (tid & incoming & t & analysis & preview & Htid & _ & _ & _ & Hp
        & Han & Hprev & _ & _ & -> & _).
  exists tid. rewrite Hp. unfold process.
  fold (visibleRules tid (db w)). rewrite Han, Hprev.
  destruct (Z.leb_spec 70 (Engine.resultScore analysis)); cbn [snd db sse];
    eexists; repeat split; try reflexivity; try assumption; try lia.
  - intros _. eexists. repeat split. cbn [Storage.createAlert Storage.alerts].
    now rewrite <- List.app_assoc.
Qed.

(** The handler with a failure oracle, case by case. *)
Lemma ingressWithFaults_cases (fails : Step -> bool) (env : Env)
      (body : IngressBody) (w : World) :
  (ingressWithFaults fails env body w = ingress env body w
   /\ snd (ingress env body w) = w
   /\ (status (fst (ingress env body w)) = 400
       \/ status (fst (ingress env body w)) = 404))
  \/ exists tid t incoming,
      ingressWithFaults fails env body w
      = processWithFaults fails env tid t incoming w
      /\ ingress env body w = process env tid t incoming w.
Proof.
  unfold ingressWithFaults, ingress.
  destruct (tenantId body) as [tid|]; [|left; repeat split; now left].
  destruct (request body) as [incoming|]; [|left; repeat split; now left].
  destruct (String.eqb tid ""); [left; repeat split; now left|].
  destruct (Storage.getTenant tid (db w)) as [t|];
    [|left; repeat split; now right].
  destruct (Storage.isActive t); [|left; repeat split; now right].
  right. exists tid, t, incoming. now split.
Qed.

(** X18. What an ingestion call that fails leaves behind, when the
    storage calls and the broadcasts may fail as well.  A call answered
    400 or 404 changes nothing at all.  A call that fails in the analysis,
    in the body preview or in [createRequest] is answered without any row
    written and without any broadcast.  A later failure is answered 500
    with the rows written so far left in place: when [createRequest]
    succeeds the request row of the successful run is stored whatever
    happens next, and when [createAnalysis] then rejects it stays without
    an analysis row and without a broadcast.  A call answered 200 has run
    exactly as the handler without failures. *)
Theorem ingress_failure_trace (fails : Step -> bool) (env : Env)
        (body : IngressBody) (w : World) :
  ingressWithFaults noFault env body w = ingress env body w
  /\ (status (fst (ingressWithFaults fails env body w)) = 400
      \/ status (fst (ingressWithFaults fails env body w)) = 404 ->
      snd (ingressWithFaults fails env body w) = w)
  /\ (status (fst (ingress env body w)) <> 200
      \/ fails CreateRequestCall = true ->
      status (fst (ingressWithFaults fails env body w)) <> 200
      /\ db (snd (ingressWithFaults fails env body w)) = db w
      /\ sse (snd (ingressWithFaults fails env body w)) = sse w)
  /\ (status (fst (ingress env body w)) = 200 ->
      fails CreateRequestCall = false ->
      Storage.requests (db (snd (ingressWithFaults fails env body w)))
      = Storage.requests (db (snd (ingress env body w)))
      /\ (fails CreateAnalysisCall = true ->
          fst (ingressWithFaults fails env body w)
          = failure 500 "WAF processing error"
          /\ Storage.analyses (db (snd (ingressWithFaults fails env body w)))
             = Storage.analyses (db w)
          /\ Storage.alerts (db (snd (ingressWithFaults fails env body w)))
             = Storage.alerts (db w)
          /\ sse (snd (ingressWithFaults fails env body w)) = sse w))
  /\ (status (fst (ingressWithFaults fails env body w)) = 200 ->
      ingressWithFaults fails env body w = ingress env body w).
Proof.
  split.
  { destruct (ingressWithFaults_cases noFault env body w)
      as [(H & _)|(tid & t & incoming & -> & ->)]; [exact H|].
    unfold processWithFaults, process, noFault.
    destruct (Engine.analyzeRequest _ incoming _) as [analysis|e];
      [|reflexivity].
    destruct (bodyPreviewOf (Engine.body incoming)) as [preview|e];
      [|reflexivity].
    reflexivity. }
  destruct (ingressWithFaults_cases fails env body w)
    as [(-> & Hw & Hst)|(tid & t & incoming & -> & ->)].
  { repeat split; try assumption; try (intros; lia);
      try (now rewrite Hw); destruct Hst as [Hst|Hst]; rewrite Hst;
      intros; lia. }
  unfold processWithFaults, process.
  destruct (Engine.analyzeRequest _ incoming _) as [analysis|e].
  2:{ cbn [fst snd status failure db sse]. repeat split; intros;
      try reflexivity; try lia; try (destruct H; lia). }
  destruct (bodyPreviewOf (Engine.body incoming)) as [preview|e].
  2:{ cbn [fst snd status failure db sse]. repeat split; intros;
      try reflexivity; try lia; try (destruct H; lia). }
  destruct (fails CreateRequestCall), (fails CreateAnalysisCall),
    (fails BroadcastRequestCall), (fails CreateAlertCall),
    (fails BroadcastAlertCall),
    (70 <=? Engine.resultScore analysis);
    cbn [fst snd status failure db sse];
    repeat split; intros;
    try reflexivity; try lia; try discriminate;
    try (destruct H; [lia|discriminate]).
Qed.

(** X19. A request whose body is a JSON value other than a string or
    null (an object, an array, a number, a boolean) is never stored: for
    an active tenant the handler answers 500, because only a string has
    the [substring] method the body preview calls. *)
Theorem ingress_rejects_structured_body (env : Env) (tid : string)
        (t : Storage.Tenant) (incoming : Engine.RequestData) (v : JSON)
        (w : World) :
  tid <> EmptyString ->
  Storage.getTenant tid (db w) = Some t ->
  Storage.isActive t = true ->
  Engine.body incoming = Some v ->
  v <> JNull ->
  (forall s, v <> JStr s) ->
  fst (ingress env {| tenantId := Some tid; request := Some incoming |} w)
  = failure 500 "WAF processing error"
  /\ db (snd (ingress env {| tenantId := Some tid; request := Some incoming |} w))
     = db w
  /\ sse (snd (ingress env {| tenantId := Some tid; request := Some incoming |} w))
     = sse w.
Proof.
  intros Hne Ht Hact Hbody Hnull Hstr. unfold ingress. cbn [tenantId request].
  destruct (String.eqb_spec tid ""); [contradiction|].
  rewrite Ht, Hact. unfold process.
  assert (Hprev : bodyPreviewOf (Engine.body incoming) = Throw TypeError).
  { rewrite Hbody. destruct v; try reflexivity; [contradiction|].
    now contradiction (Hstr s). }
  rewrite Hprev.
  now destruct (Engine.analyzeRequest _ incoming _).
Qed.

Lemma getRulesByTenant_other (id : option string) (l1 l2 : list Storage.RuleRow)
      (extra : Storage.RuleRow) (d : Storage.Db) :
  Storage.sameScope (Storage.ruleTenantId extra) id = false ->
  Storage.getRulesByTenant id (withRules (l1 ++ extra :: l2) d)
  = Storage.getRulesByTenant id (withRules (l1 ++ l2) d).
Proof.
  intros H. unfold Storage.getRulesByTenant, withRules. cbn [Storage.rules].
  rewrite !List.filter_app. cbn [List.filter]. now rewrite H.
Qed.

Lemma withRules_same (d : Storage.Db) : withRules (Storage.rules d) d = d.
Proof. now destruct d. Qed.

(** X20. Tenants are isolated in what the analysis sees: a rule row that
    belongs to another tenant, wherever it stands in the rules table, and
    the rules a previous call left in the engine change neither the
    answer of an ingestion call nor the rows and broadcasts it
    produces. *)
Theorem ingress_tenant_isolation (env : Env) (body : IngressBody) (w : World)
        (tid other : string) (l1 l2 : list Storage.RuleRow)
        (extra : Storage.RuleRow) (previous : Engine.WafEngine) :
  tenantId body = Some tid ->
  Storage.rules (db w) = l1 ++ l2 ->
  Storage.ruleTenantId extra = Some other ->
  other <> tid ->
  let w' := {| db := withRules (l1 ++ extra :: l2) (db w);
               engine := previous;
               sse := sse w |} in
  fst (ingress env body w') = fst (ingress env body w)
  /\ Storage.requests (db (snd (ingress env body w')))
     = Storage.requests (db (snd (ingress env body w)))
  /\ Storage.analyses (db (snd (ingress env body w')))
     = Storage.analyses (db (snd (ingress env body w)))
  /\ Storage.alerts (db (snd (ingress env body w')))
     = Storage.alerts (db (snd (ingress env body w)))
  /\ sse (snd (ingress env body w')) = sse (snd (ingress env body w)).
Proof.
  intros Htid Hrules Hscope Hother w'. subst w'. unfold ingress.
  rewrite Htid. destruct (request body) as [incoming|]; [|now repeat split].
  destruct (String.eqb tid ""); [now repeat split|].
  change (Storage.getTenant tid (db {| db := withRules (l1 ++ extra :: l2) (db w);
                                       engine := previous; sse := sse w |}))
    with (Storage.getTenant tid (db w)).
  destruct (Storage.getTenant tid (db w)) as [t|]; [|now repeat split].
  destruct (Storage.isActive t); [|now repeat split].
  unfold process. cbn [db engine sse].
  change (Storage.getPolicyByTenant tid (withRules (l1 ++ extra :: l2) (db w)))
    with (Storage.getPolicyByTenant tid (db w)).
  rewrite !getRulesByTenant_other, <- Hrules, withRules_same;
    [|rewrite Hscope; simpl; now apply String.eqb_neq
     |rewrite Hscope; reflexivity].
  change (Engine.setCustomRules ?r previous)
    with (Engine.setCustomRules r (engine w)).
  destruct (Engine.analyzeRequest _ incoming _) as [analysis|e];
    [|now repeat split].
  destruct (bodyPreviewOf (Engine.body incoming)) as [preview|e];
    [|now repeat split].
  destruct (70 <=? Engine.resultScore analysis); now repeat split.
Qed.

(** X21. The ingress route never stores a request as [monitor]: every
    row it adds is stored as allow, challenge or deny, so the dashboard's
    flagged count is the same before and after any call. *)
Theorem ingress_never_flags (env : Env) (body : IngressBody) (w : World)
        (at_time : Z) :
  (forall row,
      In row (Storage.requests (db (snd (ingress env body w)))) ->
      In row (Storage.requests (db w))
      \/ Storage.actionTaken row <> Storage.AtMonitor)
  /\ Storage.flaggedRequests
       (Storage.getDashboardStats at_time (db (snd (ingress env body w))))
     = Storage.flaggedRequests (Storage.getDashboardStats at_time (db w)).
Proof.
  assert (Hsame : forall d,
             Storage.requests d = Storage.requests (db w) ->
             (forall row, In row (Storage.requests d) ->
                          In row (Storage.requests (db w))
                          \/ Storage.actionTaken row <> Storage.AtMonitor)
             /\ Storage.flaggedRequests (Storage.getDashboardStats at_time d)
                = Storage.flaggedRequests
                    (Storage.getDashboardStats at_time (db w))).
  { intros d Hd. split; [intros row; rewrite Hd; now left|].
    cbn [Storage.getDashboardStats Storage.flaggedRequests].
    now apply countWhere_same_requests. }
  assert (Hadd : forall d row,
             Storage.requests d = Storage.requests (db w) ++ [row] ->
             Storage.actionTaken row <> Storage.AtMonitor ->
             (forall r, In r (Storage.requests d) ->
                        In r (Storage.requests (db w))
                        \/ Storage.actionTaken r <> Storage.AtMonitor)
             /\ Storage.flaggedRequests (Storage.getDashboardStats at_time d)
                = Storage.flaggedRequests
                    (Storage.getDashboardStats at_time (db w))).
  { intros d row Hd Hrow. split.
    - intros r. rewrite Hd, List.in_app_iff. intros [Hr|[<-|[]]]; auto.
    - cbn [Storage.getDashboardStats Storage.flaggedRequests].
      rewrite (countWhere_same_requests _ (Storage.createRequest row (db w)))
        by exact Hd.
      rewrite countWhere_createRequest.
      destruct (Storage.actionTaken row); try contradiction;
        rewrite andb_false_r; simpl; lia. }
  unfold ingress.
  destruct (tenantId body) as [tid|]; [|now apply Hsame].
  destruct (request body) as [incoming|]; [|now apply Hsame].
  destruct (String.eqb tid ""); [now apply Hsame|].
  destruct (Storage.getTenant tid (db w)) as [t|]; [|now apply Hsame].
  destruct (Storage.isActive t); [|now apply Hsame].
  unfold process.
  destruct (Engine.analyzeRequest _ incoming _) as [analysis|e];
    [|now apply Hsame].
  destruct (bodyPreviewOf (Engine.body incoming)) as [preview|e];
    [|now apply Hsame].
  destruct (70 <=? Engine.resultScore analysis); cbn [snd db];
    (eapply Hadd; [reflexivity|]); cbn [Storage.actionTaken];
    now destruct (Engine.action analysis).
Qed.

(** A rule the tenant sees whose pattern does not compile makes the
    handler answer 500 before anything is stored. *)
Lemma process_malformed_rule (env : Env) (tid : string) (t : Storage.Tenant)
      (incoming : Engine.RequestData) (w : World) (r : Engine.WafRule) :
  In r (visibleRules tid (db w)) ->
  Engine.enabled r = true ->
  RegExp.construct (Engine.pattern r) = None ->
  fst (process env tid t incoming w) = failure 500 "WAF processing error"
  /\ db (snd (process env tid t incoming w)) = db w
  /\ sse (snd (process env tid t incoming w)) = sse w.
Proof.
  intros Hin Hen Hbad. unfold process. fold (visibleRules tid (db w)).
  destruct (scanRules_throws
              incoming
              (Engine.allRules
                 (Engine.setCustomRules (visibleRules tid (db w)) (engine w))))
    with (ms := @nil Engine.Match) (ts := 0) as [e He].
  { exists r. repeat split; try assumption.
    unfold Engine.allRules, Engine.setCustomRules. cbn [Engine.customRules].
    apply List.in_or_app. right. apply List.filter_In. now split. }
  unfold Engine.analyzeRequest. rewrite He. now repeat split.
Qed.

(** X22. A rule created from a stored request without a pattern of its
    own takes the request's path as its pattern.  When that path is not a
    valid pattern (an unbalanced parenthesis is enough), the rule is
    stored all the same, enabled, and from then on every ingestion call
    for that tenant is answered 500 and stores nothing. *)
Theorem rule_from_request_can_break_ingress (newId id : string)
        (cbody : CreateRuleBody) (d : Storage.Db) (rq : Storage.RequestRow)
        (t : Storage.Tenant) (env : Env) (incoming : Engine.RequestData)
        (previous : Engine.WafEngine) (stream : list SseCall) :
  Storage.getRequest id d = Some rq ->
  rulePattern cbody = None ->
  RegExp.construct (Storage.path rq) = None ->
  Storage.getTenant (Storage.tenantId rq) d = Some t ->
  Storage.isActive t = true ->
  Storage.tenantId rq <> EmptyString ->
  let created := createRuleFromRequest newId id cbody d in
  let w := {| db := snd created; engine := previous; sse := stream |} in
  let call := {| tenantId := Some (Storage.tenantId rq);
                 request := Some incoming |} in
  (exists row,
      fst created = CreateRuleCreated row
      /\ Storage.rules (snd created) = Storage.rules d ++ [row]
      /\ Engine.enabled (Storage.rule row) = true
      /\ Engine.pattern (Storage.rule row) = Storage.path rq)
  /\ fst (ingress env call w) = failure 500 "WAF processing error"
  /\ db (snd (ingress env call w)) = snd created
  /\ sse (snd (ingress env call w)) = stream.
Proof.
  intros Hget Hpat Hbad Ht Hact Hne created w call. subst created w call.
  unfold createRuleFromRequest. rewrite Hget, Hpat. cbn [fst snd orDefault].
  split; [eexists; repeat split|].
  unfold ingress. cbn [tenantId request db].
  destruct (String.eqb_spec (Storage.tenantId rq) ""); [contradiction|].
  change (Storage.getTenant (Storage.tenantId rq) (Storage.createRule ?row d))
    with (Storage.getTenant (Storage.tenantId rq) d).
  rewrite Ht, Hact.
  match goal with
  | |- context [process env _ t incoming ?w0] =>
      destruct (process_malformed_rule
                  env (Storage.tenantId rq) t incoming w0
                  {| Engine.id := newId;
                     Engine.pattern := Storage.path rq;
                     Engine.targetField :=
                       orDefault (ruleTargetField cbody) "request";
                     Engine.severity := orDefault (ruleSeverity cbody) "medium";
                     Engine.category := orDefault (ruleCategory cbody) "custom";
                     Engine.enabled := true;
                     Engine.score := Some 10 |})
        as (Hr & Hd & Hs); [|reflexivity|exact Hbad|]
  end.
  - unfold visibleRules, Storage.getRulesByTenant, Storage.createRule.
    cbn [db Storage.rules]. apply List.in_or_app. right.
    rewrite List.filter_app, List.map_app. apply List.in_or_app. right.
    cbn [List.filter Storage.ruleTenantId Storage.sameScope].
    rewrite String.eqb_refl. now left.
  - now rewrite Hr, Hd, Hs.
Qed.

Lemma analyze_reads_only (body : IngressBody) (w : World) :
  db (snd (analyze body w)) = db w /\ sse (snd (analyze body w)) = sse w.
Proof.
  unfold analyze. destruct (tenantId body ≫= _); [|now split].
  destruct (request body); [|now split].
  now destruct (Engine.analyzeRequest _ _ _).
Qed.

(** X23. The analysis-only route stands behind [requireAuth], which the
    ingress route does not.  It writes nothing and broadcasts nothing,
    whatever the session and whatever it answers.  Without an
    authenticated session it answers 401 and leaves the engine alone as
    well, also for a call the ingress route answers 200.  With an
    authenticated session, whenever the ingress route answers 200 for a
    call, the route returns, for the same call on the same state, an
    analysis with the same action, score and number of matches. *)
Theorem analyze_route_agrees_with_ingress (isAuthenticated : option bool)
        (body : IngressBody) (w : World) :
  db (snd (analyzeRoute isAuthenticated body w)) = db w
  /\ sse (snd (analyzeRoute isAuthenticated body w)) = sse w
  /\ (isAuthenticated <> Some true ->
      analyzeRoute isAuthenticated body w
      = (AnalyzeFailure 401 "Unauthorized", w))
  /\ (isAuthenticated = Some true ->
      forall env rid act score matchCount,
        fst (ingress env body w)
        = {| status := 200; json := IngressResult rid act score matchCount |} ->
        exists result,
          fst (analyzeRoute isAuthenticated body w) = AnalyzeOk result
          /\ Engine.action result = act
          /\ Engine.resultScore result = score
          /\ Z.of_nat (length (Engine.matches result)) = matchCount).
Proof.
  unfold analyzeRoute, requireAuth.
  destruct isAuthenticated as [[|]|]; cbn [fst snd];
    (split; [|split; [|split]]);
    try reflexivity; try (intros; congruence);
    try apply analyze_reads_only.
  intros _ env rid act score matchCount H.
  destruct (ingress_success_inv _ _ _ _ _ _ _ H)
    as (tid & incoming & t & analysis & preview & Htid & Hreq & Ht & _ & _
        & Han & _ & _ & -> & -> & ->).
  exists analysis. unfold analyze. rewrite Htid, Hreq.
  cbn [mbind option_bind default].
  rewrite Ht. change (Datatypes.id tid) with tid.
  fold (visibleRules tid (db w)). rewrite Han. now repeat split.
Qed.

End IngressMore.

(** ** Storage: dashboard counts and the anonymization pass *)

Section StorageMore.
Import Js Spec Storage.

Lemma recent_partition (since : Z) (rows : list RequestRow) :
  Z.of_nat (length (List.filter (fun r => since <=? timestamp r) rows))
  = Z.of_nat (length (List.filter
                        (fun r => (since <=? timestamp r)
                                  && actionTaken_eqb (actionTaken r) AtDeny)
                        rows))
    + Z.of_nat (length (List.filter
                          (fun r => (since <=? timestamp r)
                                    && actionTaken_eqb (actionTaken r) AtMonitor)
                          rows))
    + Z.of_nat (length (List.filter
                          (fun r => (since <=? timestamp r)
                                    && actionTaken_eqb (actionTaken r) AtAllow)
                          rows))
    + Z.of_nat (length (List.filter
                          (fun r => (since <=? timestamp r)
                                    && actionTaken_eqb (actionTaken r) AtChallenge)
                          rows)).
Proof.
  induction rows as [|r rows IH]; [reflexivity|]. cbn [List.filter].
  destruct (since <=? timestamp r); cbn [andb]; [|exact IH].
  destruct (actionTaken r); cbn [actionTaken_eqb length]; lia.
Qed.

(** X24. The three dashboard buckets do not add up to the total: a row
    of the last 24 hours stored as [challenge] is counted in
    [totalRequests] and in none of blocked, flagged and allowed.  The
    total is the sum of the three buckets and the recent challenge rows,
    so the buckets sum to the total exactly when no recent request was
    challenged. *)
Theorem dashboard_counts_partition (now : Z) (d : Db) :
  totalRequests (getDashboardStats now d)
  = blockedRequests (getDashboardStats now d)
    + flaggedRequests (getDashboardStats now d)
    + allowedRequests (getDashboardStats now d)
    + challengedRequests now d
  /\ 0 <= challengedRequests now d
  /\ (blockedRequests (getDashboardStats now d)
      + flaggedRequests (getDashboardStats now d)
      + allowedRequests (getDashboardStats now d)
      = totalRequests (getDashboardStats now d)
      <-> challengedRequests now d = 0).
Proof.
  assert (H : totalRequests (getDashboardStats now d)
              = blockedRequests (getDashboardStats now d)
                + flaggedRequests (getDashboardStats now d)
                + allowedRequests (getDashboardStats now d)
                + challengedRequests now d).
  { unfold challengedRequests, getDashboardStats, countWhere.
    cbn [totalRequests blockedRequests flaggedRequests allowedRequests].
    apply recent_partition. }
  split; [exact H|]. split; [unfold challengedRequests, countWhere; lia|].
  rewrite H. lia.
Qed.

Lemma selected_after_anonymizeRow (tenant : string) (cutoff : Z)
      (r : RequestRow) :
  selectedForAnonymization tenant cutoff (anonymizeRow tenant cutoff r)
  = selectedForAnonymization tenant cutoff r.
Proof.
  unfold anonymizeRow.
  destruct (selectedForAnonymization tenant cutoff r) eqn:Hsel; [|exact Hsel].
  destruct (clientIp r) as [a|] eqn:Hip; [|exact Hsel].
  unfold selectedForAnonymization in *.
  cbn [withClientIp tenantId timestamp clientIp]. rewrite Hip in Hsel.
  apply andb_true_iff in Hsel as [-> Ha]. apply negb_true_iff in Ha.
  now rewrite (anonymizeIp_nonempty a Ha).
Qed.

(** X25. An anonymization pass changes nothing but client addresses: the
    table keeps its rows, in order, with every other column as it was,
    and rows of other tenants, rows newer than the cut-off and rows
    without an address are left exactly as they were.  The number it
    returns counts the rows visited, not the rows changed, so a second
    pass at the same time returns the same number although it changes
    nothing. *)
Theorem anonymizeOldIPs_touches_only_addresses (tenant : string)
        (days now : Z) (d : Db) :
  List.map otherColumns (requests (snd (anonymizeOldIPs tenant days now d)))
  = List.map otherColumns (requests d)
  /\ Forall2 (fun r r' =>
                selectedForAnonymization tenant (now - days * dayMs) r = false ->
                r' = r)
             (requests d) (requests (snd (anonymizeOldIPs tenant days now d)))
  /\ 0 <= fst (anonymizeOldIPs tenant days now d)
     <= Z.of_nat (length (requests d))
  /\ fst (anonymizeOldIPs tenant days now
                          (snd (anonymizeOldIPs tenant days now d)))
     = fst (anonymizeOldIPs tenant days now d).
Proof.
  unfold anonymizeOldIPs, withRequests. cbn [fst snd requests].
  set (cutoff := now - days * dayMs). repeat split.
  - rewrite List.map_map. apply List.map_ext. intros r. unfold anonymizeRow.
    destruct (selectedForAnonymization tenant cutoff r); [|reflexivity].
    now destruct (clientIp r).
  - induction (requests d) as [|r rows IH]; constructor; [|exact IH].
    unfold anonymizeRow. now intros ->.
  - lia.
  - pose proof (List.filter_length_le
                  (selectedForAnonymization tenant cutoff) (requests d)). lia.
  - f_equal. induction (requests d) as [|r rows IH]; [reflexivity|].
    cbn [List.map List.filter]. rewrite selected_after_anonymizeRow.
    destruct (selectedForAnonymization tenant cutoff r); cbn [length];
      now rewrite IH.
Qed.

End StorageMore.


(** * Runs of the further properties on concrete inputs *)

Section MoreRuns.
Import Js Engine Spec Examples.
#[local] Existing Instance RegExp.fragmentEngine.

(** Five calls inside one minute with a limit of 3: the first address is
    let through three times and refused once, the call of the other
    address in between does not count. *)
Lemma rate_limit_quota_witness :
  outcomesFor (Middleware.keyOf (Middleware.callReq firstLogin))
              (firstLogin :: laterLogins)
              (fst (Middleware.run 60000 3 (firstLogin :: laterLogins) ∅))
  = [Middleware.CalledNext; Middleware.CalledNext; Middleware.CalledNext;
     tooManyRequests].
Proof.
  etransitivity.
  - apply (rate_limit_quota 60000 3 ∅ firstLogin laterLogins).
    + lia.
    + intros e He. rewrite lookup_empty in He. discriminate.
    + repeat constructor; simpl; lia.
  - vm_compute. reflexivity.
Defined.

(** The same five calls, once with a cleanup at every call and once with
    none, are answered alike. *)
Lemma rate_limit_cleanup_unobservable_witness :
  fst (Middleware.run 60000 1 (loginSeries 0) ∅)
  = fst (Middleware.run 60000 1 (loginSeries 1) ∅).
Proof.
  apply (rate_limit_cleanup_unobservable 60000 1 (loginSeries 0)
           (loginSeries 1) ∅ 0).
  - repeat constructor.
  - simpl. lia.
Defined.

Lemma analyzeRequest_score_lattice_witness :
  exists result,
    analyzeRequest wafEngine unionRequest defaultThresholds = Normal result
    /\ In (resultScore result) [0; 25; 50; 75; 100]
    /\ (resultScore result = 0 <-> matches result = []).
Proof.
  eexists. split; [vm_compute; reflexivity|].
  apply (analyzeRequest_score_lattice wafEngine unionRequest defaultThresholds).
  vm_compute; reflexivity.
Defined.

Lemma analyzeRequest_order_independent_witness :
  exists result',
    analyzeRequest (setCustomRules [wholeRequestRule; adminRule] wafEngine)
                   adminRequest defaultThresholds
    = Normal result'
    /\ resultScore result' = resultScore adminAndVerbResult
    /\ action result' = action adminAndVerbResult
    /\ reason result' = reason adminAndVerbResult
    /\ Permutation (matches adminAndVerbResult) (matches result').
Proof.
  apply (analyzeRequest_order_independent
           [adminRule; wholeRequestRule] [wholeRequestRule; adminRule]
           wafEngine adminRequest defaultThresholds adminAndVerbResult).
  - apply perm_swap.
  - vm_compute; reflexivity.
Defined.

Lemma analyzeRequest_rules_only_add_witness :
  exists result extra,
    analyzeRequest (setCustomRules [adminRule] wafEngine) adminRequest
                   defaultThresholds
    = Normal result
    /\ matches adminAndVerbResult = matches result ++ extra
    /\ resultScore result <= resultScore adminAndVerbResult
    /\ restrictiveness (action result)
       <= restrictiveness (action adminAndVerbResult).
Proof.
  apply (analyzeRequest_rules_only_add [adminRule] [wholeRequestRule]
           wafEngine adminRequest defaultThresholds adminAndVerbResult).
  vm_compute; reflexivity.
Defined.

(** The rule on the whole request shows the first 100 characters of the
    serialised request, which is longer. *)
Lemma analyzeRequest_match_excerpts_witness :
  (100 < String.length (stringify (requestObject curlRequest)))%nat
  /\ exists result,
      analyzeRequest (setCustomRules [wholeRequestRule] wafEngine) curlRequest
                     defaultThresholds
      = Normal result
      /\ (length (matches result) <= 5)%nat
      /\ forall m,
          In m (matches result) ->
          (String.length (value m) <= 100)%nat
          /\ exists r,
              In r (allRules (setCustomRules [wholeRequestRule] wafEngine))
              /\ enabled r = true
              /\ ruleId m = id r /\ field m = targetField r
              /\ matchSeverity m = severity r
              /\ value m = substring 0 100 (shown (targetContent curlRequest r))
              /\ ((String.length (shown (targetContent curlRequest r)) <= 100)%nat ->
                  value m = shown (targetContent curlRequest r)).
Proof.
  split; [vm_compute; lia|].
  eexists. split; [vm_compute; reflexivity|].
  apply (analyzeRequest_match_excerpts
           (setCustomRules [wholeRequestRule] wafEngine) curlRequest
           defaultThresholds).
  vm_compute; reflexivity.
Defined.

Lemma default_thresholds_never_monitor_witness :
  exists result,
    analyzeRequest wafEngine unionRequest (Routes.thresholdsOf None)
    = Normal result
    /\ (forall s, reason result <> RequiresMonitoring s)
    /\ (resultScore result <= 25 ->
        action result = allow /\ reason result = PassedAllChecks)
    /\ (resultScore result = 50 -> action result = challenge)
    /\ (75 <= resultScore result -> action result = block).
Proof.
  eexists. split; [vm_compute; reflexivity|].
  apply (default_thresholds_never_monitor wafEngine unionRequest).
  vm_compute; reflexivity.
Defined.

(** With every threshold at 0 a request on which no rule fires is
    blocked. *)
Lemma thresholds_out_of_range_witness :
  exists result,
    analyzeRequest wafEngine (getRequest "/home" None) zeroThresholds
    = Normal result
    /\ matches result = []
    /\ ((blockThreshold zeroThresholds <= 0)%Q -> action result = block)
    /\ ((100 < blockThreshold zeroThresholds)%Q -> action result <> block)
    /\ ((100 < blockThreshold zeroThresholds)%Q ->
        (100 < challengeThreshold zeroThresholds)%Q ->
        (100 < monitorThreshold zeroThresholds)%Q ->
        action result = allow /\ reason result = PassedAllChecks).
Proof.
  eexists. split; [vm_compute; reflexivity|].
  split; [reflexivity|].
  apply (thresholds_out_of_range wafEngine (getRequest "/home" None)
           zeroThresholds).
  vm_compute; reflexivity.
Defined.

(** A rule on the field [user-agent] does not see the user agent of the
    request: [curl] is not found in the empty string. *)
Lemma unknown_target_field_sees_nothing_witness :
  exists regex result,
    RegExp.construct (pattern userAgentRule) = Some regex
    /\ analyzeRequest (setCustomRules [userAgentRule] wafEngine) curlRequest
                      defaultThresholds
       = Normal result
    /\ (In userAgentRule
           (firedRules curlRequest (setCustomRules [userAgentRule] wafEngine))
        <-> RegExp.test regex EmptyString = true)
    /\ value (matchOf curlRequest userAgentRule) = EmptyString
    /\ (RegExp.test regex EmptyString = true ->
        In (matchOf curlRequest userAgentRule) (matches result)).
Proof.
  eexists. eexists.
  split; [vm_compute; reflexivity|].
  split; [vm_compute; reflexivity|].
  apply (unknown_target_field_sees_nothing
           (setCustomRules [userAgentRule] wafEngine) curlRequest
           defaultThresholds).
  - vm_compute; reflexivity.
  - left; reflexivity.
  - reflexivity.
  - vm_compute; reflexivity.
  - reflexivity.
  - reflexivity.
Defined.

(** The tenant scrubs cookies: the stored headers hold no cookie, the
    stored excerpt of the rule on the headers does. *)
Lemma ingress_stores_scrubbed_headers_witness :
  exists row,
    Storage.requests
      (Routes.db (snd (Routes.ingress someEnv (callTo "acme" curlRequest)
                         (worldWithRules [ruleFor "acme" sessionRule]))))
    = [row]
    /\ getProperty "cookie" (Some (Storage.headersJson row)) = None
    /\ getProperty "user-agent" (Some (Storage.headersJson row))
       = Some (JStr "curl/8.0")
    /\ List.map value (Storage.wafHitsJson row)
       = [stringify (JObj [("cookie", JStr "sid=SECRET");
                           ("user-agent", JStr "curl/8.0")])].
Proof.
  destruct (ingress_stores_scrubbed_headers someEnv (callTo "acme" curlRequest)
              (worldWithRules [ruleFor "acme" sessionRule])
              "req-1" allow 25 1)
    as (tid & incoming & t & analysis & row & arow & Htid & Hreq & Ht & Han
        & Hrows & _ & Hhits & _ & Hstored & Hcookies & _).
  { vm_compute; reflexivity. }
  injection Htid as <-. injection Hreq as <-.
  vm_compute in Ht. injection Ht as <-.
  vm_compute in Han. injection Han as <-.
  exists row. split; [exact Hrows|].
  split; [apply Hcookies; reflexivity|].
  split; [rewrite Hstored; vm_compute; reflexivity|].
  rewrite Hhits. vm_compute. reflexivity.
Defined.

(** A score of 75 raises one alert, without severity. *)
Lemma ingress_alert_at_seventy_witness :
  exists alert,
    Storage.alerts
      (Routes.db (snd (Routes.ingress someEnv (callTo "acme" unionRequest)
                         someWorld)))
    = [alert]
    /\ Storage.alertSeverity alert = None
    /\ Storage.alertType alert = "unknown".
Proof.
  destruct (ingress_alert_at_seventy someEnv (callTo "acme" unionRequest)
              someWorld "req-1" block 75 1)
    as (tid & row & _ & _ & _ & Hhigh).
  { vm_compute; reflexivity. }
  destruct (Hhigh ltac:(lia)) as (alert & Halerts & _ & _ & Hsev & Htype & _).
  exists alert. repeat split; assumption.
Defined.

(** [createAnalysis] rejects on a call that would be answered 200: the
    caller receives a 500, and the request row is stored all the same,
    without analysis row and without broadcast. *)
Lemma ingress_failure_trace_witness :
  fst (Routes.ingressWithFaults analysisFails someEnv
         (callTo "acme" unionRequest) someWorld)
  = Routes.failure 500 "WAF processing error"
  /\ Storage.requests
       (Routes.db (snd (Routes.ingressWithFaults analysisFails someEnv
                          (callTo "acme" unionRequest) someWorld)))
     = Storage.requests
         (Routes.db (snd (Routes.ingress someEnv (callTo "acme" unionRequest)
                            someWorld)))
  /\ Storage.analyses
       (Routes.db (snd (Routes.ingressWithFaults analysisFails someEnv
                          (callTo "acme" unionRequest) someWorld)))
     = []
  /\ Routes.sse (snd (Routes.ingressWithFaults analysisFails someEnv
                        (callTo "acme" unionRequest) someWorld))
     = [].
Proof.
  destruct (ingress_failure_trace analysisFails someEnv
              (callTo "acme" unionRequest) someWorld)
    as (_ & _ & _ & Hlate & _).
  destruct Hlate as [Hrows Hrest]; [vm_compute; reflexivity|reflexivity|].
  destruct (Hrest eq_refl) as (Hanswer & Hanalyses & _ & Hsse).
  repeat split; assumption.
Defined.

(** A request with a JSON object as body is answered 500. *)
Lemma ingress_rejects_structured_body_witness :
  fst (Routes.ingress someEnv (callTo "acme" jsonBodyRequest) someWorld)
  = Routes.failure 500 "WAF processing error"
  /\ Routes.db (snd (Routes.ingress someEnv (callTo "acme" jsonBodyRequest)
                       someWorld))
     = Routes.db someWorld
  /\ Routes.sse (snd (Routes.ingress someEnv (callTo "acme" jsonBodyRequest)
                        someWorld))
     = Routes.sse someWorld.
Proof.
  apply (ingress_rejects_structured_body someEnv "acme" (tenantRow "acme" true)
           jsonBodyRequest (JObj [("name", JStr "kettle")]) someWorld).
  - discriminate.
  - reflexivity.
  - reflexivity.
  - reflexivity.
  - discriminate.
  - intros s; discriminate.
Defined.

(** A broken rule of another tenant does not disturb the calls for
    [acme]. *)
Lemma ingress_tenant_isolation_witness :
  fst (Routes.ingress someEnv (callTo "acme" unionRequest)
         (worldWithRules [ruleFor "globex" malformedRule]))
  = fst (Routes.ingress someEnv (callTo "acme" unionRequest) someWorld).
Proof.
  apply (ingress_tenant_isolation someEnv (callTo "acme" unionRequest)
           someWorld "acme" "globex" [] []
           (ruleFor "globex" malformedRule) wafEngine).
  - reflexivity.
  - reflexivity.
  - reflexivity.
  - discriminate.
Defined.

(** A stored request for [/wiki/Foo_(bar] turned into a rule: every later
    call for its tenant is answered 500. *)
Lemma rule_from_request_can_break_ingress_witness :
  fst (Routes.ingress someEnv (callTo "acme" adminRequest)
         {| Routes.db :=
              snd (Routes.createRuleFromRequest "rule-1" "req-0" noBody
                     dbWithWiki);
            Routes.engine := wafEngine;
            Routes.sse := [] |})
  = Routes.failure 500 "WAF processing error".
Proof.
  apply (rule_from_request_can_break_ingress "rule-1" "req-0" noBody dbWithWiki
           storedWikiRequest (tenantRow "acme" true) someEnv adminRequest
           wafEngine []).
  - reflexivity.
  - reflexivity.
  - vm_compute; reflexivity.
  - reflexivity.
  - reflexivity.
  - discriminate.
Defined.

(** A malformed rule in front of a rule that would fire: the call throws
    the SyntaxError.  Behind an enabled rule on [constructor] whose
    pattern is found, the same malformed rule is never reached and the
    call throws a TypeError. *)
Lemma analyzeRequest_malformed_pattern_witness :
  analyzeRequest (setCustomRules [malformedRule; adminRule] wafEngine)
                 adminRequest defaultThresholds
  = Throw SyntaxError
  /\ exists e,
      analyzeRequest (setCustomRules [constructorRule; malformedRule] wafEngine)
                     adminRequest defaultThresholds
      = Throw e
      /\ (e = SyntaxError
          \/ (e = TypeError
              /\ exists y, In y [constructorRule; malformedRule]
                           /\ enabled y = true /\ targetsMember y = true)).
Proof.
  split.
  - apply (analyzeRequest_malformed_pattern [malformedRule; adminRule] wafEngine
             adminRequest defaultThresholds fragment_defaultsCompile).
    + exists malformedRule. repeat split. now left.
    + repeat constructor.
  - apply (analyzeRequest_malformed_pattern [constructorRule; malformedRule]
             wafEngine adminRequest defaultThresholds fragment_defaultsCompile).
    exists malformedRule. repeat split. right. now left.
Defined.

(** The second call of the run above does throw the TypeError. *)
Example inherited_member_throws_TypeError :
  analyzeRequest (setCustomRules [constructorRule] wafEngine)
                 adminRequest defaultThresholds
  = Throw TypeError
  /\ analyzeRequest (setCustomRules [constructorRule; malformedRule] wafEngine)
                    adminRequest defaultThresholds
     = Throw TypeError.
Proof. split; vm_compute; reflexivity. Qed.

(** A call the ingress route answers 200 is refused by the analysis-only
    route when there is no session, and analysed when there is one. *)
Example analyze_route_needs_session :
  Routes.status (fst (Routes.ingress someEnv (callTo "acme" unionRequest)
                        someWorld))
  = 200
  /\ fst (Routes.analyzeRoute None (callTo "acme" unionRequest) someWorld)
     = Routes.AnalyzeFailure 401 "Unauthorized"
  /\ fst (Routes.analyzeRoute (Some false) (callTo "acme" unionRequest)
            someWorld)
     = Routes.AnalyzeFailure 401 "Unauthorized"
  /\ exists result,
      fst (Routes.analyzeRoute (Some true) (callTo "acme" unionRequest)
             someWorld)
      = Routes.AnalyzeOk result
      /\ action result = block /\ resultScore result = 75.
Proof.
  repeat split; try (vm_compute; reflexivity).
  eexists. split; [vm_compute; reflexivity|]. split; reflexivity.
Qed.

End MoreRuns.
